(** * LetsFinance: the period-based aggregation and reporting logic

    A shallow embedding of the pure computations behind the dashboard
    ([Dashboard]), the reports view ([Reports]), the transaction list
    ([TransactionList]) and the store handlers of [App], followed by the
    properties stated about them.

    Modelling conventions.
    - A JavaScript [number] holding an amount or a balance is an exact
      integer ([Z]): amounts are whole currency units, and integer
      arithmetic on doubles is exact below 2^53.
    - A [Date] is its time value in milliseconds since the epoch, [None]
      standing for the invalid date (NaN).  The calendar arithmetic follows
      the abstract operations of ECMA-262 (Day, DayFromYear, YearFromTime,
      MonthFromTime, DateFromTime, WeekDay, MakeDay, MakeDate, LocalTime,
      UTC).  The local time zone is a fixed offset [LocalTZA] (no daylight
      saving), and time values are not clipped to the Date range.
    - A string is a sequence of code units; [<=] on strings is the
      lexicographic comparison of code units.
    - A date string is parsed as [new Date] parses the date-only form
      [YYYY-MM-DD] of a day that exists, the form that the entry form
      writes: midnight UTC of that day.  The model gives the invalid
      date for every other string; the engine accepts some of them (the
      other ISO forms, and fallbacks of its own), so no property below
      rests on a string being rejected, or on the instant of a string of
      another form.
    - A [Record<string, T>] filled by the code is an association list in
      insertion order, which is the enumeration order of [Object.keys],
      [Object.entries] and [Object.values] for keys that are not array
      indices.  The objects keyed by category names, which the user
      enters, are modelled with the members they inherit from
      [Object.prototype] ([JS.lookup], [JS.assign]); the objects keyed by
      dates and by labels of the locale are modelled by their own
      properties alone.
    - [sort] is the stable sort that the language requires for a
      consistent comparator; for a comparator that is not consistent
      (one that meets NaN) the order is left to the engine, and no
      property below is stated in that case. *)

From Stdlib Require Import ZArith List String Ascii Bool Lia Permutation.
From Stdlib Require Import DecimalString Sorted.
From stdpp Require Import base list.
Import ListNotations.

Local Open Scope string_scope.
Local Open Scope Z_scope.
Local Open Scope list_scope.

(** ** Data model ([types.ts]) *)

Inductive TransactionType := INCOME | EXPENSE.

Inductive AccountType := CASH | BANK | E_WALLET.

Record Account := mkAccount {
  acc_id : string;
  acc_name : string;
  acc_type : AccountType;
  initialBalance : Z
}.

Record Transaction := mkTransaction {
  tx_id : string;
  date : string;
  amount : Z;
  tx_type : TransactionType;
  category : string;
  description : string;
  merchant : option string;
  accountId : option string
}.

Definition TransactionType_eqb (a b : TransactionType) : bool :=
  match a, b with
  | INCOME, INCOME | EXPENSE, EXPENSE => true
  | _, _ => false
  end.

(** ** The [Date] built-in *)

Module JSDate.

Definition msPerDay : Z := 86400000.
Definition msPerHour : Z := 3600000.
Definition msPerMinute : Z := 60000.
Definition msPerSecond : Z := 1000.

Definition Day (t : Z) : Z := t / msPerDay.
Definition TimeWithinDay (t : Z) : Z := t mod msPerDay.

Definition InLeapYear (y : Z) : bool :=
  (y mod 4 =? 0) && (negb (y mod 100 =? 0) || (y mod 400 =? 0)).

Definition DaysInYear (y : Z) : Z := if InLeapYear y then 366 else 365.

Definition DayFromYear (y : Z) : Z :=
  365 * (y - 1970) + (y - 1969) / 4 - (y - 1901) / 100 + (y - 1601) / 400.

(** [YearFromDay d] is the largest [y] with [DayFromYear y <= d]: the
    estimate from the mean year length is off by at most one. *)
Definition YearFromDay (d : Z) : Z :=
  let y0 := 1970 + (d * 400) / 146097 in
  if DayFromYear (y0 + 1) <=? d then y0 + 1
  else if DayFromYear y0 <=? d then y0
  else y0 - 1.

Definition YearFromTime (t : Z) : Z := YearFromDay (Day t).

Definition DayWithinYear (t : Z) : Z := Day t - DayFromYear (YearFromTime t).

(** Number of days of the year that precede month [m] (0 = January). *)
Definition DaysBeforeMonth (leap : bool) (m : Z) : Z :=
  let l := if leap then 1 else 0 in
  if m <=? 0 then 0
  else if m =? 1 then 31
  else if m =? 2 then 59 + l
  else if m =? 3 then 90 + l
  else if m =? 4 then 120 + l
  else if m =? 5 then 151 + l
  else if m =? 6 then 181 + l
  else if m =? 7 then 212 + l
  else if m =? 8 then 243 + l
  else if m =? 9 then 273 + l
  else if m =? 10 then 304 + l
  else 334 + l.

Definition MonthFromDayInYear (leap : bool) (d : Z) : Z :=
  if d <? DaysBeforeMonth leap 1 then 0
  else if d <? DaysBeforeMonth leap 2 then 1
  else if d <? DaysBeforeMonth leap 3 then 2
  else if d <? DaysBeforeMonth leap 4 then 3
  else if d <? DaysBeforeMonth leap 5 then 4
  else if d <? DaysBeforeMonth leap 6 then 5
  else if d <? DaysBeforeMonth leap 7 then 6
  else if d <? DaysBeforeMonth leap 8 then 7
  else if d <? DaysBeforeMonth leap 9 then 8
  else if d <? DaysBeforeMonth leap 10 then 9
  else if d <? DaysBeforeMonth leap 11 then 10
  else 11.

Definition MonthFromTime (t : Z) : Z :=
  MonthFromDayInYear (InLeapYear (YearFromTime t)) (DayWithinYear t).

Definition DateFromTime (t : Z) : Z :=
  DayWithinYear t
  - DaysBeforeMonth (InLeapYear (YearFromTime t)) (MonthFromTime t) + 1.

Definition WeekDay (t : Z) : Z := (Day t + 4) mod 7.

Definition MakeTime (h m s ms : Z) : Z :=
  h * msPerHour + m * msPerMinute + s * msPerSecond + ms.

Definition MakeDay (year month dt : Z) : Z :=
  let ym := year + month / 12 in
  let mn := month mod 12 in
  DayFromYear ym + DaysBeforeMonth (InLeapYear ym) mn + dt - 1.

Definition MakeDate (day time : Z) : Z := day * msPerDay + time.

Definition DaysInMonth (year month : Z) : Z :=
  MakeDay year (month + 1) 1 - MakeDay year month 1.

Definition MinFromTime (t : Z) : Z := (t / msPerMinute) mod 60.
Definition SecFromTime (t : Z) : Z := (t / msPerSecond) mod 60.
Definition msFromTime (t : Z) : Z := t mod msPerSecond.

(** *** Parsing the date-only form [YYYY-MM-DD]

    A date-only string denotes midnight UTC of the day it names.  This
    is the one form modelled: the model gives the invalid date for every
    other string, though the engine reads some of them as dates. *)

Definition digit (c : ascii) : option Z :=
  let n := Z.of_nat (nat_of_ascii c) in
  if (48 <=? n) && (n <=? 57) then Some (n - 48) else None.

Definition digits2 (a b : ascii) : option Z :=
  match digit a, digit b with
  | Some x, Some y => Some (10 * x + y)
  | _, _ => None
  end.

Definition digits4 (a b c d : ascii) : option Z :=
  match digits2 a b, digits2 c d with
  | Some x, Some y => Some (100 * x + y)
  | _, _ => None
  end.

Definition dash : ascii := "-"%char.

Definition parseFields (s : string) : option (Z * Z * Z) :=
  match s with
  | String y1 (String y2 (String y3 (String y4 (String s1
      (String m1 (String m2 (String s2 (String d1 (String d2 EmptyString))))))))) =>
      if Ascii.eqb s1 dash && Ascii.eqb s2 dash then
        match digits4 y1 y2 y3 y4, digits2 m1 m2, digits2 d1 d2 with
        | Some y, Some m, Some d => Some (y, m, d)
        | _, _, _ => None
        end
      else None
  | _ => None
  end.

Definition validFields (y m d : Z) : bool :=
  (1 <=? m) && (m <=? 12) && (1 <=? d) && (d <=? DaysInMonth y (m - 1)).

(** [Date.parse], on the date-only form. *)
Definition parse (s : string) : option Z :=
  match parseFields s with
  | Some (y, m, d) =>
      if validFields y m d then Some (MakeDate (MakeDay y (m - 1) d) 0) else None
  | None => None
  end.

Section LocalTime.

Variable LocalTZA : Z.

Definition LocalTime (t : Z) : Z := t + LocalTZA.
Definition UTC (t : Z) : Z := t - LocalTZA.

(** [new Date(year, month, date)] *)
Definition ofFields (year month dt : Z) : Z :=
  let yr := if (0 <=? year) && (year <=? 99) then 1900 + year else year in
  UTC (MakeDate (MakeDay yr month dt) (MakeTime 0 0 0 0)).

Definition getFullYear (t : Z) : Z := YearFromTime (LocalTime t).
Definition getMonth (t : Z) : Z := MonthFromTime (LocalTime t).
Definition getDate (t : Z) : Z := DateFromTime (LocalTime t).
Definition getDay (t : Z) : Z := WeekDay (LocalTime t).

(** [d.setHours(h)]: the minutes, seconds and milliseconds are kept. *)
Definition setHours1 (h : Z) (t : Z) : Z :=
  let l := LocalTime t in
  UTC (MakeDate (Day l) (MakeTime h (MinFromTime l) (SecFromTime l) (msFromTime l))).

(** [d.setHours(h, m, s, ms)] *)
Definition setHours4 (h m s ms : Z) (t : Z) : Z :=
  let l := LocalTime t in
  UTC (MakeDate (Day l) (MakeTime h m s ms)).

(** [d.setDate(dt)] *)
Definition setDate (dt : Z) (t : Z) : Z :=
  let l := LocalTime t in
  UTC (MakeDate (MakeDay (YearFromTime l) (MonthFromTime l) dt) (TimeWithinDay l)).

End LocalTime.

(** Comparison of two dates by their time values; false when one is NaN. *)
Definition geq (a b : option Z) : bool :=
  match a, b with
  | Some x, Some y => y <=? x
  | _, _ => false
  end.

Definition leq (a b : option Z) : bool := geq b a.

(** [a === b] on the numbers returned by the getters. *)
Definition same (a b : option Z) : bool :=
  match a, b with
  | Some x, Some y => x =? y
  | _, _ => false
  end.

End JSDate.


(** ** Strings, arrays and records of JavaScript *)

Module JS.

(** [a <= b] on strings. *)
Definition str_le (a b : string) : bool := String.leb a b.

(** [s.includes(sub)] *)
Fixpoint includes (s sub : string) : bool :=
  String.prefix sub s ||
  match s with
  | EmptyString => false
  | String _ s' => includes s' sub
  end.

Definition lower_char (c : ascii) : ascii :=
  let n := nat_of_ascii c in
  if (65 <=? n)%nat && (n <=? 90)%nat then ascii_of_nat (n + 32) else c.

(** [s.toLowerCase()], on the letters A to Z. *)
Fixpoint toLowerCase (s : string) : string :=
  match s with
  | EmptyString => EmptyString
  | String c s' => String (lower_char c) (toLowerCase s')
  end.

(** [n.toString()] of an integer. *)
Definition toString (n : Z) : string := NilZero.string_of_int (Z.to_int n).

(** [Number(s)] for the text of a number field that is empty or a
    decimal integer numeral, the amounts of this model. *)
Definition Number (s : string) : Z :=
  match NilZero.int_of_string s with
  | Some i => Z.of_int i
  | None => 0
  end.

(** Truthiness of a string that may be undefined. *)
Definition truthy (s : option string) : bool :=
  match s with
  | Some v => negb (String.eqb v "")
  | None => false
  end.

(** [x || 0] for a number that may be undefined. *)
Definition or0 (x : option Z) : Z :=
  match x with
  | Some v => if v =? 0 then 0 else v
  | None => 0
  end.

(** [xs.includes(x)] on an array of strings. *)
Definition mem (x : string) (xs : list string) : bool :=
  existsb (String.eqb x) xs.

(** [xs.slice(start, end)], negative indices counting from the end. *)
Definition slice {A : Type} (start end_ : Z) (xs : list A) : list A :=
  let len := Z.of_nat (length xs) in
  let k := if start <? 0 then Z.max (len + start) 0 else Z.min start len in
  let final := if end_ <? 0 then Z.max (len + end_) 0 else Z.min end_ len in
  firstn (Z.to_nat (final - k)) (skipn (Z.to_nat k) xs).

(** [xs.sort(cmp)] is a stable sort: [a] stays before [b] unless
    [cmp a b > 0].  It is modelled by insertion from the right. *)
Fixpoint insert {A : Type} (cmp : A -> A -> Z) (x : A) (xs : list A) : list A :=
  match xs with
  | [] => [x]
  | y :: ys => if cmp x y <=? 0 then x :: xs else y :: insert cmp x ys
  end.

Definition sort {A : Type} (cmp : A -> A -> Z) (xs : list A) : list A :=
  fold_right (insert cmp) [] xs.

(** [a - b] on numbers that may be NaN; a NaN result counts as 0 in [sort]. *)
Definition sub (a b : option Z) : Z :=
  match a, b with
  | Some x, Some y => x - y
  | _, _ => 0
  end.

(** A [Record<string, V>] in insertion order. *)
Definition Record (V : Type) : Type := list (string * V).

Fixpoint get {V : Type} (k : string) (r : Record V) : option V :=
  match r with
  | [] => None
  | (k', v) :: r' => if String.eqb k k' then Some v else get k r'
  end.

(** [r[k] = v]: an existing key keeps its place, a new key goes last. *)
Fixpoint set {V : Type} (k : string) (v : V) (r : Record V) : Record V :=
  match r with
  | [] => [(k, v)]
  | (k', v') :: r' =>
      if String.eqb k k' then (k', v) :: r' else (k', v') :: set k v r'
  end.

Definition keys {V : Type} (r : Record V) : list string := map fst r.
Definition values {V : Type} (r : Record V) : list V := map snd r.

(** *** Objects that map category names to numbers

    [const map: Record<string, number> = {}] is an ordinary object: it
    inherits the members of [Object.prototype], so [map[k]] is defined
    for their names before anything is stored, and what
    [map[k] = (map[k] || 0) + n] stores under such a name is a string. *)

(** What a property of such an object holds: a number, or a string. *)
Inductive Value := Num (n : Z) | Str (s : string).

(** The names of the members of [Object.prototype]. *)
Definition objectPrototype : list string :=
  [ "constructor"; "__defineGetter__"; "__defineSetter__"; "hasOwnProperty";
    "__lookupGetter__"; "__lookupSetter__"; "isPrototypeOf"; "propertyIsEnumerable";
    "toString"; "valueOf"; "__proto__"; "toLocaleString" ].

Definition inherits (k : string) : bool := mem k objectPrototype.

(** The string that [+] makes of the inherited member [k]:
    [Object.prototype] itself for [__proto__], a built-in function for
    the other names. *)
Definition memberText (k : string) : string :=
  if String.eqb k "__proto__" then "[object Object]"
  else if String.eqb k "constructor" then "function Object() { [native code] }"
  else ("function " ++ k ++ "() { [native code] }")%string.

(** [r[k]]: the own property, else the inherited member (an object,
    given by its string form), else undefined. *)
Definition lookup (k : string) (r : Record Value) : option Value :=
  match get k r with
  | Some v => Some v
  | None => if inherits k then Some (Str (memberText k)) else None
  end.

(** [(x || 0) + n]: the sum of two numbers, else the concatenation. *)
Definition orZeroPlus (x : option Value) (n : Z) : Value :=
  match x with
  | None => Num n
  | Some (Num v) => Num (or0 (Some v) + n)
  | Some (Str s) => if String.eqb s "" then Num n else Str (s ++ toString n)
  end.

(** [r[k] = v] for a primitive [v]: the setter of [__proto__] ignores
    it; under any other name it becomes, or replaces, an own property. *)
Definition assign (k : string) (v : Value) (r : Record Value) : Record Value :=
  if String.eqb k "__proto__" then r else set k v r.

(** [r[k] = (r[k] || 0) + n] *)
Definition addTo (k : string) (n : Z) (r : Record Value) : Record Value :=
  assign k (orZeroPlus (lookup k r) n) r.

(** [r[k]] for a key [k] of [r]. *)
Definition read (k : string) (r : Record Value) : Value :=
  match lookup k r with
  | Some v => v
  | None => Num 0
  end.

(** [ToNumber]; a string stored by [addTo] starts with the text of an
    inherited member and is not a numeral. *)
Definition toNumber (v : Value) : option Z :=
  match v with
  | Num n => Some n
  | Str _ => None
  end.

(** [a - b] on two such values. *)
Definition minus (a b : Value) : Z := sub (toNumber a) (toNumber b).

(** [xs.reduce((sum, x) => sum + f x, 0)] *)
Definition sumOf {A : Type} (f : A -> Z) (xs : list A) : Z :=
  fold_left (fun sum x => sum + f x) xs 0.

End JS.

(** ** The reports view ([components/Reports.tsx]) *)

Module Reports.

Inductive Period := WEEKLY | MONTHLY | YEARLY | CUSTOM.

Record CustomRange := mkRange { start : string; end_ : string }.

Record Stats := mkStats { income : Z; expense : Z; profit : Z }.

Record LineItem := mkLineItem { item_name : string; item_amount : JS.Value }.

Record AccountingData := mkAccounting {
  incomeList : list LineItem;
  expenseList : list LineItem
}.

Record Bar := mkBar {
  bar_name : string;
  bar_income : Z;
  bar_expense : Z;
  sortDate : option Z
}.

Record CategoryBar := mkCategoryBar {
  cat_name : string;
  cat_income : Z;
  cat_expense : Z
}.

Record Slice := mkSlice { slice_name : string; value : JS.Value }.

Section View.

(** The environment: the local time zone and the locale's formats.
    [monthShort m] is [toLocaleString('default', {month: 'short'})] of a
    date in month [m]; [dayMonth d m] and [dayMonthYear d m y] are
    [toLocaleDateString('id-ID', ...)] with a numeric day, a short month
    and, for the second, a two-digit year; [invalidDate] is what they
    return on the invalid date. *)
Variable LocalTZA : Z.
Variable monthShort : Z -> string.
Variable dayMonth : Z -> Z -> string.
Variable dayMonthYear : Z -> Z -> Z -> string.
Variable invalidDate : string.

(** The props and the state of the component. *)
Variable transactions : list Transaction.
Variable period : Period.
Variable currentDate : Z.
Variable customRange : CustomRange.
Variable selectedCategories : list string.

Definition startOfWeek : Z :=
  let startOfWeek := currentDate in
  let day := if JSDate.getDay LocalTZA startOfWeek =? 0 then 7
             else JSDate.getDay LocalTZA startOfWeek in
  let startOfWeek :=
    if negb (day =? 1) then JSDate.setHours1 LocalTZA (-24 * (day - 1)) startOfWeek
    else startOfWeek in
  JSDate.setHours4 LocalTZA 0 0 0 0 startOfWeek.

Definition endOfWeek : Z :=
  let endOfWeek := startOfWeek in
  let endOfWeek :=
    JSDate.setDate LocalTZA (JSDate.getDate LocalTZA endOfWeek + 6) endOfWeek in
  JSDate.setHours4 LocalTZA 23 59 59 999 endOfWeek.

(** The callback of the filter in [filteredData]. *)
Definition inPeriod (t : Transaction) : bool :=
  let tDate := JSDate.parse (date t) in
  let tDateStr := date t in
  match period with
  | CUSTOM =>
      JS.str_le (start customRange) tDateStr && JS.str_le tDateStr (end_ customRange)
  | WEEKLY =>
      JSDate.geq tDate (Some startOfWeek) && JSDate.leq tDate (Some endOfWeek)
  | MONTHLY =>
      JSDate.same (JSDate.getMonth LocalTZA <$> tDate)
                  (Some (JSDate.getMonth LocalTZA currentDate))
      && JSDate.same (JSDate.getFullYear LocalTZA <$> tDate)
                     (Some (JSDate.getFullYear LocalTZA currentDate))
  | YEARLY =>
      JSDate.same (JSDate.getFullYear LocalTZA <$> tDate)
                  (Some (JSDate.getFullYear LocalTZA currentDate))
  end.

Definition filteredData : list Transaction := List.filter inPeriod transactions.

Definition stats : Stats :=
  let '(income, expense) :=
    fold_left (fun '(income, expense) t =>
                 match tx_type t with
                 | INCOME => (income + amount t, expense)
                 | EXPENSE => (income, expense + amount t)
                 end) filteredData (0, 0) in
  mkStats income expense (income - expense).

Definition byAmountDesc (a b : LineItem) : Z := JS.minus (item_amount b) (item_amount a).

Definition lineItems (groups : JS.Record JS.Value) : list LineItem :=
  JS.sort byAmountDesc (map (fun '(name, amount) => mkLineItem name amount) groups).

Definition accountingData : AccountingData :=
  let dataToUse :=
    if (0 <? Z.of_nat (length selectedCategories))
    then List.filter (fun t => JS.mem (category t) selectedCategories) filteredData
    else filteredData in
  let '(incomeGroups, expenseGroups) :=
    fold_left (fun '(incomeGroups, expenseGroups) t =>
                 match tx_type t with
                 | INCOME =>
                     (JS.addTo (category t) (amount t) incomeGroups, expenseGroups)
                 | EXPENSE =>
                     (incomeGroups, JS.addTo (category t) (amount t) expenseGroups)
                 end) dataToUse ([], []) in
  mkAccounting (lineItems incomeGroups) (lineItems expenseGroups).

(** The key and the sort date of the bucket of a transaction. *)
Definition bucketOf (t : Transaction) : string * option Z :=
  let dateObj := JSDate.parse (date t) in
  match period with
  | YEARLY =>
      (match dateObj with
       | Some d => monthShort (JSDate.getMonth LocalTZA d)
       | None => invalidDate
       end,
       (fun d => JSDate.ofFields LocalTZA (JSDate.getFullYear LocalTZA currentDate)
                   (JSDate.getMonth LocalTZA d) 1) <$> dateObj)
  | CUSTOM =>
      (match dateObj with
       | Some d => dayMonthYear (JSDate.getDate LocalTZA d) (JSDate.getMonth LocalTZA d)
                     (JSDate.getFullYear LocalTZA d)
       | None => invalidDate
       end, dateObj)
  | _ =>
      (match dateObj with
       | Some d => dayMonth (JSDate.getDate LocalTZA d) (JSDate.getMonth LocalTZA d)
       | None => invalidDate
       end, dateObj)
  end.

Definition addToBar (t : Transaction) (b : Bar) : Bar :=
  match tx_type t with
  | INCOME => mkBar (bar_name b) (bar_income b + amount t) (bar_expense b) (sortDate b)
  | EXPENSE => mkBar (bar_name b) (bar_income b) (bar_expense b + amount t) (sortDate b)
  end.

(** The months of the year of [currentDate], filled in for the yearly view. *)
Definition prefilled : JS.Record Bar :=
  match period with
  | YEARLY =>
      fold_left (fun grouped i =>
                   let d := JSDate.ofFields LocalTZA
                              (JSDate.getFullYear LocalTZA currentDate) i 1 in
                   let key := monthShort (JSDate.getMonth LocalTZA d) in
                   JS.set key (mkBar key 0 0 (Some d)) grouped)
                (map Z.of_nat (seq 0 12)) []
  | _ => []
  end.

Definition accumulate (grouped : JS.Record Bar) (t : Transaction) : JS.Record Bar :=
  let '(key, sortDate) := bucketOf t in
  let grouped :=
    match JS.get key grouped with
    | Some _ => grouped
    | None => JS.set key (mkBar key 0 0 sortDate) grouped
    end in
  match JS.get key grouped with
  | Some b => JS.set key (addToBar t b) grouped
  | None => grouped
  end.

Definition bySortDate (a b : Bar) : Z := JS.sub (sortDate a) (sortDate b).

Definition chartData : list Bar :=
  JS.sort bySortDate (JS.values (fold_left accumulate filteredData prefilled)).

(** Under the name of a member of [Object.prototype], [grouped[t.category]]
    is that member: no bar is created, and the sums go to the member. *)
Definition categoryComparisonData : list CategoryBar :=
  let dataToProcess :=
    if (0 <? Z.of_nat (length selectedCategories))
    then List.filter (fun t => JS.mem (category t) selectedCategories) filteredData
    else filteredData in
  let grouped :=
    fold_left (fun grouped t =>
                 if JS.inherits (category t) then grouped
                 else
                 let grouped :=
                   match JS.get (category t) grouped with
                   | Some _ => grouped
                   | None => JS.set (category t) (mkCategoryBar (category t) 0 0) grouped
                   end in
                 match JS.get (category t) grouped with
                 | Some g =>
                     JS.set (category t)
                       (match tx_type t with
                        | INCOME =>
                            mkCategoryBar (cat_name g) (cat_income g + amount t)
                              (cat_expense g)
                        | EXPENSE =>
                            mkCategoryBar (cat_name g) (cat_income g)
                              (cat_expense g + amount t)
                        end) grouped
                 | None => grouped
                 end) dataToProcess [] in
  JS.sort (fun a b => (cat_income b + cat_expense b) - (cat_income a + cat_expense a))
          (JS.values grouped).

Definition filteredExpenseData : list Transaction :=
  let expenses := List.filter (fun t => TransactionType_eqb (tx_type t) EXPENSE) filteredData in
  if (0 <? Z.of_nat (length selectedCategories))
  then List.filter (fun t => JS.mem (category t) selectedCategories) expenses
  else expenses.

Definition categoryData : list Slice :=
  let map_ :=
    fold_left (fun map_ t => JS.addTo (category t) (amount t) map_)
              filteredExpenseData [] in
  JS.sort (fun a b => JS.minus (value b) (value a))
          (map (fun key => mkSlice key (JS.read key map_)) (JS.keys map_)).

Definition byAmountDescTx (a b : Transaction) : Z := amount b - amount a.

(** The value of [topExpenses]; the effect of its in-place sort on
    [filteredExpenseData] is the subject of the [Heap] module below. *)
Definition topExpenses : list Transaction :=
  JS.slice 0 5 (JS.sort byAmountDescTx filteredExpenseData).

End View.

(** The sum of the amounts of a list of line items; [None] is NaN, the
    outcome when an amount is not a number. *)
Definition sumOfAmounts (items : list LineItem) : option Z :=
  fold_left (fun sum item =>
               match sum, JS.toNumber (item_amount item) with
               | Some s, Some n => Some (s + n)
               | _, _ => None
               end) items (Some 0).

(** The net recomputed from the line items of the income statement. *)
Definition netOfLineItems (a : AccountingData) : option Z :=
  match sumOfAmounts (incomeList a), sumOfAmounts (expenseList a) with
  | Some i, Some e => Some (i - e)
  | _, _ => None
  end.

End Reports.

(** ** The dashboard ([components/Dashboard.tsx]) *)

Module Dashboard.

Inductive DashboardPeriod :=
  TODAY | THIS_WEEK | THIS_MONTH | LAST_MONTH | THIS_YEAR | ALL.

Record Slice := mkSlice { slice_name : string; value : JS.Value }.

Record Stats := mkStats {
  income : Z;
  expense : Z;
  balance : Z;
  categoryData : list Slice
}.

(** [{...acc, currentBalance}] *)
Record AccountBalance := mkBalance { account : Account; currentBalance : Z }.

Record Bar := mkBar { bar_name : string; masuk : Z; keluar : Z; order : option Z }.

Record Rendered := mkRendered {
  r_filteredTransactions : list Transaction;
  r_stats : Stats;
  r_accountBalances : list AccountBalance;
  r_totalAssets : Z;
  r_chartData : list Bar
}.

Definition isMonthlyView (p : DashboardPeriod) : bool :=
  match p with
  | THIS_YEAR | ALL => true
  | _ => false
  end.

(** [s.substr(-2)] *)
Definition substrLast2 (s : string) : string :=
  String.substring (String.length s - 2) 2 s.

Section View.

(** The environment.  [now] is the instant returned by [new Date()]
    during the render; [weekdayShort w] is
    [toLocaleDateString('id-ID', {weekday: 'short'})] of a date falling on
    weekday [w]. *)
Variable LocalTZA : Z.
Variable monthShort : Z -> string.
Variable weekdayShort : Z -> string.
Variable invalidDate : string.
Variable now : Z.

(** The props and the state of the component. *)
Variable transactions : list Transaction.
Variable accounts : list Account.
Variable period : DashboardPeriod.

Definition startOfDay : Z :=
  JSDate.ofFields LocalTZA (JSDate.getFullYear LocalTZA now)
    (JSDate.getMonth LocalTZA now) (JSDate.getDate LocalTZA now).

(** The callback of the filter in [filteredTransactions].  The case
    [THIS_WEEK] moves the shared [now] back to Monday 00:00, so the
    callback threads the current value of [now]. *)
Definition keep (now : Z) (t : Transaction) : bool * Z :=
  let tDate := JSDate.parse (date t) in
  match period with
  | TODAY => (JSDate.geq tDate (Some startOfDay), now)
  | THIS_WEEK =>
      let day := if JSDate.getDay LocalTZA now =? 0 then 7
                 else JSDate.getDay LocalTZA now in
      let now := if negb (day =? 1)
                 then JSDate.setHours1 LocalTZA (-24 * (day - 1)) now else now in
      let now := JSDate.setHours4 LocalTZA 0 0 0 0 now in
      (JSDate.geq tDate (Some now), now)
  | THIS_MONTH =>
      (JSDate.same (JSDate.getMonth LocalTZA <$> tDate)
                   (Some (JSDate.getMonth LocalTZA now))
       && JSDate.same (JSDate.getFullYear LocalTZA <$> tDate)
                      (Some (JSDate.getFullYear LocalTZA now)), now)
  | LAST_MONTH =>
      let lastMonth := JSDate.ofFields LocalTZA (JSDate.getFullYear LocalTZA now)
                         (JSDate.getMonth LocalTZA now - 1) 1 in
      (JSDate.same (JSDate.getMonth LocalTZA <$> tDate)
                   (Some (JSDate.getMonth LocalTZA lastMonth))
       && JSDate.same (JSDate.getFullYear LocalTZA <$> tDate)
                      (Some (JSDate.getFullYear LocalTZA lastMonth)), now)
  | THIS_YEAR =>
      (JSDate.same (JSDate.getFullYear LocalTZA <$> tDate)
                   (Some (JSDate.getFullYear LocalTZA now)), now)
  | ALL => (true, now)
  end.

Fixpoint filterFrom (now : Z) (ts : list Transaction) : list Transaction :=
  match ts with
  | [] => []
  | t :: ts' =>
      let '(k, now') := keep now t in
      if k then t :: filterFrom now' ts' else filterFrom now' ts'
  end.

Definition filteredTransactions : list Transaction := filterFrom now transactions.

Definition stats : Stats :=
  let '(income, expense, categoryMap) :=
    fold_left (fun '(income, expense, categoryMap) t =>
                 match tx_type t with
                 | INCOME => (income + amount t, expense, categoryMap)
                 | EXPENSE =>
                     (income, expense + amount t,
                      JS.addTo (category t) (amount t) categoryMap)
                 end) filteredTransactions (0, 0, []) in
  let categoryData :=
    JS.sort (fun a b => JS.minus (value b) (value a))
      (map (fun key => mkSlice key (JS.read key categoryMap)) (JS.keys categoryMap)) in
  mkStats income expense (income - expense) categoryData.

(** [t.accountId === acc.id] *)
Definition onAccount (acc : Account) (t : Transaction) : bool :=
  match accountId t with
  | Some a => String.eqb a (acc_id acc)
  | None => false
  end.

Definition accountBalances : list AccountBalance :=
  map (fun acc =>
         let accIncome :=
           JS.sumOf amount
             (List.filter (fun t => onAccount acc t && TransactionType_eqb (tx_type t) INCOME)
                          transactions) in
         let accExpense :=
           JS.sumOf amount
             (List.filter (fun t => onAccount acc t && TransactionType_eqb (tx_type t) EXPENSE)
                          transactions) in
         mkBalance acc (JS.or0 (Some (initialBalance acc)) + accIncome - accExpense))
      accounts.

Definition totalAssets : Z := JS.sumOf currentBalance accountBalances.

Definition prefilled : JS.Record Bar :=
  if isMonthlyView period && (match period with THIS_YEAR => true | _ => false end) then
    fold_left (fun data i =>
                 let d := JSDate.ofFields LocalTZA (JSDate.getFullYear LocalTZA now) i 1 in
                 let key := monthShort (JSDate.getMonth LocalTZA d) in
                 JS.set key (mkBar key 0 0 (Some i)) data)
              (map Z.of_nat (seq 0 12)) []
  else
    match period with
    | THIS_MONTH | LAST_MONTH =>
        let isLast := match period with LAST_MONTH => true | _ => false end in
        let year := if isLast && (JSDate.getMonth LocalTZA now =? 0)
                    then JSDate.getFullYear LocalTZA now - 1
                    else JSDate.getFullYear LocalTZA now in
        let month := if isLast
                     then (if JSDate.getMonth LocalTZA now =? 0 then 11
                           else JSDate.getMonth LocalTZA now - 1)
                     else JSDate.getMonth LocalTZA now in
        let daysInMonth :=
          JSDate.getDate LocalTZA (JSDate.ofFields LocalTZA year (month + 1) 0) in
        fold_left (fun data i =>
                     let d := JSDate.ofFields LocalTZA year month i in
                     let key := JS.toString (JSDate.getDate LocalTZA d) in
                     JS.set key (mkBar key 0 0 (Some i)) data)
                  (map (fun k => Z.of_nat k + 1) (seq 0 (Z.to_nat daysInMonth))) []
    | _ => []
    end.

(** The key and the order of the bucket of a transaction. *)
Definition bucketOf (t : Transaction) : string * option Z :=
  match JSDate.parse (date t) with
  | Some tDate =>
      if isMonthlyView period then
        match period with
        | ALL =>
            ((monthShort (JSDate.getMonth LocalTZA tDate) ++ " "
                ++ substrLast2 (JS.toString (JSDate.getFullYear LocalTZA tDate)))%string,
             Some tDate)
        | _ => (monthShort (JSDate.getMonth LocalTZA tDate),
                Some (JSDate.getMonth LocalTZA tDate))
        end
      else
        match period with
        | THIS_WEEK | TODAY =>
            (weekdayShort (JSDate.getDay LocalTZA tDate),
             Some (if JSDate.getDay LocalTZA tDate =? 0 then 7
                   else JSDate.getDay LocalTZA tDate))
        | _ => (JS.toString (JSDate.getDate LocalTZA tDate),
                Some (JSDate.getDate LocalTZA tDate))
        end
  | None =>
      if isMonthlyView period then
        match period with
        | ALL => ((invalidDate ++ " aN")%string, None)
        | _ => (invalidDate, None)
        end
      else
        match period with
        | THIS_WEEK | TODAY => (invalidDate, None)
        | _ => ("NaN", None)
        end
  end.

Definition addToBar (t : Transaction) (b : Bar) : Bar :=
  match tx_type t with
  | INCOME => mkBar (bar_name b) (masuk b + amount t) (keluar b) (order b)
  | EXPENSE => mkBar (bar_name b) (masuk b) (keluar b + amount t) (order b)
  end.

Definition accumulate (data : JS.Record Bar) (t : Transaction) : JS.Record Bar :=
  let '(key, order) := bucketOf t in
  let data :=
    match JS.get key data with
    | Some _ => data
    | None => JS.set key (mkBar key 0 0 order) data
    end in
  match JS.get key data with
  | Some b => JS.set key (addToBar t b) data
  | None => data
  end.

Definition byOrder (a b : Bar) : Z := JS.sub (order a) (order b).

(** The keys that are day numbers are array indices, which [Object.values]
    lists in ascending order; they are filled in ascending order, so the
    insertion order is the same. *)

Definition chartData : list Bar :=
  JS.sort byOrder (JS.values (fold_left accumulate filteredTransactions prefilled)).

(** Everything one render derives from the props and the period. *)
Definition render : Rendered :=
  mkRendered filteredTransactions stats accountBalances totalAssets chartData.

End View.

End Dashboard.

(** ** The transaction list ([components/TransactionList.tsx]) *)

Module TransactionList.

Inductive FilterType := F_ALL | F_INCOME | F_EXPENSE.

Inductive SortOrder := NEWEST | OLDEST | HIGHEST | LOWEST.

Definition FilterType_eqb (a b : FilterType) : bool :=
  match a, b with
  | F_ALL, F_ALL | F_INCOME, F_INCOME | F_EXPENSE, F_EXPENSE => true
  | _, _ => false
  end.

Definition SortOrder_eqb (a b : SortOrder) : bool :=
  match a, b with
  | NEWEST, NEWEST | OLDEST, OLDEST | HIGHEST, HIGHEST | LOWEST, LOWEST => true
  | _, _ => false
  end.

Definition ITEMS_PER_PAGE : Z := 10.

(** [Math.ceil(n / d)] for a positive [d]. *)
Definition ceilDiv (n d : Z) : Z := - ((- n) / d).

Definition matchesSearch (searchTerm : string) (t : Transaction) : bool :=
  JS.includes (JS.toLowerCase (description t)) (JS.toLowerCase searchTerm)
  || JS.includes (JS.toLowerCase (category t)) (JS.toLowerCase searchTerm)
  || (JS.truthy (merchant t)
      && match merchant t with
         | Some m => JS.includes (JS.toLowerCase m) (JS.toLowerCase searchTerm)
         | None => false
         end)
  || JS.includes (JS.toString (amount t)) searchTerm.

Definition matchesType (filterType : FilterType) (t : Transaction) : bool :=
  match filterType with
  | F_ALL => true
  | F_INCOME => TransactionType_eqb (tx_type t) INCOME
  | F_EXPENSE => TransactionType_eqb (tx_type t) EXPENSE
  end.

(** The comparator handed to [result.sort]. *)
Definition compare (sortOrder : SortOrder) (a b : Transaction) : Z :=
  match sortOrder with
  | NEWEST => JS.sub (JSDate.parse (date b)) (JSDate.parse (date a))
  | OLDEST => JS.sub (JSDate.parse (date a)) (JSDate.parse (date b))
  | HIGHEST => amount b - amount a
  | LOWEST => amount a - amount b
  end.

Record Group := mkGroup { group_transactions : list Transaction; total : Z }.

Record Summary := mkSummary { income : Z; expense : Z }.

Section View.

(** The props and the state of the component. *)
Variable transactions : list Transaction.
Variable searchTerm : string.
Variable filterType : FilterType.
Variable sortOrder : SortOrder.
Variable currentPage : Z.

Definition processedTransactions : list Transaction :=
  let result :=
    List.filter (fun t => matchesSearch searchTerm t && matchesType filterType t)
                transactions in
  JS.sort (compare sortOrder) result.

Definition totalPages : Z :=
  ceilDiv (Z.of_nat (length processedTransactions)) ITEMS_PER_PAGE.

Definition paginatedTransactions : list Transaction :=
  let startIndex := (currentPage - 1) * ITEMS_PER_PAGE in
  JS.slice startIndex (startIndex + ITEMS_PER_PAGE) processedTransactions.

Definition groupedTransactions : JS.Record Group :=
  fold_left (fun groups t =>
               let groups :=
                 match JS.get (date t) groups with
                 | Some _ => groups
                 | None => JS.set (date t) (mkGroup [] 0) groups
                 end in
               match JS.get (date t) groups with
               | Some g =>
                   JS.set (date t)
                     (mkGroup (group_transactions g ++ [t])
                        (match tx_type t with
                         | INCOME => total g + amount t
                         | EXPENSE => total g - amount t
                         end)) groups
               | None => groups
               end) paginatedTransactions [].

Definition viewSummary : Summary :=
  mkSummary
    (JS.sumOf amount
       (List.filter (fun t => TransactionType_eqb (tx_type t) INCOME) processedTransactions))
    (JS.sumOf amount
       (List.filter (fun t => TransactionType_eqb (tx_type t) EXPENSE) processedTransactions)).

End View.

(** *** The component as a transition system

    The state holds the props and the state variables; an event is a
    click on a control or a change of the [transactions] prop made by
    the parent ([App.executeConfirm]). *)

Record State := mkState {
  transactions : list Transaction;
  searchTerm : string;
  filterType : FilterType;
  sortOrder : SortOrder;
  currentPage : Z
}.

Inductive Event :=
| PrevPage
| NextPage
| SetSearchTerm (s : string)
| SetFilterType (f : FilterType)
| SetSortOrder (o : SortOrder)
| Deleted (id : string)
| Cleared.

Definition processed (s : State) : list Transaction :=
  processedTransactions (transactions s) (searchTerm s) (filterType s) (sortOrder s).

Definition pages (s : State) : Z :=
  totalPages (transactions s) (searchTerm s) (filterType s) (sortOrder s).

(** What the list shows in state [s]. *)
Definition shown (s : State) : list Transaction :=
  paginatedTransactions (transactions s) (searchTerm s) (filterType s) (sortOrder s)
    (currentPage s).

(** The pagination bar is rendered only when there is more than one page. *)
Definition barShown (s : State) : bool :=
  ITEMS_PER_PAGE <? Z.of_nat (length (processed s)).

Definition withPage (s : State) (p : Z) : State :=
  mkState (transactions s) (searchTerm s) (filterType s) (sortOrder s) p.

(** One event.  A button that is hidden or disabled does nothing; the
    effect on [searchTerm], [filterType] and [sortOrder] resets the page
    when one of them changes. *)
Definition step (s : State) (e : Event) : State :=
  match e with
  | PrevPage =>
      if barShown s && negb (currentPage s =? 1)
      then withPage s (Z.max 1 (currentPage s - 1)) else s
  | NextPage =>
      if barShown s && negb (currentPage s =? pages s)
      then withPage s (Z.min (pages s) (currentPage s + 1)) else s
  | SetSearchTerm x =>
      if String.eqb x (searchTerm s) then s
      else mkState (transactions s) x (filterType s) (sortOrder s) 1
  | SetFilterType f =>
      if FilterType_eqb f (filterType s) then s
      else mkState (transactions s) (searchTerm s) f (sortOrder s) 1
  | SetSortOrder o =>
      if SortOrder_eqb o (sortOrder s) then s
      else mkState (transactions s) (searchTerm s) (filterType s) o 1
  | Deleted id =>
      mkState (List.filter (fun t => negb (String.eqb (tx_id t) id)) (transactions s))
        (searchTerm s) (filterType s) (sortOrder s) (currentPage s)
  | Cleared =>
      mkState [] (searchTerm s) (filterType s) (sortOrder s) (currentPage s)
  end.

Definition run (s : State) (es : list Event) : State := fold_left step es s.

(** The state in which the component is mounted. *)
Definition initial (ts : list Transaction) : State := mkState ts "" F_ALL NEWEST 1.

End TransactionList.

(** ** The store handlers of [App] *)

Module App.

(** The outcome of reading a key of local storage: no entry, an entry
    that [JSON.parse] rejects, or the parsed value. *)
Inductive Stored (A : Type) :=
| Absent
| Corrupt
| Parsed (a : A).

Arguments Absent {A}.
Arguments Corrupt {A}.
Arguments Parsed {A} a.



(** [loadedAccounts[0]?.id] *)
Definition firstId (accounts : list Account) : option string :=
  match accounts with
  | a :: _ => Some (acc_id a)
  | [] => None
  end.

Definition withAccountId (t : Transaction) (a : option string) : Transaction :=
  mkTransaction (tx_id t) (date t) (amount t) (tx_type t) (category t)
    (description t) (merchant t) a.

Definition withId (t : Transaction) (i : string) : Transaction :=
  mkTransaction i (date t) (amount t) (tx_type t) (category t)
    (description t) (merchant t) (accountId t).



(** [addTransaction]; [t] carries every field but the id, which is the
    decimal form of [Date.now()]. *)
Definition addTransaction (accounts : list Account) (nowMs : Z)
    (t : Transaction) (prev : list Transaction) : list Transaction :=
  let txData :=
    if negb (JS.truthy (accountId t)) && (0 <? Z.of_nat (length accounts))
    then withAccountId t (firstId accounts) else t in
  let newTransaction := withId txData (JS.toString nowMs) in
  newTransaction :: prev.

(** The fields of a backup file read by [handleImportData]; a field
    that is absent or falsy is [None]. *)
Record Backup := mkBackup {
  backup_transactions : option (list Transaction);
  backup_accounts : option (list Account)
}.

(** [handleImportData] on the store of transactions and accounts: a file
    that cannot be parsed or has no array of transactions changes
    nothing. *)
Definition handleImportData (file : Stored Backup)
    (store : list Transaction * list Account) : list Transaction * list Account :=
  match file with
  | Parsed json =>
      match backup_transactions json with
      | Some ts =>
          (ts, match backup_accounts json with
               | Some accounts => accounts
               | None => snd store
               end)
      | None => store
      end
  | _ => store
  end.

(** [executeConfirm] on a pending deletion or clearing. *)
Definition deleteTransaction (id : string) (prev : list Transaction) : list Transaction :=
  List.filter (fun t => negb (String.eqb (tx_id t) id)) prev.

End App.

(** ** The entry form ([components/TransactionForm.tsx]) *)

Module TransactionForm.

Record FormData := mkFormData {
  fd_date : string;
  fd_amount : string;
  fd_type : TransactionType;
  fd_category : string;
  fd_description : string;
  fd_merchant : string;
  fd_accountId : string
}.

(** [accounts.length > 0 ? accounts[0].id : ''], the account the form
    starts with. *)
Definition defaultAccount (accounts : list Account) : string :=
  match accounts with
  | a :: _ => acc_id a
  | [] => ""
  end.

(** The value that [handleSubmit] passes to [onAddTransaction]; it has
    no id yet. *)
Definition handleSubmit (accounts : list Account) (formData : FormData) : Transaction :=
  mkTransaction "" (fd_date formData) (JS.Number (fd_amount formData)) (fd_type formData)
    (fd_category formData) (fd_description formData) (Some (fd_merchant formData))
    (Some (if negb (String.eqb (fd_accountId formData) "") then fd_accountId formData
           else match accounts with
                | a :: _ => acc_id a
                | [] => "unknown"
                end)).

(** A submission: [App] renders the form with
    [onAddTransaction={addTransaction}]. *)
Definition submit (accounts : list Account) (nowMs : Z) (formData : FormData)
    (prev : list Transaction) : list Transaction :=
  App.addTransaction accounts nowMs (handleSubmit accounts formData) prev.

End TransactionForm.

(** ** The settings ([components/Settings.tsx]) *)

Module Settings.

(** [removeAccount]; [confirmed] is the answer to the confirmation
    dialog.  The transactions are not touched. *)
Definition removeAccount (confirmed : bool) (id : string) (accounts : list Account)
  : list Account :=
  if Z.of_nat (length accounts) <=? 1 then accounts
  else if confirmed
       then List.filter (fun a => negb (String.eqb (acc_id a) id)) accounts
       else accounts.

End Settings.

(** ** Arrays as shared objects

    [filter] and [slice] build a new array, while [sort] reorders the
    array it is called on and returns that same array.  To follow which
    arrays a hook changes, arrays are kept in a store and the hooks
    receive and return references. *)

Module Heap.

Definition ref : Type := nat.

Abbreviation store := (list (list Transaction)).

Definition M (A : Type) : Type := store -> A * store.

Definition ret {A : Type} (a : A) : M A := fun h => (a, h).

Definition bind {A B : Type} (m : M A) (k : A -> M B) : M B :=
  fun h => let '(a, h') := m h in k a h'.

Notation "x <- m ;; k" := (bind m (fun x => k))
  (at level 100, m at next level, right associativity).

(** The array behind a reference. *)
Definition contents (h : store) (r : ref) : list Transaction := default [] (h !! r).

Definition alloc (xs : list Transaction) : M ref := fun h => (length h, h ++ [xs]).

Definition read (r : ref) : M (list Transaction) := fun h => (contents h r, h).

Definition write (r : ref) (xs : list Transaction) : M unit :=
  fun h => (tt, <[r := xs]> h).

(** [r.filter(f)] *)
Definition filter (f : Transaction -> bool) (r : ref) : M ref :=
  xs <- read r ;; alloc (List.filter f xs).

(** [r.slice(start, end)] *)
Definition slice (start end_ : Z) (r : ref) : M ref :=
  xs <- read r ;; alloc (JS.slice start end_ xs).

(** [r.sort(cmp)] *)
Definition sort (cmp : Transaction -> Transaction -> Z) (r : ref) : M ref :=
  xs <- read r ;; _ <- write r (JS.sort cmp xs) ;; ret r.

(** The hooks of [Reports] that produce arrays of transactions. *)
Section ReportsHooks.

Variable LocalTZA : Z.
Variable period : Reports.Period.
Variable currentDate : Z.
Variable customRange : Reports.CustomRange.
Variable selectedCategories : list string.

Definition filteredData (transactions : ref) : M ref :=
  filter (Reports.inPeriod LocalTZA period currentDate customRange) transactions.

Definition filteredExpenseData (filteredData : ref) : M ref :=
  expenses <- filter (fun t => TransactionType_eqb (tx_type t) EXPENSE) filteredData ;;
  if (0 <? Z.of_nat (length selectedCategories))
  then filter (fun t => JS.mem (category t) selectedCategories) expenses
  else ret expenses.

Definition topExpenses (filteredExpenseData : ref) : M ref :=
  sorted <- sort Reports.byAmountDescTx filteredExpenseData ;;
  slice 0 5 sorted.

(** One render of the view: the arrays it builds, in the order of the
    hooks. *)
Record Rendered := mkRendered {
  r_filteredData : ref;
  r_filteredExpenseData : ref;
  r_topExpenses : ref
}.

Definition render (transactions : ref) : M Rendered :=
  fd <- filteredData transactions ;;
  fe <- filteredExpenseData fd ;;
  te <- topExpenses fe ;;
  ret (mkRendered fd fe te).

End ReportsHooks.

(** The hooks of [TransactionList]. *)
Section ListHooks.

Variable searchTerm : string.
Variable filterType : TransactionList.FilterType.
Variable sortOrder : TransactionList.SortOrder.
Variable currentPage : Z.

Definition processedTransactions (transactions : ref) : M ref :=
  result <- filter (fun t => TransactionList.matchesSearch searchTerm t
                             && TransactionList.matchesType filterType t) transactions ;;
  sort (TransactionList.compare sortOrder) result.

Definition paginatedTransactions (processedTransactions : ref) : M ref :=
  let startIndex := (currentPage - 1) * TransactionList.ITEMS_PER_PAGE in
  slice startIndex (startIndex + TransactionList.ITEMS_PER_PAGE) processedTransactions.

End ListHooks.

End Heap.

(** ** Vocabulary of the properties *)

Module Spec.

(** Lexicographic order of two strings, code unit by code unit. *)
Inductive lex_le : string -> string -> Prop :=
| lex_le_empty s : lex_le EmptyString s
| lex_le_head c1 c2 s1 s2 :
    (nat_of_ascii c1 < nat_of_ascii c2)%nat -> lex_le (String c1 s1) (String c2 s2)
| lex_le_tail c s1 s2 : lex_le s1 s2 -> lex_le (String c s1) (String c s2).

(** [a] precedes [b]. *)
Definition lex_lt (a b : string) : Prop := lex_le a b /\ a <> b.

Definition isIncome (t : Transaction) : bool := TransactionType_eqb (tx_type t) INCOME.
Definition isExpense (t : Transaction) : bool := TransactionType_eqb (tx_type t) EXPENSE.

(** The sum of the amounts of the transactions that satisfy [p]. *)
Fixpoint total (p : Transaction -> bool) (ts : list Transaction) : Z :=
  match ts with
  | [] => 0
  | t :: ts' => (if p t then amount t else 0) + total p ts'
  end.

(** The transaction references the account. *)
Definition references (acc : Account) (t : Transaction) : bool :=
  match accountId t with
  | Some a => String.eqb a (acc_id acc)
  | None => false
  end.

(** The transaction references some account of the list. *)
Definition referencesSome (accounts : list Account) (t : Transaction) : Prop :=
  exists acc, In acc accounts /\ accountId t = Some (acc_id acc).

(** The months of a year, January being 0. *)
Definition months : list Z := map Z.of_nat (seq 0 12).

(** The yearly charts file the transaction under month [m]: the instant
    that its date parses to falls in month [m] in local time. *)
Definition filedUnder (LocalTZA m : Z) (t : Transaction) : bool :=
  match JSDate.parse (date t) with
  | Some d => JSDate.getMonth LocalTZA d =? m
  | None => false
  end.

(** The date of the transaction is written [YYYY-MM-DD] with the month
    [m] (January being 0). *)
Definition inMonth (m : Z) (t : Transaction) : bool :=
  match JSDate.parseFields (date t) with
  | Some (_, mo, _) => mo =? m + 1
  | None => false
  end.

(** The date of the transaction is written [YYYY-MM-DD] and names a day
    that exists. *)
Definition wellDated (t : Transaction) : Prop :=
  exists y m d,
    JSDate.parseFields (date t) = Some (y, m, d) /\ JSDate.validFields y m d = true.

(** The sum of a list of integers. *)
Definition sum (xs : list Z) : Z := fold_right Z.add 0 xs.

(** The short month names of an English locale, a sample [monthShort]. *)
Definition monthShortEn (m : Z) : string :=
  nth (Z.to_nat m)
    ["Jan"; "Feb"; "Mar"; "Apr"; "May"; "Jun"; "Jul"; "Aug"; "Sep"; "Oct"; "Nov"; "Dec"] "".

(** The time value of the date of a transaction (0 when it is invalid). *)
Definition time (t : Transaction) : Z :=
  match JSDate.parse (date t) with
  | Some v => v
  | None => 0
  end.

(** The loop [r[key t] = (r[key t] || 0) + val t] over a list. *)
Definition addAll {T : Type} (key : T -> string) (val : T -> Z)
    (ts : list T) (r : JS.Record Z) : JS.Record Z :=
  fold_left (fun g t => JS.set (key t) (JS.or0 (JS.get (key t) g) + val t) g) ts r.

(** The sum of [val] over the elements with key [c]. *)
Fixpoint sumFor {T : Type} (key : T -> string) (val : T -> Z) (c : string)
    (ts : list T) : Z :=
  match ts with
  | [] => 0
  | t :: ts' => (if String.eqb (key t) c then val t else 0) + sumFor key val c ts'
  end.

(** A record of numbers as the object that holds them. *)
Definition numbers (r : JS.Record Z) : JS.Record JS.Value :=
  map (fun kv => (fst kv, JS.Num (snd kv))) r.

(** The number held by a value that is one (0 for a string). *)
Definition number (v : JS.Value) : Z :=
  match v with
  | JS.Num n => n
  | JS.Str _ => 0
  end.

(** The length of month [m] of a year that is leap or not. *)
Definition monthLength (leap : bool) (m : Z) : Z :=
  if m =? 11 then 31 else JSDate.DaysBeforeMonth leap (m + 1) - JSDate.DaysBeforeMonth leap m.

(** Incomes minus expenses. *)
Definition net (ts : list Transaction) : Z := total isIncome ts - total isExpense ts.

End Spec.

(** * Properties *)

(** ** The embedding on concrete inputs *)

Example parse_2024_01_10 : JSDate.parse "2024-01-10" = Some 1704844800000.
Proof. reflexivity. Qed.

Example parse_of_the_empty_string : JSDate.parse "" = None.
Proof. reflexivity. Qed.

(** 10 January 2024 is a Wednesday; seven hours east of UTC the date
    string still reads as that day, five hours west it reads as the day
    before. *)
Example local_fields_of_2024_01_10 :
  JSDate.getDay 25200000 1704844800000 = 3
  /\ JSDate.getDate 25200000 1704844800000 = 10
  /\ JSDate.getDate (-18000000) 1704844800000 = 9.
Proof. repeat split. Qed.

Example new_Date_2024_minus1_1 :
  JSDate.getFullYear 25200000 (JSDate.ofFields 25200000 2024 (-1) 1) = 2023
  /\ JSDate.getMonth 25200000 (JSDate.ofFields 25200000 2024 (-1) 1) = 11
  /\ JSDate.getDate 25200000 (JSDate.ofFields 25200000 2024 (-1) 1) = 1.
Proof. repeat split. Qed.

Example sort_is_stable :
  JS.sort (fun a b => fst b - fst a) [(1, "a"); (3, "b"); (1, "c"); (3, "d"); (2, "e")]
  = [(3, "b"); (3, "d"); (2, "e"); (1, "a"); (1, "c")].
Proof. reflexivity. Qed.

Example slice_examples :
  JS.slice 0 5 [1; 2; 3] = [1; 2; 3] /\ JS.slice 10 20 [1; 2; 3] = []
  /\ JS.slice 1 2 [1; 2; 3] = [2] /\ JS.slice (-2) 3 [1; 2; 3] = [2; 3].
Proof. repeat split. Qed.

(** One income of 100 and two expenses of 40 and 20 in March 2024, seen
    on 15 March 2024: the totals of the dashboard for THIS_MONTH are 100,
    60 and 40, and the chart has a bucket for each of the 31 days, the
    first two holding (100, 40) and (0, 20). *)
Example march_2024_on_the_dashboard :
  let txs := [ mkTransaction "1" "2024-03-01" 100 INCOME "Penjualan" "" None (Some "1");
               mkTransaction "2" "2024-03-01" 40 EXPENSE "Makanan & Minuman" "" None (Some "1");
               mkTransaction "3" "2024-03-02" 20 EXPENSE "Stok Barang" "" None (Some "1") ] in
  let s := Dashboard.stats 25200000 1710500400000 txs Dashboard.THIS_MONTH in
  let chart := Dashboard.chartData 25200000 Spec.monthShortEn (fun _ => "") "Invalid Date"
                 1710500400000 txs Dashboard.THIS_MONTH in
  (Dashboard.income s, Dashboard.expense s, Dashboard.balance s) = (100, 60, 40)
  /\ length chart = 31%nat
  /\ map (fun b => (Dashboard.bar_name b, Dashboard.masuk b, Dashboard.keluar b))
         (firstn 3 chart)
     = [("1", 100, 40); ("2", 0, 20); ("3", 0, 0)].
Proof. vm_compute. repeat split. Qed.

(** ** Strings *)

Lemma ascii_compare_lt (a b : ascii) :
  Ascii.compare a b = Lt <-> (nat_of_ascii a < nat_of_ascii b)%nat.
Proof.
  unfold Ascii.compare. rewrite N.compare_lt_iff.
  unfold nat_of_ascii. lia.
Qed.

Lemma ascii_compare_refl (a : ascii) : Ascii.compare a a = Eq.
Proof. unfold Ascii.compare. apply N.compare_refl. Qed.

Lemma str_le_lex (a b : string) : JS.str_le a b = true <-> Spec.lex_le a b.
Proof.
  unfold JS.str_le, String.leb. revert b.
  induction a as [|c a IH]; intros [|d b]; simpl.
  - split; [constructor | reflexivity].
  - split; [constructor | reflexivity].
  - split; [discriminate | inversion 1].
  - destruct (Ascii.compare c d) eqn:E.
    + apply Ascii.compare_eq_iff in E. subst d. rewrite IH. split.
      * now constructor.
      * inversion 1; subst; [lia | assumption].
    + split; [intros _ | reflexivity].
      apply Spec.lex_le_head. now apply ascii_compare_lt.
    + split; [discriminate |].
      rewrite Ascii.compare_antisym in E.
      destruct (Ascii.compare d c) eqn:E'; try discriminate.
      apply ascii_compare_lt in E'.
      inversion 1; subst; lia.
Qed.

Lemma lex_le_refl (a : string) : Spec.lex_le a a.
Proof. induction a; now constructor. Qed.

Lemma lex_le_trans (a b c : string) :
  Spec.lex_le a b -> Spec.lex_le b c -> Spec.lex_le a c.
Proof.
  intros Hab. revert c.
  induction Hab as [s | c1 c2 s1 s2 Hlt | c1 s1 s2 Hab IH]; intros c Hbc.
  - constructor.
  - inversion Hbc; subst.
    + apply Spec.lex_le_head. lia.
    + now apply Spec.lex_le_head.
  - inversion Hbc; subst.
    + now apply Spec.lex_le_head.
    + apply Spec.lex_le_tail. now apply IH.
Qed.

Lemma lex_le_antisym (a b : string) :
  Spec.lex_le a b -> Spec.lex_le b a -> a = b.
Proof.
  intros Hab Hba. apply String.leb_antisym; now apply str_le_lex.
Qed.

(** ** The custom period *)

Lemma custom_filter_In
    (LocalTZA currentDate : Z) (transactions : list Transaction)
    (customRange : Reports.CustomRange) (t : Transaction) :
  In t (Reports.filteredData LocalTZA transactions Reports.CUSTOM currentDate customRange)
  <-> In t transactions
      /\ JS.str_le (Reports.start customRange) (date t) = true
      /\ JS.str_le (date t) (Reports.end_ customRange) = true.
Proof.
  unfold Reports.filteredData. rewrite filter_In. unfold Reports.inPeriod.
  now rewrite andb_true_iff.
Qed.

(** C4.  For the CUSTOM period a transaction is in the filtered subset
    exactly when it is in the list and its date string lies between the
    start and the end of the range in lexicographic order, both ends
    included. *)
Theorem custom_period_is_inclusive_string_range
    (LocalTZA currentDate : Z) (transactions : list Transaction)
    (customRange : Reports.CustomRange) (t : Transaction) :
  In t (Reports.filteredData LocalTZA transactions Reports.CUSTOM currentDate customRange)
  <-> In t transactions
      /\ Spec.lex_le (Reports.start customRange) (date t)
      /\ Spec.lex_le (date t) (Reports.end_ customRange).
Proof. rewrite custom_filter_In, !str_le_lex. reflexivity. Qed.

Lemma custom_filter_nil_of_reversed
    (LocalTZA currentDate : Z) (transactions : list Transaction)
    (customRange : Reports.CustomRange) :
  Spec.lex_lt (Reports.end_ customRange) (Reports.start customRange) ->
  Reports.filteredData LocalTZA transactions Reports.CUSTOM currentDate customRange = [].
Proof.
  intros [Hle Hne].
  destruct (Reports.filteredData _ _ _ _ _) as [|t l] eqn:E; [reflexivity | exfalso].
  assert (Hin : In t (Reports.filteredData LocalTZA transactions Reports.CUSTOM
                        currentDate customRange)) by (rewrite E; now left).
  apply custom_filter_In in Hin as (_ & H1 & H2).
  apply str_le_lex in H1, H2.
  apply Hne. apply lex_le_antisym; [assumption |].
  eapply lex_le_trans; eassumption.
Qed.

(** C5.  A custom range whose end precedes its start selects nothing:
    the filtered subset is empty, and so are the totals, the line items,
    the chart, the category distribution and the top expenses computed
    from it.  Every function involved is total, so no error reaches the
    caller. *)
Theorem custom_range_reversed_gives_empty_report
    (LocalTZA currentDate : Z) (monthShort : Z -> string)
    (dayMonth : Z -> Z -> string) (dayMonthYear : Z -> Z -> Z -> string)
    (invalidDate : string) (transactions : list Transaction)
    (customRange : Reports.CustomRange) (selectedCategories : list string) :
  Spec.lex_lt (Reports.end_ customRange) (Reports.start customRange) ->
  Reports.filteredData LocalTZA transactions Reports.CUSTOM currentDate customRange = []
  /\ Reports.stats LocalTZA transactions Reports.CUSTOM currentDate customRange
     = Reports.mkStats 0 0 0
  /\ Reports.accountingData LocalTZA transactions Reports.CUSTOM currentDate customRange
       selectedCategories = Reports.mkAccounting [] []
  /\ Reports.chartData LocalTZA monthShort dayMonth dayMonthYear invalidDate
       transactions Reports.CUSTOM currentDate customRange = []
  /\ Reports.categoryData LocalTZA transactions Reports.CUSTOM currentDate customRange
       selectedCategories = []
  /\ Reports.topExpenses LocalTZA transactions Reports.CUSTOM currentDate customRange
       selectedCategories = [].
Proof.
  intros Hrev.
  pose proof (custom_filter_nil_of_reversed LocalTZA currentDate transactions
                customRange Hrev) as Hnil.
  unfold Reports.stats, Reports.accountingData, Reports.chartData,
    Reports.categoryData, Reports.topExpenses, Reports.filteredExpenseData.
  rewrite Hnil. simpl.
  destruct (0 <? Z.of_nat (length selectedCategories)); simpl; auto 10.
Qed.

Lemma custom_range_reversed_gives_empty_report_witness :
  let tx := mkTransaction "1" "2024-03-05" 100 INCOME "Penjualan" "" None (Some "1") in
  let range := Reports.mkRange "2024-03-10" "2024-03-01" in
  Reports.filteredData 25200000 [tx] Reports.CUSTOM 1710500400000 range = []
  /\ Reports.stats 25200000 [tx] Reports.CUSTOM 1710500400000 range
     = Reports.mkStats 0 0 0.
Proof.
  intros tx range.
  assert (H : Spec.lex_lt (Reports.end_ range) (Reports.start range)).
  { split; [apply str_le_lex; reflexivity | discriminate]. }
  pose proof (custom_range_reversed_gives_empty_report 25200000 1710500400000
                (fun _ => "") (fun _ _ => "") (fun _ _ _ => "") "Invalid Date"
                [tx] range [] H) as (H1 & H2 & _).
  exact (conj H1 H2).
Defined.

(** ** Arrays and records *)

Lemma insert_perm {A : Type} (cmp : A -> A -> Z) (x : A) (xs : list A) :
  Permutation (JS.insert cmp x xs) (x :: xs).
Proof.
  induction xs as [|y ys IH]; simpl; [reflexivity |].
  destruct (cmp x y <=? 0); [reflexivity |].
  rewrite IH. apply perm_swap.
Qed.

Lemma sort_perm {A : Type} (cmp : A -> A -> Z) (xs : list A) :
  Permutation (JS.sort cmp xs) xs.
Proof.
  induction xs as [|x xs IH]; simpl; [reflexivity |].
  fold (JS.sort cmp xs). rewrite insert_perm. now constructor.
Qed.

Lemma sumOf_acc {A : Type} (f : A -> Z) (xs : list A) (a : Z) :
  fold_left (fun sum x => sum + f x) xs a = a + Spec.sum (map f xs).
Proof.
  revert a. induction xs as [|x xs IH]; intros a; simpl; [lia |].
  rewrite IH. lia.
Qed.

Lemma sumOf_sum {A : Type} (f : A -> Z) (xs : list A) :
  JS.sumOf f xs = Spec.sum (map f xs).
Proof. unfold JS.sumOf. rewrite sumOf_acc. lia. Qed.

Lemma sum_perm (xs ys : list Z) : Permutation xs ys -> Spec.sum xs = Spec.sum ys.
Proof. induction 1; simpl; lia. Qed.

Lemma sumOf_sort {A : Type} (f : A -> Z) (cmp : A -> A -> Z) (xs : list A) :
  JS.sumOf f (JS.sort cmp xs) = JS.sumOf f xs.
Proof.
  rewrite !sumOf_sum. apply sum_perm, Permutation_map, sort_perm.
Qed.

Lemma sumOf_filter_total (p : Transaction -> bool) (ts : list Transaction) :
  JS.sumOf amount (List.filter p ts) = Spec.total p ts.
Proof.
  rewrite sumOf_sum. induction ts as [|t ts IH]; simpl; [reflexivity |].
  destruct (p t); simpl; lia.
Qed.

(** Adding [a] under key [k] raises the sum of the values of a record by [a]. *)
Lemma sum_values_add (k : string) (a : Z) (r : JS.Record Z) :
  Spec.sum (JS.values (JS.set k (JS.or0 (JS.get k r) + a) r))
  = Spec.sum (JS.values r) + a.
Proof.
  unfold JS.values.
  induction r as [|[k' v] r IH]; simpl; [lia |].
  destruct (String.eqb k k'); simpl.
  - destruct (v =? 0) eqn:E; [apply Z.eqb_eq in E |]; lia.
  - rewrite IH. lia.
Qed.

(** ** Totals and income statement of the reports view *)

Lemma stats_fold (ts : list Transaction) (i e : Z) :
  fold_left (fun '(income, expense) t =>
               match tx_type t with
               | INCOME => (income + amount t, expense)
               | EXPENSE => (income, expense + amount t)
               end) ts (i, e)
  = (i + Spec.total Spec.isIncome ts, e + Spec.total Spec.isExpense ts).
Proof.
  revert i e. induction ts as [|t ts IH]; intros i e; simpl.
  - f_equal; lia.
  - unfold Spec.isIncome, Spec.isExpense.
    destruct (tx_type t); simpl; rewrite IH; f_equal; unfold Spec.isIncome, Spec.isExpense; lia.
Qed.

Lemma stats_totals (LocalTZA currentDate : Z) (transactions : list Transaction)
    (period : Reports.Period) (customRange : Reports.CustomRange) :
  let fd := Reports.filteredData LocalTZA transactions period currentDate customRange in
  Reports.stats LocalTZA transactions period currentDate customRange
  = Reports.mkStats (Spec.total Spec.isIncome fd) (Spec.total Spec.isExpense fd)
      (Spec.total Spec.isIncome fd - Spec.total Spec.isExpense fd).
Proof.
  intros fd. unfold Reports.stats. fold fd. rewrite stats_fold. reflexivity.
Qed.

Lemma filter_all {A : Type} (p : A -> bool) (xs : list A) :
  (forall x, In x xs -> p x = true) -> List.filter p xs = xs.
Proof.
  induction xs as [|x xs IH]; intros H; simpl; [reflexivity |].
  rewrite (H x) by now left. f_equal. apply IH. intros y Hy. apply H. now right.
Qed.

(** ** Account balances of the dashboard *)

Lemma or0_number (v : Z) : JS.or0 (Some v) = v.
Proof. simpl. destruct (v =? 0) eqn:E; [apply Z.eqb_eq in E; lia | reflexivity]. Qed.

(** C2.  For every account the balance shown by the dashboard is the
    initial balance plus the amounts of the income transactions that
    reference the account minus the amounts of the expense transactions
    that reference it, taken over the whole transaction list; the period
    and the instant of the render have no influence on it. *)
Theorem account_balances_are_all_time
    (LocalTZA now : Z) (monthShort weekdayShort : Z -> string) (invalidDate : string)
    (transactions : list Transaction) (accounts : list Account)
    (period : Dashboard.DashboardPeriod) :
  Dashboard.r_accountBalances
    (Dashboard.render LocalTZA monthShort weekdayShort invalidDate now
       transactions accounts period)
  = map (fun acc =>
           Dashboard.mkBalance acc
             (initialBalance acc
              + Spec.total (fun t => Spec.references acc t && Spec.isIncome t) transactions
              - Spec.total (fun t => Spec.references acc t && Spec.isExpense t) transactions))
        accounts
  /\ forall (now' : Z) (period' : Dashboard.DashboardPeriod),
       Dashboard.r_accountBalances
         (Dashboard.render LocalTZA monthShort weekdayShort invalidDate now'
            transactions accounts period')
       = Dashboard.r_accountBalances
           (Dashboard.render LocalTZA monthShort weekdayShort invalidDate now
              transactions accounts period).
Proof.
  split; [| reflexivity].
  unfold Dashboard.render. cbn [Dashboard.r_accountBalances].
  unfold Dashboard.accountBalances.
  apply map_ext. intros acc. unfold Dashboard.onAccount, Spec.references,
    Spec.isIncome, Spec.isExpense.
  rewrite or0_number, !sumOf_filter_total. reflexivity.
Qed.

(** ** Pagination of the transaction list *)

Lemma ceilDiv_spec (n d : Z) :
  0 < d -> d * (TransactionList.ceilDiv n d - 1) < n <= d * TransactionList.ceilDiv n d.
Proof.
  intros Hd. unfold TransactionList.ceilDiv.
  Z.to_euclidean_division_equations. nia.
Qed.

(** [totalPages] is the least number of pages of ten that hold the list. *)
Lemma totalPages_is_ceiling (transactions : list Transaction) (searchTerm : string)
    (filterType : TransactionList.FilterType) (sortOrder : TransactionList.SortOrder) :
  let n := Z.of_nat (length (TransactionList.processedTransactions transactions
                               searchTerm filterType sortOrder)) in
  let p := TransactionList.totalPages transactions searchTerm filterType sortOrder in
  10 * (p - 1) < n <= 10 * p.
Proof.
  intros n p. subst n p. unfold TransactionList.totalPages, TransactionList.ITEMS_PER_PAGE.
  apply ceilDiv_spec. lia.
Qed.

Lemma slice_window {A : Type} (start n : Z) (xs : list A) :
  0 <= start -> 0 <= n ->
  JS.slice start (start + n) xs = firstn (Z.to_nat n) (skipn (Z.to_nat start) xs).
Proof.
  intros Hs Hn. unfold JS.slice.
  destruct (start <? 0) eqn:E1; [apply Z.ltb_lt in E1; lia |].
  destruct (start + n <? 0) eqn:E2; [apply Z.ltb_lt in E2; lia |].
  destruct (Z.le_gt_cases start (Z.of_nat (length xs))) as [Hle | Hgt].
  - rewrite (Z.min_l start) by lia.
    destruct (Z.le_gt_cases (start + n) (Z.of_nat (length xs))) as [Hle' | Hgt'].
    + rewrite Z.min_l by lia. do 2 f_equal. lia.
    + rewrite Z.min_r by lia.
      rewrite !firstn_all2; [reflexivity | |]; rewrite length_skipn; lia.
  - rewrite !Z.min_r by lia. rewrite Z.sub_diag.
    change (Z.to_nat 0) with 0%nat. rewrite firstn_O.
    rewrite (skipn_all2 (n := Z.to_nat start)) by lia. now rewrite firstn_nil.
Qed.

Lemma chunks_concat {A : Type} (n m : nat) (xs : list A) :
  (length xs <= m * n)%nat ->
  concat (map (fun i => firstn n (skipn (i * n) xs)) (seq 0 m)) = xs.
Proof.
  revert xs. induction m as [|m IH]; intros xs Hlen.
  - destruct xs; [reflexivity | simpl in Hlen; lia].
  - rewrite <- cons_seq, <- seq_shift. simpl. rewrite map_map.
    change (skipn 0 xs) with xs.
    transitivity (firstn n xs ++ skipn n xs); [| apply firstn_skipn].
    f_equal.
    rewrite <- (IH (skipn n xs)) at 1 by (rewrite length_skipn; lia).
    f_equal. apply map_ext. intros i.
    rewrite skipn_skipn. do 2 f_equal. lia.
Qed.

(** The pages 1 to [totalPages], one after the other, are the whole
    sorted list. *)
Lemma pages_cover_processed (transactions : list Transaction) (searchTerm : string)
    (filterType : TransactionList.FilterType) (sortOrder : TransactionList.SortOrder) :
  concat (map (fun p => TransactionList.paginatedTransactions transactions searchTerm
                          filterType sortOrder p)
              (map (fun i => Z.of_nat i + 1)
                   (seq 0 (Z.to_nat (TransactionList.totalPages transactions searchTerm
                                       filterType sortOrder)))))
  = TransactionList.processedTransactions transactions searchTerm filterType sortOrder.
Proof.
  pose proof (totalPages_is_ceiling transactions searchTerm filterType sortOrder) as Hc.
  cbv zeta in Hc. rewrite map_map.
  set (l := TransactionList.processedTransactions _ _ _ _) in *.
  set (p := TransactionList.totalPages _ _ _ _) in *.
  transitivity (concat (map (fun i => firstn 10 (skipn (i * 10) l)) (seq 0 (Z.to_nat p))));
    [| apply chunks_concat; lia].
  f_equal. apply map_ext. intros i.
  unfold TransactionList.paginatedTransactions, TransactionList.ITEMS_PER_PAGE. fold l.
  rewrite slice_window by lia. do 2 f_equal. lia.
Qed.

(** A page between 1 and [totalPages] is not empty. *)
Lemma page_in_range_nonempty (transactions : list Transaction) (searchTerm : string)
    (filterType : TransactionList.FilterType) (sortOrder : TransactionList.SortOrder)
    (p : Z) :
  1 <= p <= TransactionList.totalPages transactions searchTerm filterType sortOrder ->
  TransactionList.paginatedTransactions transactions searchTerm filterType sortOrder p <> [].
Proof.
  intros Hp.
  pose proof (totalPages_is_ceiling transactions searchTerm filterType sortOrder) as Hc.
  cbv zeta in Hc.
  unfold TransactionList.paginatedTransactions, TransactionList.ITEMS_PER_PAGE.
  set (l := TransactionList.processedTransactions _ _ _ _) in *.
  rewrite slice_window by lia. intros Hnil.
  apply (f_equal (@length _)) in Hnil.
  rewrite length_firstn, length_skipn in Hnil. cbn [length] in Hnil. lia.
Qed.

(** The page buttons keep the current page between 1 and [totalPages]. *)
Lemma page_buttons_clamp (s : TransactionList.State) (e : TransactionList.Event) :
  e = TransactionList.PrevPage \/ e = TransactionList.NextPage ->
  1 <= TransactionList.currentPage s <= TransactionList.pages s ->
  1 <= TransactionList.currentPage (TransactionList.step s e)
    <= TransactionList.pages (TransactionList.step s e).
Proof.
  intros [-> | ->] Hp; simpl.
  - destruct (TransactionList.barShown s && negb (TransactionList.currentPage s =? 1));
      simpl; [unfold TransactionList.pages in *; simpl; lia | assumption].
  - destruct (TransactionList.barShown s
              && negb (TransactionList.currentPage s =? TransactionList.pages s));
      simpl; [unfold TransactionList.pages in *; simpl; lia | assumption].
Qed.

Lemma pages_withPage (s : TransactionList.State) (p : Z) :
  TransactionList.pages (TransactionList.withPage s p) = TransactionList.pages s.
Proof. reflexivity. Qed.

(** Every event but a shrinking of the [transactions] prop keeps the
    current page between 1 and the number of pages (1 when the list is
    empty). *)
Lemma page_range_preserved (s : TransactionList.State) (e : TransactionList.Event) :
  (forall id, e <> TransactionList.Deleted id) -> e <> TransactionList.Cleared ->
  1 <= TransactionList.currentPage s <= Z.max 1 (TransactionList.pages s) ->
  1 <= TransactionList.currentPage (TransactionList.step s e)
    <= Z.max 1 (TransactionList.pages (TransactionList.step s e)).
Proof.
  intros Hdel Hclr Hp.
  destruct e as [| | x | f | o | id |]; cbn [TransactionList.step].
  - destruct (TransactionList.barShown s && negb (TransactionList.currentPage s =? 1));
      [| assumption].
    rewrite pages_withPage. cbn [TransactionList.withPage TransactionList.currentPage].
    clear Hdel Hclr. lia.
  - destruct (TransactionList.barShown s
              && negb (TransactionList.currentPage s =? TransactionList.pages s)) eqn:E;
      [| assumption].
    apply andb_true_iff in E as [Hbar _].
    unfold TransactionList.barShown, TransactionList.ITEMS_PER_PAGE in Hbar.
    apply Z.ltb_lt in Hbar.
    pose proof (totalPages_is_ceiling (TransactionList.transactions s)
                  (TransactionList.searchTerm s) (TransactionList.filterType s)
                  (TransactionList.sortOrder s)) as Hc.
    cbv zeta in Hc. fold (TransactionList.processed s) in Hc.
    fold (TransactionList.pages s) in Hc.
    rewrite pages_withPage. cbn [TransactionList.withPage TransactionList.currentPage].
    clear Hdel Hclr. lia.
  - destruct (String.eqb x (TransactionList.searchTerm s)); [assumption |].
    cbn [TransactionList.currentPage]. clear Hdel Hclr. lia.
  - destruct (TransactionList.FilterType_eqb f (TransactionList.filterType s));
      [assumption |].
    cbn [TransactionList.currentPage]. clear Hdel Hclr. lia.
  - destruct (TransactionList.SortOrder_eqb o (TransactionList.sortOrder s));
      [assumption |].
    cbn [TransactionList.currentPage]. clear Hdel Hclr. lia.
  - exfalso. now apply (Hdel id).
  - contradiction.
Qed.

(** C3 at the failing input.  With eleven transactions the second page
    holds one; once the parent deletes it while it is shown, the current
    page stays 2 although one page is left, and the list shows nothing
    instead of the last page; the page buttons are gone as well. *)
Theorem page_beyond_last_shows_nothing_after_delete :
  let eleven :=
    map (fun k => mkTransaction (JS.toString (Z.of_nat k)) "2024-03-01" (Z.of_nat k)
                    INCOME "Penjualan" "" None (Some "1")) (seq 1 11) in
  let s := TransactionList.run (TransactionList.initial eleven)
             [TransactionList.NextPage; TransactionList.Deleted "11"] in
  TransactionList.currentPage s = 2
  /\ TransactionList.pages s = 1
  /\ length (TransactionList.processed s) = 10%nat
  /\ TransactionList.shown s = []
  /\ TransactionList.shown (TransactionList.withPage s (TransactionList.pages s)) <> []
  /\ TransactionList.barShown s = false.
Proof. vm_compute. repeat split. discriminate. Qed.

(** ** Calendar arithmetic *)

Lemma DayFromYear_succ (y : Z) :
  JSDate.DayFromYear (y + 1) = JSDate.DayFromYear y + JSDate.DaysInYear y.
Proof.
  unfold JSDate.DayFromYear, JSDate.DaysInYear, JSDate.InLeapYear.
  destruct (y mod 4 =? 0) eqn:E4; destruct (y mod 100 =? 0) eqn:E100;
    destruct (y mod 400 =? 0) eqn:E400; simpl;
    rewrite ?Z.eqb_eq, ?Z.eqb_neq in *; Z.to_euclidean_division_equations; lia.
Qed.

Lemma DaysInYear_cases (y : Z) :
  JSDate.DaysInYear y = 365 + (if JSDate.InLeapYear y then 1 else 0).
Proof. unfold JSDate.DaysInYear. now destruct (JSDate.InLeapYear y). Qed.

(** [YearFromDay] inverts [DayFromYear] on the days of a year. *)
Lemma YearFromDay_spec (y k : Z) :
  0 <= k < JSDate.DaysInYear y -> JSDate.YearFromDay (JSDate.DayFromYear y + k) = y.
Proof.
  intros Hk.
  pose proof (DayFromYear_succ y) as Hs.
  pose proof (DayFromYear_succ (y - 1)) as Hp.
  pose proof (DayFromYear_succ (y + 1)) as Hn.
  pose proof (DaysInYear_cases y) as D0. pose proof (DaysInYear_cases (y - 1)) as D1.
  pose proof (DaysInYear_cases (y + 1)) as D2.
  destruct (JSDate.InLeapYear y), (JSDate.InLeapYear (y - 1)), (JSDate.InLeapYear (y + 1)).
  all: replace (y - 1 + 1) with y in Hp by lia.
  all: unfold JSDate.YearFromDay.
  all: set (d := JSDate.DayFromYear y + k) in *.
  all: assert (Hy0 : y - 1 <= 1970 + d * 400 / 146097 <= y + 1)
         by (assert (Hk' : 0 <= k <= 365) by lia; subst d; unfold JSDate.DayFromYear;
             clear - Hk'; Z.to_euclidean_division_equations; lia).
  all: set (y0 := 1970 + d * 400 / 146097) in *.
  all: assert (y0 = y - 1 \/ y0 = y \/ y0 = y + 1) as [-> | [-> | ->]] by lia.
  all: replace (y - 1 + 1) with y by lia.
  all: repeat match goal with
         | |- context [?a <=? ?b] => destruct (Z.leb_spec a b)
         end; lia.
Qed.

Lemma Day_MakeDate (d r : Z) :
  0 <= r < JSDate.msPerDay -> JSDate.Day (JSDate.MakeDate d r) = d.
Proof.
  unfold JSDate.Day, JSDate.MakeDate, JSDate.msPerDay. intros Hr.
  Z.to_euclidean_division_equations; lia.
Qed.

Lemma LocalTime_UTC (tza t : Z) : JSDate.LocalTime tza (JSDate.UTC tza t) = t.
Proof. unfold JSDate.LocalTime, JSDate.UTC. lia. Qed.

Lemma month_cases (m : Z) :
  0 <= m <= 11 ->
  m = 0 \/ m = 1 \/ m = 2 \/ m = 3 \/ m = 4 \/ m = 5 \/ m = 6 \/ m = 7 \/ m = 8
  \/ m = 9 \/ m = 10 \/ m = 11.
Proof. lia. Qed.

Ltac each_month H :=
  apply month_cases in H;
  destruct H as [-> | [-> | [-> | [-> | [-> | [-> | [-> | [-> | [-> | [-> | [-> | ->]]]]]]]]]]].

Ltac month_length H :=
  match type of H with
  | context [Spec.monthLength ?l ?k] =>
      let c := eval vm_compute in (Spec.monthLength l k) in
      change (Spec.monthLength l k) with c in H
  end.

Lemma MonthFromDayInYear_spec (leap : bool) (m j : Z) :
  0 <= m <= 11 -> 0 <= j < Spec.monthLength leap m ->
  JSDate.MonthFromDayInYear leap (JSDate.DaysBeforeMonth leap m + j) = m.
Proof.
  intros Hm Hj. each_month Hm; destruct leap; month_length Hj;
    unfold JSDate.MonthFromDayInYear;
    repeat match goal with
      | |- context [JSDate.DaysBeforeMonth ?l ?k] =>
          let c := eval vm_compute in (JSDate.DaysBeforeMonth l k) in
          change (JSDate.DaysBeforeMonth l k) with c
      end;
    repeat match goal with
      | |- context [?a <? ?b] => destruct (Z.ltb_spec a b); try lia
      end;
    reflexivity.
Qed.

Lemma DaysBeforeMonth_in_year (leap : bool) (m j : Z) :
  0 <= m <= 11 -> 0 <= j < Spec.monthLength leap m ->
  0 <= JSDate.DaysBeforeMonth leap m + j < 365 + (if leap then 1 else 0).
Proof.
  intros Hm Hj. each_month Hm; destruct leap; month_length Hj;
    match goal with
    | |- context [JSDate.DaysBeforeMonth ?l ?k] =>
        let c := eval vm_compute in (JSDate.DaysBeforeMonth l k) in
        change (JSDate.DaysBeforeMonth l k) with c
    end; lia.
Qed.

Lemma MakeDay_in_year (y m dt : Z) :
  0 <= m <= 11 ->
  JSDate.MakeDay y m dt
  = JSDate.DayFromYear y + JSDate.DaysBeforeMonth (JSDate.InLeapYear y) m + dt - 1.
Proof.
  intros Hm. unfold JSDate.MakeDay.
  replace (m / 12) with 0 by (Z.to_euclidean_division_equations; lia).
  replace (m mod 12) with m by (Z.to_euclidean_division_equations; lia).
  now rewrite Z.add_0_r.
Qed.

Lemma DaysInMonth_length (y m : Z) :
  0 <= m <= 11 -> JSDate.DaysInMonth y m = Spec.monthLength (JSDate.InLeapYear y) m.
Proof.
  intros Hm. unfold JSDate.DaysInMonth.
  rewrite (MakeDay_in_year y m) by assumption.
  destruct (Z.eq_dec m 11) as [-> | Hne].
  - unfold JSDate.MakeDay. change ((11 + 1) / 12) with 1. change ((11 + 1) mod 12) with 0.
    rewrite DayFromYear_succ, DaysInYear_cases.
    change (Spec.monthLength (JSDate.InLeapYear y) 11) with 31.
    destruct (JSDate.InLeapYear y), (JSDate.InLeapYear (y + 1));
      repeat match goal with
        | |- context [JSDate.DaysBeforeMonth ?l ?k] =>
            let c := eval vm_compute in (JSDate.DaysBeforeMonth l k) in
            change (JSDate.DaysBeforeMonth l k) with c
        end; lia.
  - rewrite MakeDay_in_year by lia. unfold Spec.monthLength.
    destruct (Z.eqb_spec m 11); lia.
Qed.

(** The local fields of a date built from fields are those fields. *)
Lemma fields_of_MakeDay (y m d : Z) :
  0 <= m <= 11 -> 1 <= d <= JSDate.DaysInMonth y m ->
  JSDate.YearFromDay (JSDate.MakeDay y m d) = y
  /\ JSDate.MonthFromDayInYear (JSDate.InLeapYear y)
       (JSDate.MakeDay y m d - JSDate.DayFromYear y) = m
  /\ JSDate.MakeDay y m d - JSDate.DayFromYear y
     - JSDate.DaysBeforeMonth (JSDate.InLeapYear y) m + 1 = d.
Proof.
  intros Hm Hd. rewrite DaysInMonth_length in Hd by assumption.
  rewrite MakeDay_in_year by assumption.
  pose proof (DaysBeforeMonth_in_year (JSDate.InLeapYear y) m (d - 1) Hm ltac:(lia)) as Hin.
  repeat split.
  - replace (JSDate.DayFromYear y + JSDate.DaysBeforeMonth (JSDate.InLeapYear y) m + d - 1)
      with (JSDate.DayFromYear y + (JSDate.DaysBeforeMonth (JSDate.InLeapYear y) m + (d - 1)))
      by lia.
    apply YearFromDay_spec. rewrite DaysInYear_cases. lia.
  - replace (JSDate.DayFromYear y + JSDate.DaysBeforeMonth (JSDate.InLeapYear y) m + d - 1
             - JSDate.DayFromYear y)
      with (JSDate.DaysBeforeMonth (JSDate.InLeapYear y) m + (d - 1)) by lia.
    apply MonthFromDayInYear_spec; [assumption | lia].
  - lia.
Qed.

Lemma monthLength_bounds (leap : bool) (m : Z) :
  0 <= m <= 11 -> 28 <= Spec.monthLength leap m <= 31.
Proof.
  intros Hm. each_month Hm; destruct leap; vm_compute; split; discriminate.
Qed.

Lemma MonthFromDayInYear_range (leap : bool) (d : Z) :
  0 <= JSDate.MonthFromDayInYear leap d <= 11.
Proof.
  unfold JSDate.MonthFromDayInYear.
  repeat match goal with
    | |- context [if ?c then _ else _] => destruct c; [lia |]
    end.
  lia.
Qed.

Lemma getMonth_range (tza t : Z) : 0 <= JSDate.getMonth tza t <= 11.
Proof. apply MonthFromDayInYear_range. Qed.

(** The fields read back from [new Date(year, month, date)]. *)
Lemma getters_of_MakeDay (tza y m d : Z) :
  0 <= m <= 11 -> 1 <= d <= JSDate.DaysInMonth y m ->
  let t := JSDate.UTC tza (JSDate.MakeDate (JSDate.MakeDay y m d) (JSDate.MakeTime 0 0 0 0)) in
  JSDate.getFullYear tza t = y /\ JSDate.getMonth tza t = m /\ JSDate.getDate tza t = d.
Proof.
  intros Hm Hd t. subst t.
  destruct (fields_of_MakeDay y m d Hm Hd) as (Hy & Hmo & Hda).
  unfold JSDate.getFullYear, JSDate.getMonth, JSDate.getDate, JSDate.DateFromTime,
    JSDate.MonthFromTime, JSDate.DayWithinYear, JSDate.YearFromTime.
  rewrite LocalTime_UTC, Day_MakeDate by (vm_compute; split; [discriminate | reflexivity]).
  rewrite Hy, Hmo. auto.
Qed.

Lemma DaysInMonth_first (y m : Z) : 0 <= m <= 11 -> 1 <= 1 <= JSDate.DaysInMonth y m.
Proof.
  intros Hm. rewrite DaysInMonth_length by assumption.
  pose proof (monthLength_bounds (JSDate.InLeapYear y) m Hm). lia.
Qed.

Lemma getMonth_ofFields (tza y m : Z) :
  0 <= m <= 11 -> JSDate.getMonth tza (JSDate.ofFields tza y m 1) = m.
Proof.
  intros Hm. unfold JSDate.ofFields.
  apply getters_of_MakeDay; [assumption | now apply DaysInMonth_first].
Qed.

Lemma DaysBeforeMonth_increasing (leap : bool) (i j : Z) :
  0 <= i -> i < j -> j <= 11 ->
  JSDate.DaysBeforeMonth leap i < JSDate.DaysBeforeMonth leap j.
Proof.
  intros Hi Hij Hj.
  assert (Hi' : 0 <= i <= 11) by lia. assert (Hj' : 0 <= j <= 11) by lia.
  each_month Hi'; each_month Hj'; try lia; destruct leap; reflexivity.
Qed.

(** The first days of the months of a year come in the order of the months. *)
Lemma ofFields_increasing (tza y i j : Z) :
  0 <= i -> i < j -> j <= 11 ->
  JSDate.ofFields tza y i 1 < JSDate.ofFields tza y j 1.
Proof.
  intros Hi Hij Hj. unfold JSDate.ofFields, JSDate.UTC, JSDate.MakeDate.
  rewrite !MakeDay_in_year by lia.
  pose proof (DaysBeforeMonth_increasing
                (JSDate.InLeapYear (if (0 <=? y) && (y <=? 99) then 1900 + y else y))
                i j Hi Hij Hj).
  unfold JSDate.msPerDay. lia.
Qed.

(** ** Records indexed by an injective key *)

Lemma get_indexed {V : Type} (key : Z -> string) (b : Z -> V) (L : list Z) (m : Z) :
  (forall i j, In i L -> In j L -> key i = key j -> i = j) ->
  In m L ->
  JS.get (key m) (map (fun i => (key i, b i)) L) = Some (b m).
Proof.
  induction L as [|a L IH]; intros Hinj Hin; [destruct Hin |]. simpl.
  destruct (String.eqb_spec (key m) (key a)) as [E | E].
  - apply Hinj in E; [now subst | assumption | now left].
  - destruct Hin as [-> | Hin]; [congruence |].
    apply IH; [| assumption]. intros i j Hi Hj. apply Hinj; now right.
Qed.

Lemma set_indexed {V : Type} (key : Z -> string) (b : Z -> V) (L : list Z) (m : Z) (v : V) :
  (forall i j, In i L -> In j L -> key i = key j -> i = j) ->
  List.NoDup L -> In m L ->
  JS.set (key m) v (map (fun i => (key i, b i)) L)
  = map (fun i => (key i, if i =? m then v else b i)) L.
Proof.
  induction L as [|a L IH]; intros Hinj Hnd Hin; [destruct Hin |]. simpl.
  apply List.NoDup_cons_iff in Hnd as [Hna Hnd'].
  destruct (String.eqb_spec (key m) (key a)) as [E | E].
  - apply Hinj in E; [subst a | assumption | now left].
    rewrite Z.eqb_refl. f_equal. apply map_ext_in. intros i Hi.
    destruct (Z.eqb_spec i m); [subst; contradiction | reflexivity].
  - destruct Hin as [-> | Hin]; [congruence |].
    destruct (Z.eqb_spec a m) as [-> | _]; [congruence |]. f_equal.
    apply IH; [| assumption | assumption]. intros i j Hi Hj. apply Hinj; now right.
Qed.

Lemma set_absent {V : Type} (k : string) (v : V) (r : JS.Record V) :
  ~ In k (JS.keys r) -> JS.set k v r = r ++ [(k, v)].
Proof.
  unfold JS.keys. induction r as [|[k' v'] r IH]; intros Hk; simpl; [reflexivity |].
  destruct (String.eqb_spec k k') as [-> | _]; [exfalso; apply Hk; now left |].
  f_equal. apply IH. intros H. apply Hk. now right.
Qed.

Lemma fold_set_indexed {V : Type} (key : Z -> string) (b : Z -> V) (L : list Z)
    (r : JS.Record V) :
  (forall i j, In i L -> In j L -> key i = key j -> i = j) ->
  List.NoDup L ->
  (forall i, In i L -> ~ In (key i) (JS.keys r)) ->
  fold_left (fun g i => JS.set (key i) (b i) g) L r
  = r ++ map (fun i => (key i, b i)) L.
Proof.
  revert r. induction L as [|a L IH]; intros r Hinj Hnd Hfresh; simpl.
  - now rewrite app_nil_r.
  - apply List.NoDup_cons_iff in Hnd as [Hna Hnd'].
    rewrite set_absent by (apply Hfresh; now left).
    rewrite IH.
    + now rewrite <- app_assoc.
    + intros i j Hi Hj. apply Hinj; now right.
    + assumption.
    + intros i Hi. unfold JS.keys. rewrite map_app, in_app_iff. simpl.
      intros [H | [H | []]].
      * apply (Hfresh i); [now right | assumption].
      * apply Hinj in H; [subst; contradiction | now left | now right].
Qed.

Lemma fold_left_ext_in {A B : Type} (f g : A -> B -> A) (l : list B) (a : A) :
  (forall x y, In y l -> f x y = g x y) -> fold_left f l a = fold_left g l a.
Proof.
  revert a. induction l as [|y l IH]; intros a H; simpl; [reflexivity |].
  rewrite H by now left. apply IH. intros x z Hz. apply H. now right.
Qed.

Lemma sort_sorted {A : Type} (cmp : A -> A -> Z) (xs : list A) :
  Sorted (fun x y => cmp x y <= 0) xs -> JS.sort cmp xs = xs.
Proof.
  induction 1 as [|x xs Hs IH Hd]; [reflexivity |].
  simpl. fold (JS.sort cmp xs). rewrite IH.
  destruct Hd as [|y ys Hxy]; simpl; [reflexivity |].
  destruct (Z.leb_spec (cmp x y) 0); [reflexivity | lia].
Qed.

Lemma months_spec (m : Z) : In m Spec.months <-> 0 <= m <= 11.
Proof.
  unfold Spec.months. rewrite in_map_iff. split.
  - intros (k & <- & Hk). apply in_seq in Hk. lia.
  - intros Hm. exists (Z.to_nat m). split; [lia |]. apply in_seq. lia.
Qed.

Lemma months_NoDup : List.NoDup Spec.months.
Proof.
  unfold Spec.months. cbv [seq map Z.of_nat Pos.of_succ_nat Pos.succ].
  repeat (apply List.NoDup_cons; [simpl; intuition discriminate |]). apply List.NoDup_nil.
Qed.

(** ** The yearly chart of the reports view *)

Section YearlyChart.

Variable LocalTZA : Z.
Variable monthShort : Z -> string.
Variable dayMonth : Z -> Z -> string.
Variable dayMonthYear : Z -> Z -> Z -> string.
Variable invalidDate : string.
Variable currentDate : Z.
Variable customRange : Reports.CustomRange.

Hypothesis monthShort_inj :
  forall i j, 0 <= i <= 11 -> 0 <= j <= 11 -> monthShort i = monthShort j -> i = j.

Let year : Z := JSDate.getFullYear LocalTZA currentDate.

Let bars (f g : Z -> Z) : JS.Record Reports.Bar :=
  map (fun i => (monthShort i,
                 Reports.mkBar (monthShort i) (f i) (g i)
                   (Some (JSDate.ofFields LocalTZA year i 1)))) Spec.months.

Let key_inj :
  forall i j, In i Spec.months -> In j Spec.months -> monthShort i = monthShort j -> i = j.
Proof. intros i j Hi Hj. apply monthShort_inj; now apply months_spec. Qed.

Lemma bars_ext (f g f' g' : Z -> Z) :
  (forall i, 0 <= i <= 11 -> f i = f' i /\ g i = g' i) -> bars f g = bars f' g'.
Proof.
  intros H. apply map_ext_in. intros i Hi. apply months_spec in Hi.
  destruct (H i Hi) as [-> ->]. reflexivity.
Qed.

Lemma prefilled_yearly :
  Reports.prefilled LocalTZA monthShort Reports.YEARLY currentDate
  = bars (fun _ => 0) (fun _ => 0).
Proof.
  unfold Reports.prefilled. fold Spec.months. fold year.
  rewrite (fold_left_ext_in _
             (fun g i => JS.set (monthShort i)
                           (Reports.mkBar (monthShort i) 0 0
                              (Some (JSDate.ofFields LocalTZA year i 1))) g)).
  - rewrite fold_set_indexed; [reflexivity | exact key_inj | exact months_NoDup |].
    intros i _ [].
  - intros g i Hi. apply months_spec in Hi.
    cbv zeta. now rewrite getMonth_ofFields.
Qed.

Lemma accumulate_yearly (f g : Z -> Z) (t : Transaction) (d : Z) :
  JSDate.parse (date t) = Some d ->
  Reports.accumulate LocalTZA monthShort dayMonth dayMonthYear invalidDate
    Reports.YEARLY currentDate (bars f g) t
  = bars (fun i => f i + (if Spec.isIncome t && Spec.filedUnder LocalTZA i t
                          then amount t else 0))
         (fun i => g i + (if Spec.isExpense t && Spec.filedUnder LocalTZA i t
                          then amount t else 0)).
Proof.
  intros Hd. unfold Reports.accumulate, Reports.bucketOf. rewrite Hd.
  cbn [fmap option_fmap option_map].
  set (m := JSDate.getMonth LocalTZA d).
  assert (Hm : In m Spec.months) by (apply months_spec, getMonth_range).
  unfold bars.
  rewrite !(get_indexed monthShort _ Spec.months m key_inj Hm).
  rewrite (set_indexed monthShort _ Spec.months m _ key_inj months_NoDup Hm).
  apply map_ext_in. intros i Hi. f_equal.
  unfold Spec.filedUnder. rewrite Hd. fold m. rewrite (Z.eqb_sym m i).
  destruct (Z.eqb_spec i m) as [-> | Hne].
  - unfold Reports.addToBar, Spec.isIncome, Spec.isExpense.
    destruct (tx_type t); simpl; f_equal; lia.
  - rewrite !andb_false_r. f_equal; lia.
Qed.

Lemma fold_accumulate_yearly (ts : list Transaction) (f g : Z -> Z) :
  (forall t, In t ts -> exists d, JSDate.parse (date t) = Some d) ->
  fold_left (Reports.accumulate LocalTZA monthShort dayMonth dayMonthYear invalidDate
               Reports.YEARLY currentDate) ts (bars f g)
  = bars (fun i => f i + Spec.total (fun t => Spec.isIncome t && Spec.filedUnder LocalTZA i t) ts)
         (fun i => g i + Spec.total (fun t => Spec.isExpense t && Spec.filedUnder LocalTZA i t) ts).
Proof.
  revert f g. induction ts as [|t ts IH]; intros f g Hvalid; simpl.
  - apply bars_ext. intros i _. split; lia.
  - destruct (Hvalid t (or_introl eq_refl)) as [d Hd].
    rewrite (accumulate_yearly f g t d Hd).
    rewrite IH by (intros u Hu; apply Hvalid; now right).
    apply bars_ext. intros i _. split; lia.
Qed.

Lemma yearly_dates_valid (transactions : list Transaction) (t : Transaction) :
  In t (Reports.filteredData LocalTZA transactions Reports.YEARLY currentDate customRange) ->
  exists d, JSDate.parse (date t) = Some d.
Proof.
  unfold Reports.filteredData. rewrite filter_In. intros [_ H].
  unfold Reports.inPeriod in H.
  destruct (JSDate.parse (date t)) as [d|]; [now exists d | discriminate].
Qed.

Lemma bars_sorted (f g : Z -> Z) :
  Sorted (fun x y => Reports.bySortDate x y <= 0) (JS.values (bars f g)).
Proof.
  unfold bars, Spec.months, JS.values.
  cbv [seq map Z.of_nat Pos.of_succ_nat Pos.succ snd].
  repeat (apply Sorted_cons; [| first [apply HdRel_nil | apply HdRel_cons]]);
    try apply Sorted_nil;
    unfold Reports.bySortDate; cbn [Reports.sortDate JS.sub];
    match goal with
    | |- JSDate.ofFields _ _ ?i 1 - JSDate.ofFields _ _ ?j 1 <= 0 =>
        pose proof (ofFields_increasing LocalTZA year i j); lia
    end.
Qed.

(** The chart of the yearly view holds one bucket for each of the
    twelve months of the year of the current date, in the order of the
    months: bucket [m] carries the short name of the month, the income
    and the expense of the filtered transactions that the chart files
    under the month, and the first day of the month as its sort date;
    these sort dates increase with the month. *)
Lemma yearly_chart_buckets (transactions : list Transaction) :
  let fd := Reports.filteredData LocalTZA transactions Reports.YEARLY
              currentDate customRange in
  Reports.chartData LocalTZA monthShort dayMonth dayMonthYear invalidDate
    transactions Reports.YEARLY currentDate customRange
  = map (fun m =>
           Reports.mkBar (monthShort m)
             (Spec.total (fun t => Spec.isIncome t && Spec.filedUnder LocalTZA m t) fd)
             (Spec.total (fun t => Spec.isExpense t && Spec.filedUnder LocalTZA m t) fd)
             (Some (JSDate.ofFields LocalTZA year m 1)))
        Spec.months
  /\ (forall i j, 0 <= i -> i < j -> j <= 11 ->
        JSDate.ofFields LocalTZA year i 1 < JSDate.ofFields LocalTZA year j 1).
Proof.
  intros fd. split.
  - unfold Reports.chartData. fold fd.
    rewrite prefilled_yearly.
    rewrite fold_accumulate_yearly
      by (intros t Ht; eapply yearly_dates_valid; exact Ht).
    rewrite sort_sorted by apply bars_sorted.
    unfold bars, JS.values. rewrite map_map. reflexivity.
  - intros i j. apply ofFields_increasing.
Qed.

End YearlyChart.

Lemma monthShortEn_inj (i j : Z) :
  0 <= i <= 11 -> 0 <= j <= 11 -> Spec.monthShortEn i = Spec.monthShortEn j -> i = j.
Proof.
  intros Hi Hj. each_month Hi; each_month Hj; intros H; try reflexivity;
    vm_compute in H; discriminate H.
Qed.

(** ** The periods of the dashboard *)

Lemma filterFrom_filter (LocalTZA start now : Z) (period : Dashboard.DashboardPeriod)
    (ts : list Transaction) :
  period <> Dashboard.THIS_WEEK ->
  Dashboard.filterFrom LocalTZA start period now ts
  = List.filter (fun t => fst (Dashboard.keep LocalTZA start period now t)) ts.
Proof.
  intros Hp. induction ts as [|t ts IH]; simpl; [reflexivity |].
  destruct period; try contradiction; simpl; rewrite IH; reflexivity.
Qed.

(** For TODAY the filter has a lower bound only: a transaction is kept
    exactly when its date is valid and not before the start of the day. *)
Lemma today_has_no_upper_bound (LocalTZA now : Z) (transactions : list Transaction)
    (t : Transaction) :
  In t (Dashboard.filteredTransactions LocalTZA now transactions Dashboard.TODAY)
  <-> In t transactions
      /\ exists d, JSDate.parse (date t) = Some d /\ Dashboard.startOfDay LocalTZA now <= d.
Proof.
  unfold Dashboard.filteredTransactions.
  rewrite filterFrom_filter by discriminate. rewrite filter_In. simpl.
  unfold JSDate.geq. destruct (JSDate.parse (date t)) as [d|].
  - rewrite Z.leb_le. split.
    + intros [H1 H2]. split; [assumption |]. now exists d.
    + intros [H1 (d' & E & H2)]. inversion E; subst. now split.
  - split; [intros [_ H]; discriminate | intros [_ (d & E & _)]; discriminate].
Qed.

(** C6 at the failing input.  On 15 March 2024, 18:00 in a zone seven
    hours east of UTC, the period TODAY keeps the transactions dated the
    next day and the next month along with the one of the day. *)
Theorem today_keeps_later_days :
  let yesterday := mkTransaction "1" "2024-03-14" 10 EXPENSE "Transportasi" "" None (Some "1") in
  let today := mkTransaction "2" "2024-03-15" 20 EXPENSE "Transportasi" "" None (Some "1") in
  let tomorrow := mkTransaction "3" "2024-03-16" 30 EXPENSE "Transportasi" "" None (Some "1") in
  let nextMonth := mkTransaction "4" "2024-04-20" 40 EXPENSE "Transportasi" "" None (Some "1") in
  Dashboard.filteredTransactions 25200000 1710500400000
    [yesterday; today; tomorrow; nextMonth] Dashboard.TODAY
  = [today; tomorrow; nextMonth].
Proof. vm_compute. reflexivity. Qed.

(** C7 at the failing input.  On 10 January 2024, 12:00 in a zone five
    hours west of UTC, the period LAST_MONTH drops the transaction of
    1 December 2023 and keeps the one of 1 January 2024. *)
Theorem last_month_west_of_UTC :
  let dec1 := mkTransaction "1" "2023-12-01" 10 EXPENSE "Transportasi" "" None (Some "1") in
  let dec15 := mkTransaction "2" "2023-12-15" 20 EXPENSE "Transportasi" "" None (Some "1") in
  let jan1 := mkTransaction "3" "2024-01-01" 30 EXPENSE "Transportasi" "" None (Some "1") in
  Dashboard.filteredTransactions (-18000000) 1704906000000
    [dec1; dec15; jan1] Dashboard.LAST_MONTH
  = [dec15; jan1].
Proof. vm_compute. reflexivity. Qed.

(** ** Which arrays the hooks change *)

Lemma contents_alloc_old (h : Heap.store) (xs : list Transaction) (r : Heap.ref) :
  (r < length h)%nat -> Heap.contents (h ++ [xs]) r = Heap.contents h r.
Proof. intros Hr. unfold Heap.contents. now rewrite lookup_app_l. Qed.

Lemma contents_alloc_new (h : Heap.store) (xs : list Transaction) :
  Heap.contents (h ++ [xs]) (length h) = xs.
Proof.
  unfold Heap.contents. rewrite lookup_app_r by lia.
  now rewrite Nat.sub_diag.
Qed.

Lemma contents_write_same (h : Heap.store) (xs : list Transaction) (r : Heap.ref) :
  (r < length h)%nat -> Heap.contents (<[r := xs]> h) r = xs.
Proof. intros Hr. unfold Heap.contents. now rewrite list_lookup_insert_eq. Qed.

Lemma contents_write_other (h : Heap.store) (xs : list Transaction) (r r' : Heap.ref) :
  r <> r' -> Heap.contents (<[r := xs]> h) r' = Heap.contents h r'.
Proof. intros Hr. unfold Heap.contents. now rewrite list_lookup_insert_ne. Qed.

(** [filter] and [slice] leave every array of the store as it was. *)
Lemma filter_is_pure (f : Transaction -> bool) (r : Heap.ref) (h : Heap.store) :
  let '(r', h') := Heap.filter f r h in
  Heap.contents h' r' = List.filter f (Heap.contents h r)
  /\ forall r0, (r0 < length h)%nat -> Heap.contents h' r0 = Heap.contents h r0.
Proof.
  unfold Heap.filter, Heap.bind, Heap.read, Heap.alloc. split.
  - apply contents_alloc_new.
  - intros r0. apply contents_alloc_old.
Qed.

Lemma slice_is_pure (start end_ : Z) (r : Heap.ref) (h : Heap.store) :
  let '(r', h') := Heap.slice start end_ r h in
  Heap.contents h' r' = JS.slice start end_ (Heap.contents h r)
  /\ forall r0, (r0 < length h)%nat -> Heap.contents h' r0 = Heap.contents h r0.
Proof.
  unfold Heap.slice, Heap.bind, Heap.read, Heap.alloc. split.
  - apply contents_alloc_new.
  - intros r0. apply contents_alloc_old.
Qed.

(** [sort] returns the array it was called on, reordered. *)
Lemma sort_is_in_place (cmp : Transaction -> Transaction -> Z) (r : Heap.ref)
    (h : Heap.store) :
  (r < length h)%nat ->
  let '(r', h') := Heap.sort cmp r h in
  r' = r
  /\ Heap.contents h' r = JS.sort cmp (Heap.contents h r)
  /\ forall r0, r0 <> r -> Heap.contents h' r0 = Heap.contents h r0.
Proof.
  intros Hr. unfold Heap.sort, Heap.bind, Heap.read, Heap.write, Heap.ret.
  repeat split.
  - now apply contents_write_same.
  - intros r0 Hne. apply contents_write_other. congruence.
Qed.

(** The list hook sorts the array it has just built: the array of the
    caller keeps its contents, and so does every other array. *)
Lemma processedTransactions_keeps_input (searchTerm : string)
    (filterType : TransactionList.FilterType) (sortOrder : TransactionList.SortOrder)
    (transactions : Heap.ref) (h : Heap.store) :
  let '(r', h') :=
    Heap.processedTransactions searchTerm filterType sortOrder transactions h in
  Heap.contents h' r'
  = TransactionList.processedTransactions (Heap.contents h transactions)
      searchTerm filterType sortOrder
  /\ forall r0, (r0 < length h)%nat -> Heap.contents h' r0 = Heap.contents h r0.
Proof.
  unfold Heap.processedTransactions, Heap.bind, Heap.filter, Heap.sort, Heap.read,
    Heap.write, Heap.alloc, Heap.ret.
  split.
  - rewrite contents_write_same by (rewrite length_app; simpl; lia).
    now rewrite contents_alloc_new.
  - intros r0 Hr0. rewrite contents_write_other by lia.
    now apply contents_alloc_old.
Qed.

(** The hook [topExpenses] sorts the array of [filteredExpenseData]
    itself; the other arrays keep their contents. *)
Lemma topExpenses_sorts_its_argument (filteredExpenseData : Heap.ref) (h : Heap.store) :
  (filteredExpenseData < length h)%nat ->
  let '(r', h') := Heap.topExpenses filteredExpenseData h in
  Heap.contents h' filteredExpenseData
  = JS.sort Reports.byAmountDescTx (Heap.contents h filteredExpenseData)
  /\ Heap.contents h' r'
     = JS.slice 0 5 (JS.sort Reports.byAmountDescTx (Heap.contents h filteredExpenseData))
  /\ forall r0, (r0 < length h)%nat -> r0 <> filteredExpenseData ->
       Heap.contents h' r0 = Heap.contents h r0.
Proof.
  intros Hr.
  unfold Heap.topExpenses, Heap.bind, Heap.slice, Heap.sort, Heap.read, Heap.write,
    Heap.alloc, Heap.ret.
  repeat split.
  - rewrite contents_alloc_old by (rewrite length_insert; lia).
    now apply contents_write_same.
  - rewrite contents_alloc_new. now rewrite contents_write_same.
  - intros r0 Hr0 Hne. rewrite contents_alloc_old by (rewrite length_insert; lia).
    apply contents_write_other. congruence.
Qed.

(** C9 at the failing input.  With three expenses of 10, 30 and 20 in
    the period, the array built by [filteredExpenseData] holds them in
    the order of the list before [topExpenses] runs and in descending
    order of amount after it; the array of the transactions and the
    array of [filteredData] keep their contents. *)
Theorem topExpenses_reorders_filteredExpenseData :
  let e10 := mkTransaction "1" "2024-03-01" 10 EXPENSE "Transportasi" "" None (Some "1") in
  let e30 := mkTransaction "2" "2024-03-02" 30 EXPENSE "Stok Barang" "" None (Some "1") in
  let e20 := mkTransaction "3" "2024-03-03" 20 EXPENSE "Pemasaran" "" None (Some "1") in
  let h0 : Heap.store := [[e10; e30; e20]] in
  let '(fd, h1) :=
    Heap.filteredData 25200000 Reports.MONTHLY 1710500400000 (Reports.mkRange "" "") 0%nat h0 in
  let '(fe, h2) := Heap.filteredExpenseData [] fd h1 in
  let '(te, h3) := Heap.topExpenses fe h2 in
  Heap.contents h2 fe = [e10; e30; e20]
  /\ Heap.contents h3 fe = [e30; e20; e10]
  /\ Heap.contents h3 te = [e30; e20; e10]
  /\ Heap.contents h3 0%nat = [e10; e30; e20]
  /\ Heap.contents h3 fd = [e10; e30; e20].
Proof. vm_compute. repeat split. Qed.

(** ** Account references in the store *)




(** A restored backup replaces the store as it is: its transactions are
    not migrated, and its list of accounts may be empty. *)
Lemma import_stores_backup_unchanged (ts : list Transaction) (accounts : list Account)
    (store : list Transaction * list Account) :
  App.handleImportData (App.Parsed (App.mkBackup (Some ts) (Some accounts))) store
  = (ts, accounts).
Proof. reflexivity. Qed.


(** The form never leaves the account reference out: it passes the
    account chosen, else the id of the first account, else "unknown". *)
Lemma handleSubmit_gives_a_reference (accounts : list Account)
    (formData : TransactionForm.FormData) :
  exists a,
    accountId (TransactionForm.handleSubmit accounts formData) = Some a
    /\ (a = TransactionForm.fd_accountId formData
        \/ Some a = App.firstId accounts
        \/ (accounts = [] /\ a = "unknown")).
Proof.
  unfold TransactionForm.handleSubmit. cbn [accountId].
  destruct (String.eqb (TransactionForm.fd_accountId formData) ""); cbn [negb].
  - destruct accounts as [|acc l]; eexists; (split; [reflexivity |]).
    + right. right. now split.
    + right. left. reflexivity.
  - eexists. split; [reflexivity |]. now left.
Qed.

(** A transaction entered through the form, while an account exists
    and with the account field empty or set to one of the accounts,
    references an account, and the store keeps referencing accounts. *)
Lemma submit_references (accounts : list Account) (nowMs : Z)
    (formData : TransactionForm.FormData) (prev : list Transaction) :
  accounts <> [] ->
  (TransactionForm.fd_accountId formData = ""
   \/ exists acc, In acc accounts /\ acc_id acc = TransactionForm.fd_accountId formData) ->
  Forall (Spec.referencesSome accounts) prev ->
  Forall (Spec.referencesSome accounts)
    (TransactionForm.submit accounts nowMs formData prev).
Proof.
  intros Hacc Hform Hprev.
  unfold TransactionForm.submit, App.addTransaction, TransactionForm.handleSubmit.
  cbn [accountId]. destruct accounts as [|a l]; [contradiction |].
  destruct (String.eqb_spec (TransactionForm.fd_accountId formData) "") as [E | Hne];
    cbn [negb].
  - unfold JS.truthy. destruct (String.eqb (acc_id a) ""); cbn [negb andb];
      (constructor; [| assumption]); exists a; (split; [now left | reflexivity]).
  - unfold JS.truthy. destruct (String.eqb_spec (TransactionForm.fd_accountId formData) "");
      [contradiction |]. cbn [negb andb].
    constructor; [| assumption].
    destruct Hform as [E | (acc & Hin & E)]; [contradiction |].
    exists acc. split; [assumption |]. cbn [App.withId accountId]. now rewrite E.
Qed.

(** The settings never remove the last account, when the accounts have
    distinct ids. *)
Lemma removeAccount_keeps_an_account (confirmed : bool) (id : string)
    (accounts : list Account) :
  List.NoDup (map acc_id accounts) -> accounts <> [] ->
  Settings.removeAccount confirmed id accounts <> [].
Proof.
  intros Hnd Hne. unfold Settings.removeAccount.
  destruct accounts as [|a [|b l]]; [contradiction | discriminate |].
  change (Z.of_nat (length (a :: b :: l)) <=? 1) with (Z.of_nat (S (S (length l))) <=? 1).
  destruct (Z.leb_spec (Z.of_nat (S (S (length l)))) 1) as [H | _]; [lia |].
  destruct confirmed; [| discriminate].
  cbn [List.filter]. destruct (String.eqb_spec (acc_id a) id) as [Ea | _]; cbn [negb];
    [| discriminate].
  destruct (String.eqb_spec (acc_id b) id) as [Eb | _]; cbn [negb]; [| discriminate].
  exfalso. cbn [map] in Hnd. apply List.NoDup_cons_iff in Hnd as [Hin _].
  apply Hin. left. congruence.
Qed.


(** ** LAST_MONTH in January *)

Lemma parse_fields (s : string) (y m d : Z) :
  JSDate.parseFields s = Some (y, m, d) ->
  1 <= m <= 12 -> 1 <= d <= JSDate.DaysInMonth y (m - 1) ->
  JSDate.parse s = Some (JSDate.MakeDate (JSDate.MakeDay y (m - 1) d) 0).
Proof.
  unfold JSDate.parse, JSDate.validFields. intros -> [H1 H2] [H3 H4].
  destruct (Z.leb_spec 1 m), (Z.leb_spec m 12), (Z.leb_spec 1 d),
    (Z.leb_spec d (JSDate.DaysInMonth y (m - 1))); simpl; try lia.
  reflexivity.
Qed.

(** In a zone at or east of UTC the local fields of a parsed date are
    the fields written in the string. *)
Lemma local_fields_east_of_UTC (tza y m d : Z) :
  0 <= tza < JSDate.msPerDay ->
  1 <= m <= 12 -> 1 <= d <= JSDate.DaysInMonth y (m - 1) ->
  let v := JSDate.MakeDate (JSDate.MakeDay y (m - 1) d) 0 in
  JSDate.getFullYear tza v = y /\ JSDate.getMonth tza v = m - 1 /\ JSDate.getDate tza v = d.
Proof.
  intros Htz Hm Hd v. subst v.
  destruct (fields_of_MakeDay y (m - 1) d ltac:(lia) Hd) as (Hy & Hmo & Hda).
  unfold JSDate.getFullYear, JSDate.getMonth, JSDate.getDate, JSDate.DateFromTime,
    JSDate.MonthFromTime, JSDate.DayWithinYear, JSDate.YearFromTime, JSDate.LocalTime.
  replace (JSDate.MakeDate (JSDate.MakeDay y (m - 1) d) 0 + tza)
    with (JSDate.MakeDate (JSDate.MakeDay y (m - 1) d) tza)
    by (unfold JSDate.MakeDate; lia).
  rewrite Day_MakeDate by assumption.
  rewrite Hy, Hmo. auto.
Qed.

(** A date written [YYYY-MM-DD] that names a day that exists is read,
    at or east of UTC (by less than a day), with the fields it is
    written with. *)
Lemma written_fields_east_of_UTC (tza : Z) (s : string) (y m d : Z) :
  0 <= tza < JSDate.msPerDay ->
  JSDate.parseFields s = Some (y, m, d) -> JSDate.validFields y m d = true ->
  exists v, JSDate.parse s = Some v
            /\ JSDate.getFullYear tza v = y /\ JSDate.getMonth tza v = m - 1
            /\ JSDate.getDate tza v = d.
Proof.
  intros Htz Hf Hv. unfold JSDate.validFields in Hv.
  apply andb_true_iff in Hv as [Hv H4]. apply andb_true_iff in Hv as [Hv H3].
  apply andb_true_iff in Hv as [H1 H2].
  apply Z.leb_le in H1, H2, H3, H4.
  exists (JSDate.MakeDate (JSDate.MakeDay y (m - 1) d) 0). split.
  - apply parse_fields; [assumption | lia | lia].
  - apply local_fields_east_of_UTC; [assumption | lia | lia].
Qed.

Lemma MakeDay_previous_december (y d : Z) :
  JSDate.MakeDay y (0 - 1) d = JSDate.MakeDay (y - 1) 11 d.
Proof.
  unfold JSDate.MakeDay.
  change ((0 - 1) / 12) with (-1). change ((0 - 1) mod 12) with 11.
  change (11 / 12) with 0. change (11 mod 12) with 11.
  replace (y + -1) with (y - 1) by lia. replace (y - 1 + 0) with (y - 1) by lia.
  reflexivity.
Qed.

(** The month before a January is the December of the year before. *)
Lemma last_month_rolls_back (tza now : Z) :
  JSDate.getMonth tza now = 0 ->
  ~ 0 <= JSDate.getFullYear tza now <= 99 ->
  let lastMonth :=
    JSDate.ofFields tza (JSDate.getFullYear tza now) (JSDate.getMonth tza now - 1) 1 in
  JSDate.getMonth tza lastMonth = 11
  /\ JSDate.getFullYear tza lastMonth = JSDate.getFullYear tza now - 1.
Proof.
  intros Hjan Hyear lastMonth. subst lastMonth. rewrite Hjan.
  unfold JSDate.ofFields.
  set (y := JSDate.getFullYear tza now) in *.
  assert (Hy : (0 <=? y) && (y <=? 99) = false).
  { destruct (Z.leb_spec 0 y), (Z.leb_spec y 99); simpl; try reflexivity; lia. }
  rewrite Hy, MakeDay_previous_december.
  destruct (getters_of_MakeDay tza (y - 1) 11 1 ltac:(lia)
              (DaysInMonth_first (y - 1) 11 ltac:(lia))) as (H1 & H2 & _).
  split; assumption.
Qed.

Lemma same_fmap_Some (f : Z -> Z) (v x : Z) :
  JSDate.same (f <$> Some v) (Some x) = (f v =? x).
Proof. reflexivity. Qed.

Lemma same_fmap_None (f : Z -> Z) (x : Z) :
  JSDate.same (f <$> None) (Some x) = false.
Proof. reflexivity. Qed.

Lemma keep_LAST_MONTH (tza start now : Z) (t : Transaction) :
  fst (Dashboard.keep tza start Dashboard.LAST_MONTH now t)
  = JSDate.same (JSDate.getMonth tza <$> JSDate.parse (date t))
      (Some (JSDate.getMonth tza
               (JSDate.ofFields tza (JSDate.getFullYear tza now)
                  (JSDate.getMonth tza now - 1) 1)))
    && JSDate.same (JSDate.getFullYear tza <$> JSDate.parse (date t))
         (Some (JSDate.getFullYear tza
                  (JSDate.ofFields tza (JSDate.getFullYear tza now)
                     (JSDate.getMonth tza now - 1) 1))).
Proof. reflexivity. Qed.

(** In a zone at or east of UTC, LAST_MONTH taken in a January selects
    a transaction whose date is written [YYYY-MM-DD] and names a day that
    exists exactly when the date is written with December of the year
    before. *)
Lemma last_month_is_december_east_of_UTC (tza now : Z) (transactions : list Transaction)
    (t : Transaction) (y m d : Z) :
  0 <= tza < JSDate.msPerDay ->
  JSDate.getMonth tza now = 0 ->
  ~ 0 <= JSDate.getFullYear tza now <= 99 ->
  JSDate.parseFields (date t) = Some (y, m, d) ->
  JSDate.validFields y m d = true ->
  In t (Dashboard.filteredTransactions tza now transactions Dashboard.LAST_MONTH)
  <-> In t transactions /\ y = JSDate.getFullYear tza now - 1 /\ m = 12.
Proof.
  intros Htz Hjan Hyear Hf Hv.
  destruct (last_month_rolls_back tza now Hjan Hyear) as [Hm Hy].
  destruct (written_fields_east_of_UTC tza (date t) y m d Htz Hf Hv)
    as (v & Ev & Gy & Gm & _).
  unfold Dashboard.filteredTransactions.
  rewrite filterFrom_filter by discriminate. rewrite filter_In.
  rewrite keep_LAST_MONTH, Hm, Hy, Ev, !same_fmap_Some, Gy, Gm.
  rewrite andb_true_iff, !Z.eqb_eq. split.
  - intros [Hin [H1 H2]]. split; [assumption |]. split; lia.
  - intros [Hin [H1 H2]]. split; [assumption |]. split; lia.
Qed.

(** ** The yearly chart of the dashboard *)

Section DashboardYearlyChart.

Variable LocalTZA : Z.
Variable monthShort : Z -> string.
Variable weekdayShort : Z -> string.
Variable invalidDate : string.
Variable now : Z.

Hypothesis monthShort_inj :
  forall i j, 0 <= i <= 11 -> 0 <= j <= 11 -> monthShort i = monthShort j -> i = j.

Let monthBars (f g : Z -> Z) : JS.Record Dashboard.Bar :=
  map (fun i => (monthShort i, Dashboard.mkBar (monthShort i) (f i) (g i) (Some i)))
      Spec.months.

Let monthKey_inj :
  forall i j, In i Spec.months -> In j Spec.months -> monthShort i = monthShort j -> i = j.
Proof. intros i j Hi Hj. apply monthShort_inj; now apply months_spec. Qed.

Lemma dashboard_bars_ext (f g f' g' : Z -> Z) :
  (forall i, 0 <= i <= 11 -> f i = f' i /\ g i = g' i) -> monthBars f g = monthBars f' g'.
Proof.
  intros H. apply map_ext_in. intros i Hi. apply months_spec in Hi.
  destruct (H i Hi) as [-> ->]. reflexivity.
Qed.

Lemma dashboard_prefilled_yearly :
  Dashboard.prefilled LocalTZA monthShort now Dashboard.THIS_YEAR
  = monthBars (fun _ => 0) (fun _ => 0).
Proof.
  unfold Dashboard.prefilled. cbn [Dashboard.isMonthlyView andb]. fold Spec.months.
  rewrite (fold_left_ext_in _
             (fun g i => JS.set (monthShort i)
                           (Dashboard.mkBar (monthShort i) 0 0 (Some i)) g)).
  - rewrite fold_set_indexed; [reflexivity | exact monthKey_inj | exact months_NoDup |].
    intros i _ [].
  - intros g i Hi. apply months_spec in Hi.
    cbv zeta. now rewrite getMonth_ofFields.
Qed.

Lemma dashboard_accumulate_yearly (f g : Z -> Z) (t : Transaction) (d : Z) :
  JSDate.parse (date t) = Some d ->
  Dashboard.accumulate LocalTZA monthShort weekdayShort invalidDate
    Dashboard.THIS_YEAR (monthBars f g) t
  = monthBars (fun i => f i + (if Spec.isIncome t && Spec.filedUnder LocalTZA i t
                          then amount t else 0))
         (fun i => g i + (if Spec.isExpense t && Spec.filedUnder LocalTZA i t
                          then amount t else 0)).
Proof.
  intros Hd. unfold Dashboard.accumulate, Dashboard.bucketOf. rewrite Hd.
  cbn [Dashboard.isMonthlyView].
  set (m := JSDate.getMonth LocalTZA d).
  assert (Hm : In m Spec.months) by (apply months_spec, getMonth_range).
  unfold monthBars.
  rewrite !(get_indexed monthShort _ Spec.months m monthKey_inj Hm).
  rewrite (set_indexed monthShort _ Spec.months m _ monthKey_inj months_NoDup Hm).
  apply map_ext_in. intros i Hi. f_equal.
  unfold Spec.filedUnder. rewrite Hd. fold m. rewrite (Z.eqb_sym m i).
  destruct (Z.eqb_spec i m) as [-> | Hne].
  - unfold Dashboard.addToBar, Spec.isIncome, Spec.isExpense.
    destruct (tx_type t); simpl; f_equal; lia.
  - rewrite !andb_false_r. f_equal; lia.
Qed.

Lemma dashboard_fold_accumulate_yearly (ts : list Transaction) (f g : Z -> Z) :
  (forall t, In t ts -> exists d, JSDate.parse (date t) = Some d) ->
  fold_left (Dashboard.accumulate LocalTZA monthShort weekdayShort invalidDate
               Dashboard.THIS_YEAR) ts (monthBars f g)
  = monthBars (fun i => f i + Spec.total (fun t => Spec.isIncome t && Spec.filedUnder LocalTZA i t) ts)
         (fun i => g i + Spec.total (fun t => Spec.isExpense t && Spec.filedUnder LocalTZA i t) ts).
Proof.
  revert f g. induction ts as [|t ts IH]; intros f g Hvalid; simpl.
  - apply dashboard_bars_ext. intros i _. split; lia.
  - destruct (Hvalid t (or_introl eq_refl)) as [d Hd].
    rewrite (dashboard_accumulate_yearly f g t d Hd).
    rewrite IH by (intros u Hu; apply Hvalid; now right).
    apply dashboard_bars_ext. intros i _. split; lia.
Qed.

Lemma this_year_dates_valid (transactions : list Transaction) (t : Transaction) :
  In t (Dashboard.filteredTransactions LocalTZA now transactions Dashboard.THIS_YEAR) ->
  exists d, JSDate.parse (date t) = Some d.
Proof.
  unfold Dashboard.filteredTransactions.
  rewrite filterFrom_filter by discriminate. rewrite filter_In. intros [_ H].
  cbn [Dashboard.keep fst] in H.
  destruct (JSDate.parse (date t)) as [d|]; [now exists d | discriminate].
Qed.

Lemma dashboard_bars_sorted (f g : Z -> Z) :
  Sorted (fun x y => Dashboard.byOrder x y <= 0) (JS.values (monthBars f g)).
Proof.
  unfold monthBars, Spec.months, JS.values.
  cbv [seq map Z.of_nat Pos.of_succ_nat Pos.succ snd].
  repeat (apply Sorted_cons; [| first [apply HdRel_nil | apply HdRel_cons]]);
    try apply Sorted_nil;
    unfold Dashboard.byOrder; cbn [Dashboard.order JS.sub]; lia.
Qed.

(** The chart of the dashboard for THIS_YEAR has the same shape as the
    yearly chart of the reports view: one bucket for each month, in the
    order of the months, holding the income and the expense of the month
    over the filtered transactions. *)
Lemma dashboard_yearly_chart_buckets (transactions : list Transaction) :
  let fd := Dashboard.filteredTransactions LocalTZA now transactions Dashboard.THIS_YEAR in
  Dashboard.chartData LocalTZA monthShort weekdayShort invalidDate now
    transactions Dashboard.THIS_YEAR
  = map (fun m =>
           Dashboard.mkBar (monthShort m)
             (Spec.total (fun t => Spec.isIncome t && Spec.filedUnder LocalTZA m t) fd)
             (Spec.total (fun t => Spec.isExpense t && Spec.filedUnder LocalTZA m t) fd)
             (Some m))
        Spec.months.
Proof.
  intros fd. unfold Dashboard.chartData. fold fd.
  rewrite dashboard_prefilled_yearly.
  rewrite dashboard_fold_accumulate_yearly
    by (intros t Ht; eapply this_year_dates_valid; exact Ht).
  rewrite sort_sorted by apply dashboard_bars_sorted.
  unfold monthBars, JS.values. rewrite map_map. reflexivity.
Qed.

End DashboardYearlyChart.

(** At or east of UTC (by less than a day) the chart files a
    transaction dated [YYYY-MM-DD] under the month that its date is
    written with. *)
Lemma filedUnder_east_of_UTC (tza m : Z) (t : Transaction) :
  0 <= tza < JSDate.msPerDay -> Spec.wellDated t ->
  Spec.filedUnder tza m t = Spec.inMonth m t.
Proof.
  intros Htz (y & mo & d & Hf & Hv).
  unfold JSDate.validFields in Hv.
  apply andb_true_iff in Hv as [Hv H4]. apply andb_true_iff in Hv as [Hv H3].
  apply andb_true_iff in Hv as [H1 H2].
  apply Z.leb_le in H1, H2, H3, H4.
  assert (Ev : JSDate.parse (date t) = Some (JSDate.MakeDate (JSDate.MakeDay y (mo - 1) d) 0)).
  { apply parse_fields; [assumption | lia | lia]. }
  destruct (local_fields_east_of_UTC tza y mo d Htz ltac:(lia) ltac:(lia)) as (_ & Gm & _).
  unfold Spec.filedUnder, Spec.inMonth. rewrite Ev, Hf, Gm.
  destruct (Z.eqb_spec (mo - 1) m), (Z.eqb_spec mo (m + 1)); try reflexivity; lia.
Qed.

Lemma total_ext_in (p q : Transaction -> bool) (ts : list Transaction) :
  (forall t, In t ts -> p t = q t) -> Spec.total p ts = Spec.total q ts.
Proof.
  induction ts as [|t ts IH]; intros H; simpl; [reflexivity |].
  rewrite (H t) by now left. rewrite IH; [reflexivity |].
  intros u Hu. apply H. now right.
Qed.

(** At or east of UTC (by less than a day), when every transaction is
    dated [YYYY-MM-DD], the yearly chart is right: the bucket of a month
    carries the income and the expense of the transactions of the year
    whose date is written with that month, and a month without such a
    transaction carries zeros. *)
Lemma yearly_chart_east_of_UTC
    (LocalTZA : Z) (monthShort : Z -> string) (dayMonth : Z -> Z -> string)
    (dayMonthYear : Z -> Z -> Z -> string) (invalidDate : string)
    (currentDate : Z) (customRange : Reports.CustomRange)
    (transactions : list Transaction) :
  (forall i j, 0 <= i <= 11 -> 0 <= j <= 11 -> monthShort i = monthShort j -> i = j) ->
  0 <= LocalTZA < JSDate.msPerDay ->
  (forall t, In t transactions -> Spec.wellDated t) ->
  let fd := Reports.filteredData LocalTZA transactions Reports.YEARLY
              currentDate customRange in
  Reports.chartData LocalTZA monthShort dayMonth dayMonthYear invalidDate
    transactions Reports.YEARLY currentDate customRange
  = map (fun m =>
           Reports.mkBar (monthShort m)
             (Spec.total (fun t => Spec.isIncome t && Spec.inMonth m t) fd)
             (Spec.total (fun t => Spec.isExpense t && Spec.inMonth m t) fd)
             (Some (JSDate.ofFields LocalTZA (JSDate.getFullYear LocalTZA currentDate) m 1)))
        Spec.months
  /\ forall m, (forall t, In t fd -> Spec.inMonth m t = false) ->
       Spec.total (fun t => Spec.isIncome t && Spec.inMonth m t) fd = 0
       /\ Spec.total (fun t => Spec.isExpense t && Spec.inMonth m t) fd = 0.
Proof.
  intros Hinj Htz Hdated fd. split.
  - rewrite (proj1 (yearly_chart_buckets LocalTZA monthShort dayMonth dayMonthYear
                      invalidDate currentDate customRange Hinj transactions)).
    fold fd. apply map_ext. intros m. f_equal.
    + apply total_ext_in. intros t Ht. f_equal.
      apply filedUnder_east_of_UTC; [assumption |]. apply Hdated.
      unfold fd, Reports.filteredData in Ht. now apply filter_In in Ht as [Ht _].
    + apply total_ext_in. intros t Ht. f_equal.
      apply filedUnder_east_of_UTC; [assumption |]. apply Hdated.
      unfold fd, Reports.filteredData in Ht. now apply filter_In in Ht as [Ht _].
  - intros m Hnone. clear - Hnone. induction fd as [|t l IH]; [split; reflexivity |].
    simpl. rewrite (Hnone t) by now left. rewrite !andb_false_r.
    destruct IH as [-> ->]; [| split; reflexivity].
    intros u Hu. apply Hnone. now right.
Qed.

(** C8 at the failing input.  In a zone five hours west of UTC, with
    the year 2024 on display and one expense of 4 dated 1 July 2024, the
    yearly chart has its twelve buckets in the order of the months, but
    the expense stands in the bucket of June, a month without a
    transaction, and the bucket of July is empty. *)
Theorem yearly_chart_west_of_UTC :
  let txs := [ mkTransaction "1" "2024-07-01" 4 EXPENSE "Transportasi" "" None (Some "1") ] in
  map (fun b => (Reports.bar_name b, Reports.bar_income b, Reports.bar_expense b))
      (Reports.chartData (-18000000) Spec.monthShortEn (fun _ _ => "") (fun _ _ _ => "")
         "Invalid Date" txs Reports.YEARLY 1704906000000 (Reports.mkRange "" ""))
  = [ ("Jan", 0, 0); ("Feb", 0, 0); ("Mar", 0, 0); ("Apr", 0, 0); ("May", 0, 0);
      ("Jun", 0, 4); ("Jul", 0, 0); ("Aug", 0, 0); ("Sep", 0, 0); ("Oct", 0, 0);
      ("Nov", 0, 0); ("Dec", 0, 0) ]
  /\ Spec.total (fun t => Spec.isExpense t && Spec.inMonth 5 t) txs = 0
  /\ Spec.total (fun t => Spec.isExpense t && Spec.inMonth 6 t) txs = 4.
Proof. vm_compute. repeat split. Qed.

(** The same year seen seven hours east of UTC. *)
Example yearly_chart_in_2024 :
  let txs := [ mkTransaction "1" "2024-03-01" 100 INCOME "Penjualan" "" None (Some "1");
               mkTransaction "2" "2024-01-31" 40 EXPENSE "Stok Barang" "" None (Some "1");
               mkTransaction "3" "2023-12-31" 20 EXPENSE "Stok Barang" "" None (Some "1") ] in
  map (fun b => (Reports.bar_name b, Reports.bar_income b, Reports.bar_expense b))
      (Reports.chartData 25200000 Spec.monthShortEn (fun _ _ => "") (fun _ _ _ => "")
         "Invalid Date" txs Reports.YEARLY 1710500400000 (Reports.mkRange "" ""))
  = [ ("Jan", 0, 40); ("Feb", 0, 0); ("Mar", 100, 0); ("Apr", 0, 0); ("May", 0, 0);
      ("Jun", 0, 0); ("Jul", 0, 0); ("Aug", 0, 0); ("Sep", 0, 0); ("Oct", 0, 0);
      ("Nov", 0, 0); ("Dec", 0, 0) ].
Proof. vm_compute. reflexivity. Qed.

(** ** Date strings of fixed width *)

Lemma digit_value (c : ascii) (x : Z) :
  JSDate.digit c = Some x -> 0 <= x <= 9 /\ Z.of_N (N_of_ascii c) = 48 + x.
Proof.
  unfold JSDate.digit. unfold nat_of_ascii. rewrite N_nat_Z.
  destruct (Z.leb_spec 48 (Z.of_N (N_of_ascii c))),
    (Z.leb_spec (Z.of_N (N_of_ascii c)) 57); simpl; try discriminate.
  intros [= <-]. lia.
Qed.

Lemma digit_compare (a b : ascii) (x y : Z) :
  JSDate.digit a = Some x -> JSDate.digit b = Some y ->
  Ascii.compare a b = (x ?= y).
Proof.
  intros Ha Hb. apply digit_value in Ha as [_ Ha], Hb as [_ Hb].
  unfold Ascii.compare. rewrite <- N2Z.inj_compare, Ha, Hb.
  destruct (Z.compare_spec x y), (Z.compare_spec (48 + x) (48 + y)); try reflexivity; lia.
Qed.

Lemma digits2_value (a b : ascii) (n : Z) :
  JSDate.digits2 a b = Some n ->
  exists x y, JSDate.digit a = Some x /\ JSDate.digit b = Some y /\ n = 10 * x + y.
Proof.
  unfold JSDate.digits2.
  destruct (JSDate.digit a) as [x|]; [| discriminate].
  destruct (JSDate.digit b) as [y|]; [| discriminate].
  intros [= <-]. now exists x, y.
Qed.

Lemma digits4_value (a b c d : ascii) (n : Z) :
  JSDate.digits4 a b c d = Some n ->
  exists p q, JSDate.digits2 a b = Some p /\ JSDate.digits2 c d = Some q /\ n = 100 * p + q.
Proof.
  unfold JSDate.digits4.
  destruct (JSDate.digits2 a b) as [p|]; [| discriminate].
  destruct (JSDate.digits2 c d) as [q|]; [| discriminate].
  intros [= <-]. now exists p, q.
Qed.

(** The shape of a string that [parseFields] accepts. *)
Lemma parseFields_shape (s : string) (y m d : Z) :
  JSDate.parseFields s = Some (y, m, d) ->
  exists y1 y2 y3 y4 m1 m2 d1 d2 n1 n2 n3 n4 n5 n6 n7 n8,
    s = String y1 (String y2 (String y3 (String y4 (String JSDate.dash
          (String m1 (String m2 (String JSDate.dash
             (String d1 (String d2 EmptyString)))))))))
    /\ JSDate.digit y1 = Some n1 /\ JSDate.digit y2 = Some n2
    /\ JSDate.digit y3 = Some n3 /\ JSDate.digit y4 = Some n4
    /\ JSDate.digit m1 = Some n5 /\ JSDate.digit m2 = Some n6
    /\ JSDate.digit d1 = Some n7 /\ JSDate.digit d2 = Some n8
    /\ y = 100 * (10 * n1 + n2) + (10 * n3 + n4)
    /\ m = 10 * n5 + n6 /\ d = 10 * n7 + n8.
Proof.
  destruct s as [|y1 [|y2 [|y3 [|y4 [|s1 [|m1 [|m2 [|s2 [|d1 [|d2 [|? ?]]]]]]]]]]];
    try discriminate.
  unfold JSDate.parseFields.
  destruct (Ascii.eqb_spec s1 JSDate.dash) as [-> |]; [| discriminate].
  destruct (Ascii.eqb_spec s2 JSDate.dash) as [-> |]; [| discriminate].
  cbn [andb].
  destruct (JSDate.digits4 y1 y2 y3 y4) as [yy|] eqn:Ey; [| discriminate].
  destruct (JSDate.digits2 m1 m2) as [mm|] eqn:Em; [| discriminate].
  destruct (JSDate.digits2 d1 d2) as [dd|] eqn:Ed; [| discriminate].
  intros [= <- <- <-].
  apply digits4_value in Ey as (p & q & Ep & Eq & ->).
  apply digits2_value in Ep as (n1 & n2 & ? & ? & ->).
  apply digits2_value in Eq as (n3 & n4 & ? & ? & ->).
  apply digits2_value in Em as (n5 & n6 & ? & ? & ->).
  apply digits2_value in Ed as (n7 & n8 & ? & ? & ->).
  exists y1, y2, y3, y4, m1, m2, d1, d2, n1, n2, n3, n4, n5, n6, n7, n8.
  repeat split; assumption.
Qed.

Ltac by_digit x y :=
  destruct (Z.compare_spec x y);
  [subst | split; [lia | reflexivity] | split; [discriminate | lia]].

(** On strings of the form YYYY-MM-DD the comparison of strings is the
    comparison of dates: year first, then month, then day. *)
Lemma date_strings_compare_as_dates (s s' : string) (y m d y' m' d' : Z) :
  JSDate.parseFields s = Some (y, m, d) ->
  JSDate.parseFields s' = Some (y', m', d') ->
  JS.str_le s s' = true <-> 10000 * y + 100 * m + d <= 10000 * y' + 100 * m' + d'.
Proof.
  intros Hs Hs'.
  apply parseFields_shape in Hs
    as (a1 & a2 & a3 & a4 & a5 & a6 & a7 & a8 & n1 & n2 & n3 & n4 & n5 & n6 & n7 & n8
        & -> & A1 & A2 & A3 & A4 & A5 & A6 & A7 & A8 & -> & -> & ->).
  apply parseFields_shape in Hs'
    as (b1 & b2 & b3 & b4 & b5 & b6 & b7 & b8 & k1 & k2 & k3 & k4 & k5 & k6 & k7 & k8
        & -> & B1 & B2 & B3 & B4 & B5 & B6 & B7 & B8 & -> & -> & ->).
  unfold JS.str_le, String.leb. cbn [String.compare].
  rewrite (digit_compare a1 b1 n1 k1 A1 B1), (digit_compare a2 b2 n2 k2 A2 B2),
    (digit_compare a3 b3 n3 k3 A3 B3), (digit_compare a4 b4 n4 k4 A4 B4),
    (digit_compare a5 b5 n5 k5 A5 B5), (digit_compare a6 b6 n6 k6 A6 B6),
    (digit_compare a7 b7 n7 k7 A7 B7), (digit_compare a8 b8 n8 k8 A8 B8).
  rewrite ascii_compare_refl.
  apply digit_value in A1 as [? _], A2 as [? _], A3 as [? _], A4 as [? _],
    A5 as [? _], A6 as [? _], A7 as [? _], A8 as [? _],
    B1 as [? _], B2 as [? _], B3 as [? _], B4 as [? _],
    B5 as [? _], B6 as [? _], B7 as [? _], B8 as [? _].
  by_digit n1 k1. by_digit n2 k2. by_digit n3 k3. by_digit n4 k4.
  by_digit n5 k5. by_digit n6 k6. by_digit n7 k7. by_digit n8 k8.
  split; [lia | reflexivity].
Qed.

(** With a range and a date of the form YYYY-MM-DD, the custom period
    keeps a transaction exactly when its date is not before the start and
    not after the end of the range. *)
Lemma custom_period_is_inclusive_date_range
    (LocalTZA currentDate : Z) (transactions : list Transaction)
    (customRange : Reports.CustomRange) (t : Transaction)
    (ys ms ds ye me de y m d : Z) :
  JSDate.parseFields (Reports.start customRange) = Some (ys, ms, ds) ->
  JSDate.parseFields (Reports.end_ customRange) = Some (ye, me, de) ->
  JSDate.parseFields (date t) = Some (y, m, d) ->
  In t (Reports.filteredData LocalTZA transactions Reports.CUSTOM currentDate customRange)
  <-> In t transactions
      /\ 10000 * ys + 100 * ms + ds <= 10000 * y + 100 * m + d
         <= 10000 * ye + 100 * me + de.
Proof.
  intros Hs He Ht. rewrite custom_filter_In.
  rewrite (date_strings_compare_as_dates _ _ _ _ _ _ _ _ Hs Ht).
  rewrite (date_strings_compare_as_dates _ _ _ _ _ _ _ _ Ht He).
  reflexivity.
Qed.

(** ** Sorting by a key *)

Lemma insert_In {A : Type} (cmp : A -> A -> Z) (x y : A) (xs : list A) :
  In y (JS.insert cmp x xs) <-> y = x \/ In y xs.
Proof.
  induction xs as [|z zs IH]; simpl.
  - intuition.
  - destruct (cmp x z <=? 0); simpl; [intuition |]. rewrite IH. intuition.
Qed.

Lemma sort_In {A : Type} (cmp : A -> A -> Z) (y : A) (xs : list A) :
  In y (JS.sort cmp xs) <-> In y xs.
Proof.
  induction xs as [|x xs IH]; [reflexivity |].
  change (JS.sort cmp (x :: xs)) with (JS.insert cmp x (JS.sort cmp xs)).
  rewrite insert_In, IH. simpl. intuition.
Qed.

Section SortByKey.

Context {A : Type}.
Variable cmp : A -> A -> Z.
Variable key : A -> Z.

Lemma insert_by_key_sorted (x : A) (xs : list A) :
  (forall y, In y xs -> (cmp x y <= 0 <-> key x <= key y)) ->
  StronglySorted (fun a b => key a <= key b) xs ->
  StronglySorted (fun a b => key a <= key b) (JS.insert cmp x xs).
Proof.
  intros Hc Hs. induction Hs as [|y ys Hs IH Hall]; simpl.
  - constructor; [constructor | constructor].
  - destruct (Z.leb_spec (cmp x y) 0) as [Hle | Hgt].
    + apply (Hc y (or_introl eq_refl)) in Hle.
      constructor; [constructor; assumption |]. constructor; [assumption |].
      rewrite List.Forall_forall in Hall |- *. intros z Hz. specialize (Hall z Hz). lia.
    + assert (Hyx : key y <= key x).
      { destruct (Z.le_gt_cases (key x) (key y)) as [H | H]; [| lia].
        apply (Hc y (or_introl eq_refl)) in H. lia. }
      constructor.
      * apply IH. intros z Hz. exact (Hc z (or_intror Hz)).
      * rewrite List.Forall_forall in Hall |- *. intros z Hz.
        apply insert_In in Hz as [-> | Hz]; [assumption | now apply Hall].
Qed.

Lemma sort_by_key_sorted (xs : list A) :
  (forall x y, In x xs -> In y xs -> (cmp x y <= 0 <-> key x <= key y)) ->
  StronglySorted (fun a b => key a <= key b) (JS.sort cmp xs).
Proof.
  induction xs as [|x xs IH]; intros Hc; [constructor |].
  change (JS.sort cmp (x :: xs)) with (JS.insert cmp x (JS.sort cmp xs)).
  apply insert_by_key_sorted.
  - intros y Hy. rewrite sort_In in Hy.
    exact (Hc x y (or_introl eq_refl) (or_intror Hy)).
  - apply IH. intros a b Ha Hb. exact (Hc a b (or_intror Ha) (or_intror Hb)).
Qed.

Lemma insert_by_key_stable (v : Z) (x : A) (xs : list A) :
  (forall y, In y xs -> (cmp x y <= 0 <-> key x <= key y)) ->
  List.filter (fun a => key a =? v) (JS.insert cmp x xs)
  = List.filter (fun a => key a =? v) (x :: xs).
Proof.
  induction xs as [|y ys IH]; intros Hc; [reflexivity |].
  cbn [JS.insert]. destruct (Z.leb_spec (cmp x y) 0) as [Hle | Hgt]; [reflexivity |].
  assert (Hlt : key y < key x).
  { destruct (Z.le_gt_cases (key x) (key y)) as [H | H]; [| lia].
    apply (Hc y (or_introl eq_refl)) in H. lia. }
  cbn [List.filter]. rewrite IH by (intros z Hz; exact (Hc z (or_intror Hz))).
  cbn [List.filter].
  destruct (Z.eqb_spec (key y) v), (Z.eqb_spec (key x) v); try reflexivity. lia.
Qed.

Lemma sort_by_key_stable (v : Z) (xs : list A) :
  (forall x y, In x xs -> In y xs -> (cmp x y <= 0 <-> key x <= key y)) ->
  List.filter (fun a => key a =? v) (JS.sort cmp xs)
  = List.filter (fun a => key a =? v) xs.
Proof.
  induction xs as [|x xs IH]; intros Hc; [reflexivity |].
  change (JS.sort cmp (x :: xs)) with (JS.insert cmp x (JS.sort cmp xs)).
  rewrite insert_by_key_stable.
  - cbn [List.filter].
    rewrite IH by (intros a b Ha Hb; exact (Hc a b (or_intror Ha) (or_intror Hb))).
    reflexivity.
  - intros y Hy. rewrite sort_In in Hy.
    exact (Hc x y (or_introl eq_refl) (or_intror Hy)).
Qed.

End SortByKey.

Lemma StronglySorted_impl {A : Type} (R R' : A -> A -> Prop) (xs : list A) :
  (forall a b, R a b -> R' a b) -> StronglySorted R xs -> StronglySorted R' xs.
Proof.
  intros H. induction 1 as [|x xs Hs IH Hall]; constructor; [assumption |].
  rewrite List.Forall_forall in Hall |- *. auto.
Qed.

Lemma StronglySorted_app_cross {A : Type} (R : A -> A -> Prop) (xs ys : list A) :
  StronglySorted R (xs ++ ys) ->
  StronglySorted R xs /\ forall x y, In x xs -> In y ys -> R x y.
Proof.
  induction xs as [|a xs IH]; simpl; intros Hs.
  - split; [constructor | intros x y []].
  - apply StronglySorted_inv in Hs as [Hs Hall]. destruct (IH Hs) as [IH1 IH2].
    rewrite List.Forall_forall in Hall. split.
    + constructor; [assumption |]. apply List.Forall_forall. intros z Hz.
      apply Hall, in_or_app. now left.
    + intros x y [<- | Hx] Hy; [apply Hall, in_or_app; now right | now apply IH2].
Qed.

Lemma sort_desc_by_amount (xs : list Transaction) :
  StronglySorted (fun a b => amount b <= amount a) (JS.sort Reports.byAmountDescTx xs)
  /\ forall v, List.filter (fun t => amount t =? v) (JS.sort Reports.byAmountDescTx xs)
               = List.filter (fun t => amount t =? v) xs.
Proof.
  assert (Hc : forall x y : Transaction, In x xs -> In y xs ->
            (Reports.byAmountDescTx x y <= 0 <-> - amount x <= - amount y)).
  { intros x y _ _. unfold Reports.byAmountDescTx. lia. }
  split.
  - eapply StronglySorted_impl; [| exact (sort_by_key_sorted _ _ xs Hc)].
    simpl. intros a b. lia.
  - intros v.
    pose proof (sort_by_key_stable Reports.byAmountDescTx (fun t => - amount t) (- v) xs Hc)
      as Hst.
    erewrite (filter_ext (fun t => amount t =? v)), Hst; [apply filter_ext |].
    + intros t. destruct (Z.eqb_spec (- amount t) (- v)), (Z.eqb_spec (amount t) v);
        try reflexivity; lia.
    + intros t. destruct (Z.eqb_spec (- amount t) (- v)), (Z.eqb_spec (amount t) v);
        try reflexivity; lia.
Qed.

Lemma slice_first {A : Type} (n : Z) (xs : list A) :
  0 <= n -> JS.slice 0 n xs = firstn (Z.to_nat n) xs.
Proof.
  intros Hn. change n with (0 + n) at 1. now rewrite slice_window.
Qed.

(** The list of top expenses holds the five largest expenses of the
    period and selection (all of them when there are fewer), largest
    first, expenses of equal amount in the order of the list: it and the
    expenses left out make up [filteredExpenseData], and no expense left
    out is larger than one that is listed. *)
Theorem topExpenses_are_the_largest
    (LocalTZA currentDate : Z) (transactions : list Transaction)
    (period : Reports.Period) (customRange : Reports.CustomRange)
    (selectedCategories : list string) :
  let expenses := Reports.filteredExpenseData LocalTZA transactions period currentDate
                    customRange selectedCategories in
  let top := Reports.topExpenses LocalTZA transactions period currentDate
               customRange selectedCategories in
  length top = Nat.min 5 (length expenses)
  /\ StronglySorted (fun a b => amount b <= amount a) top
  /\ (forall v, List.filter (fun t => amount t =? v) top
                = firstn (length (List.filter (fun t => amount t =? v) top))
                    (List.filter (fun t => amount t =? v) expenses))
  /\ exists rest,
       Permutation (top ++ rest) expenses
       /\ forall x y, In x top -> In y rest -> amount y <= amount x.
Proof.
  intros expenses top. subst top. unfold Reports.topExpenses. fold expenses.
  rewrite (slice_first 5) by lia. change (Z.to_nat 5) with 5%nat.
  destruct (sort_desc_by_amount expenses) as [Hs Hst].
  set (sorted := JS.sort Reports.byAmountDescTx expenses) in *.
  assert (Hperm : Permutation sorted expenses) by apply sort_perm.
  rewrite <- (firstn_skipn 5 sorted) in Hs.
  apply StronglySorted_app_cross in Hs as [Hs1 Hs2].
  repeat split.
  - rewrite length_firstn. now rewrite (Permutation_length Hperm).
  - exact Hs1.
  - intros v. rewrite <- Hst.
    assert (E : List.filter (fun t => amount t =? v) sorted
                = List.filter (fun t => amount t =? v) (firstn 5 sorted)
                  ++ List.filter (fun t => amount t =? v) (skipn 5 sorted)).
    { rewrite <- List.filter_app. now rewrite firstn_skipn. }
    rewrite E, firstn_app, Nat.sub_diag, firstn_O, app_nil_r. now rewrite firstn_all.
  - exists (skipn 5 sorted). split.
    + now rewrite firstn_skipn.
    + exact Hs2.
Qed.

(** The list shown by the transaction list holds exactly the
    transactions that match the search term and the type filter; with
    the order HIGHEST the amounts decrease along the list, with LOWEST
    they increase, and transactions of equal amount stay in the order of
    the input. *)
Theorem processed_is_sorted_by_amount
    (transactions : list Transaction) (searchTerm : string)
    (filterType : TransactionList.FilterType) :
  let matching :=
    List.filter (fun t => TransactionList.matchesSearch searchTerm t
                          && TransactionList.matchesType filterType t) transactions in
  let highest := TransactionList.processedTransactions transactions searchTerm filterType
                   TransactionList.HIGHEST in
  let lowest := TransactionList.processedTransactions transactions searchTerm filterType
                  TransactionList.LOWEST in
  Permutation highest matching /\ Permutation lowest matching
  /\ StronglySorted (fun a b => amount b <= amount a) highest
  /\ StronglySorted (fun a b => amount a <= amount b) lowest
  /\ forall v, List.filter (fun t => amount t =? v) highest
               = List.filter (fun t => amount t =? v) matching
               /\ List.filter (fun t => amount t =? v) lowest
                  = List.filter (fun t => amount t =? v) matching.
Proof.
  intros matching highest lowest. subst highest lowest.
  unfold TransactionList.processedTransactions. fold matching.
  assert (Hlo : forall x y : Transaction, In x matching -> In y matching ->
            (TransactionList.compare TransactionList.LOWEST x y <= 0
             <-> amount x <= amount y)).
  { intros x y _ _. simpl. lia. }
  change (TransactionList.compare TransactionList.HIGHEST) with Reports.byAmountDescTx.
  destruct (sort_desc_by_amount matching) as [Hs Hst].
  split; [apply sort_perm |]. split; [apply sort_perm |].
  split; [exact Hs |].
  split; [exact (sort_by_key_sorted _ _ matching Hlo) |].
  intros v. split; [apply Hst |].
  exact (sort_by_key_stable _ _ v matching Hlo).
Qed.

(** When the dates of the matching transactions are valid, the order
    NEWEST lists them from the latest date to the earliest and OLDEST
    from the earliest to the latest; transactions of the same date stay
    in the order of the input. *)
Theorem processed_is_sorted_by_date
    (transactions : list Transaction) (searchTerm : string)
    (filterType : TransactionList.FilterType) :
  let matching :=
    List.filter (fun t => TransactionList.matchesSearch searchTerm t
                          && TransactionList.matchesType filterType t) transactions in
  let newest := TransactionList.processedTransactions transactions searchTerm filterType
                  TransactionList.NEWEST in
  let oldest := TransactionList.processedTransactions transactions searchTerm filterType
                  TransactionList.OLDEST in
  (forall t, In t matching -> exists v, JSDate.parse (date t) = Some v) ->
  StronglySorted (fun a b => Spec.time b <= Spec.time a) newest
  /\ StronglySorted (fun a b => Spec.time a <= Spec.time b) oldest
  /\ forall v, List.filter (fun t => Spec.time t =? v) newest
               = List.filter (fun t => Spec.time t =? v) matching
               /\ List.filter (fun t => Spec.time t =? v) oldest
                  = List.filter (fun t => Spec.time t =? v) matching.
Proof.
  intros matching newest oldest Hvalid. subst newest oldest.
  unfold TransactionList.processedTransactions. fold matching.
  assert (Hold : forall x y : Transaction, In x matching -> In y matching ->
            (TransactionList.compare TransactionList.OLDEST x y <= 0
             <-> Spec.time x <= Spec.time y)).
  { intros x y Hx Hy. destruct (Hvalid x Hx) as [vx Ex], (Hvalid y Hy) as [vy Ey].
    unfold Spec.time. simpl. rewrite Ex, Ey. simpl. lia. }
  assert (Hnew : forall x y : Transaction, In x matching -> In y matching ->
            (TransactionList.compare TransactionList.NEWEST x y <= 0
             <-> - Spec.time x <= - Spec.time y)).
  { intros x y Hx Hy. destruct (Hvalid x Hx) as [vx Ex], (Hvalid y Hy) as [vy Ey].
    unfold Spec.time. simpl. rewrite Ex, Ey. simpl. lia. }
  split; [| split].
  - eapply StronglySorted_impl; [| exact (sort_by_key_sorted _ _ matching Hnew)].
    simpl. intros a b. lia.
  - exact (sort_by_key_sorted _ _ matching Hold).
  - intros v. split; [| exact (sort_by_key_stable _ _ v matching Hold)].
    pose proof (sort_by_key_stable _ _ (- v) matching Hnew) as Hst.
    erewrite (filter_ext (fun t => Spec.time t =? v)), Hst; [apply filter_ext |].
    + intros t. destruct (Z.eqb_spec (- Spec.time t) (- v)), (Z.eqb_spec (Spec.time t) v);
        try reflexivity; lia.
    + intros t. destruct (Z.eqb_spec (- Spec.time t) (- v)), (Z.eqb_spec (Spec.time t) v);
        try reflexivity; lia.
Qed.

Lemma processed_is_sorted_by_date_witness :
  let txs := [ mkTransaction "1" "2024-03-02" 100 INCOME "Penjualan" "" None (Some "1");
               mkTransaction "2" "2024-03-05" 40 EXPENSE "Transportasi" "" None (Some "1");
               mkTransaction "3" "2024-03-02" 20 EXPENSE "Stok Barang" "" None (Some "1") ] in
  StronglySorted (fun a b => Spec.time b <= Spec.time a)
    (TransactionList.processedTransactions txs "" TransactionList.F_ALL TransactionList.NEWEST).
Proof.
  intros txs.
  refine (proj1 (processed_is_sorted_by_date txs "" TransactionList.F_ALL _)).
  intros t Ht. vm_compute in Ht.
  destruct Ht as [<- | [<- | [<- | []]]]; eexists; vm_compute; reflexivity.
Defined.

(** ** Records filled by accumulation *)

Lemma get_set_same {V : Type} (k : string) (v : V) (r : JS.Record V) :
  JS.get k (JS.set k v r) = Some v.
Proof.
  induction r as [|[k' v'] r IH]; simpl.
  - now rewrite String.eqb_refl.
  - destruct (String.eqb k k') eqn:E; simpl; rewrite E; [reflexivity | exact IH].
Qed.

Lemma get_set_other {V : Type} (k k' : string) (v : V) (r : JS.Record V) :
  k <> k' -> JS.get k' (JS.set k v r) = JS.get k' r.
Proof.
  intros Hne. induction r as [|[k0 v0] r IH]; simpl.
  - destruct (String.eqb_spec k' k); [congruence | reflexivity].
  - destruct (String.eqb_spec k k0) as [-> | Hk]; simpl.
    + destruct (String.eqb_spec k' k0); [congruence | reflexivity].
    + destruct (String.eqb_spec k' k0); [reflexivity | exact IH].
Qed.

Lemma get_None_keys {V : Type} (k : string) (r : JS.Record V) :
  JS.get k r = None <-> ~ In k (JS.keys r).
Proof.
  unfold JS.keys. induction r as [|[k' v'] r IH]; simpl; [tauto |].
  destruct (String.eqb_spec k k') as [-> | Hne].
  - split; [discriminate | intros H; exfalso; apply H; now left].
  - rewrite IH. split; [intros H [E | Hin]; [congruence | tauto] | tauto].
Qed.

Lemma keys_set {V : Type} (k : string) (v : V) (r : JS.Record V) :
  JS.keys (JS.set k v r)
  = match JS.get k r with
    | Some _ => JS.keys r
    | None => JS.keys r ++ [k]
    end.
Proof.
  unfold JS.keys. induction r as [|[k' v'] r IH]; simpl; [reflexivity |].
  destruct (String.eqb k k') eqn:E; simpl; [reflexivity |].
  rewrite IH. now destruct (JS.get k r).
Qed.

Lemma keys_set_NoDup {V : Type} (k : string) (v : V) (r : JS.Record V) :
  List.NoDup (JS.keys r) -> List.NoDup (JS.keys (JS.set k v r)).
Proof.
  intros Hnd. rewrite keys_set. destruct (JS.get k r) eqn:E; [assumption |].
  apply get_None_keys in E.
  clear - Hnd E. induction (JS.keys r) as [|a l IH]; simpl.
  - constructor; [intros [] | constructor].
  - apply List.NoDup_cons_iff in Hnd as [Ha Hnd]. constructor.
    + rewrite in_app_iff. simpl. intros [H | [H | []]]; [contradiction |].
      apply E. now left.
    + apply IH; [assumption |]. intros H. apply E. now right.
Qed.

Lemma get_In {V : Type} (k : string) (v : V) (r : JS.Record V) :
  JS.get k r = Some v -> In (k, v) r.
Proof.
  induction r as [|[k' v'] r IH]; simpl; [discriminate |].
  destruct (String.eqb_spec k k') as [-> | _].
  - intros [= ->]. now left.
  - intros H. right. now apply IH.
Qed.

Lemma In_get {V : Type} (k : string) (v : V) (r : JS.Record V) :
  List.NoDup (JS.keys r) -> In (k, v) r -> JS.get k r = Some v.
Proof.
  unfold JS.keys. induction r as [|[k' v'] r IH]; simpl; [intros _ [] |].
  intros Hnd [E | Hin].
  - inversion E; subst. now rewrite String.eqb_refl.
  - apply List.NoDup_cons_iff in Hnd as [Hk Hnd].
    destruct (String.eqb_spec k k') as [-> | _].
    + exfalso. apply Hk. apply in_map_iff. now exists (k', v).
    + now apply IH.
Qed.

Section SumByKey.

Context {T : Type}.
Variable key : T -> string.
Variable val : T -> Z.

Lemma sumFor_none (c : string) (ts : list T) :
  existsb (fun t => String.eqb (key t) c) ts = false -> Spec.sumFor key val c ts = 0.
Proof.
  induction ts as [|t ts IH]; simpl; [reflexivity |].
  destruct (String.eqb (key t) c); simpl; [discriminate |]. intros H. now rewrite IH.
Qed.

Lemma addAll_get (c : string) (ts : list T) (r : JS.Record Z) :
  JS.get c (Spec.addAll key val ts r)
  = if existsb (fun t => String.eqb (key t) c) ts
    then Some (JS.or0 (JS.get c r) + Spec.sumFor key val c ts)
    else JS.get c r.
Proof.
  unfold Spec.addAll. revert r. induction ts as [|t ts IH]; intros r; simpl; [reflexivity |].
  rewrite IH. destruct (String.eqb_spec (key t) c) as [<- | Hne]; simpl.
  - rewrite get_set_same.
    assert (E : JS.or0 (Some (JS.or0 (JS.get (key t) r) + val t))
                = JS.or0 (JS.get (key t) r) + val t) by apply or0_number.
    rewrite E. destruct (existsb _ ts) eqn:Ex; [f_equal; lia |].
    rewrite (sumFor_none _ _ Ex). f_equal. lia.
  - rewrite get_set_other by assumption.
    destruct (existsb _ ts); [f_equal; lia | reflexivity].
Qed.

Lemma addAll_keys_NoDup (ts : list T) (r : JS.Record Z) :
  List.NoDup (JS.keys r) -> List.NoDup (JS.keys (Spec.addAll key val ts r)).
Proof.
  unfold Spec.addAll. revert r. induction ts as [|t ts IH]; intros r Hnd; simpl; [assumption |].
  apply IH. now apply keys_set_NoDup.
Qed.

Lemma addAll_sum (ts : list T) (r : JS.Record Z) :
  Spec.sum (JS.values (Spec.addAll key val ts r)) = Spec.sum (JS.values r) + Spec.sum (map val ts).
Proof.
  unfold Spec.addAll. revert r. induction ts as [|t ts IH]; intros r; simpl; [lia |].
  rewrite IH, sum_values_add. lia.
Qed.

End SumByKey.

(** Membership in a record filled by [Spec.addAll] from the empty record. *)
Lemma addAll_entries {T : Type} (key : T -> string) (val : T -> Z) (ts : list T)
    (c : string) (v : Z) :
  In (c, v) (Spec.addAll key val ts [])
  <-> (exists t, In t ts /\ key t = c) /\ v = Spec.sumFor key val c ts.
Proof.
  assert (Hnd : List.NoDup (JS.keys (Spec.addAll key val ts [])))
    by (apply addAll_keys_NoDup; constructor).
  assert (Hex : existsb (fun t => String.eqb (key t) c) ts = true
                <-> exists t, In t ts /\ key t = c).
  { rewrite existsb_exists. split; intros (t & Ht & E); exists t; split; try assumption.
    - now apply String.eqb_eq.
    - now apply String.eqb_eq. }
  split.
  - intros Hin. apply (In_get _ _ _ Hnd) in Hin. rewrite addAll_get in Hin.
    destruct (existsb _ ts) eqn:E; [| discriminate].
    split; [now apply Hex |]. simpl in Hin. inversion Hin. reflexivity.
  - intros [Hc ->]. apply get_In. rewrite addAll_get.
    apply Hex in Hc. rewrite Hc. reflexivity.
Qed.

Lemma sort_NoDup_map {A B : Type} (f : A -> B) (cmp : A -> A -> Z) (xs : list A) :
  List.NoDup (map f xs) -> List.NoDup (map f (JS.sort cmp xs)).
Proof.
  intros H. eapply Permutation_NoDup; [| exact H].
  apply Permutation_map. symmetry. apply sort_perm.
Qed.

Lemma total_sum_filter (p : Transaction -> bool) (ts : list Transaction) :
  Spec.total p ts = Spec.sum (map amount (List.filter p ts)).
Proof. now rewrite <- sumOf_filter_total, sumOf_sum. Qed.

(** ** The objects that hold the sums of the categories *)

Lemma keys_numbers (r : JS.Record Z) : JS.keys (Spec.numbers r) = JS.keys r.
Proof. unfold JS.keys, Spec.numbers. rewrite map_map. reflexivity. Qed.

Lemma get_numbers (k : string) (r : JS.Record Z) :
  JS.get k (Spec.numbers r) = JS.Num <$> JS.get k r.
Proof.
  induction r as [|[k' v] r IH]; simpl; [reflexivity |].
  destruct (String.eqb k k'); [reflexivity | exact IH].
Qed.

Lemma set_numbers (k : string) (v : Z) (r : JS.Record Z) :
  JS.set k (JS.Num v) (Spec.numbers r) = Spec.numbers (JS.set k v r).
Proof.
  induction r as [|[k' v'] r IH]; simpl; [reflexivity |].
  destruct (String.eqb k k'); simpl; [reflexivity |]. now rewrite IH.
Qed.

Lemma inherits_proto : JS.inherits "__proto__" = true.
Proof. reflexivity. Qed.

(** Under a name that [Object.prototype] does not have, the object
    behaves as a record of numbers. *)
Lemma addTo_numbers (k : string) (n : Z) (r : JS.Record Z) :
  JS.inherits k = false ->
  JS.addTo k n (Spec.numbers r) = Spec.numbers (JS.set k (JS.or0 (JS.get k r) + n) r).
Proof.
  intros Hk. unfold JS.addTo, JS.assign, JS.lookup.
  destruct (String.eqb_spec k "__proto__") as [-> | _];
    [rewrite inherits_proto in Hk; discriminate |].
  rewrite get_numbers, Hk. destruct (JS.get k r) as [v |]; cbn [fmap option_fmap option_map].
  - cbn [JS.orZeroPlus]. apply set_numbers.
  - cbn [JS.orZeroPlus JS.or0]. rewrite Z.add_0_l. apply set_numbers.
Qed.

Lemma addTo_fold_numbers {T : Type} (key : T -> string) (val : T -> Z) (ts : list T)
    (r : JS.Record Z) :
  (forall t, In t ts -> JS.inherits (key t) = false) ->
  fold_left (fun g t => JS.addTo (key t) (val t) g) ts (Spec.numbers r)
  = Spec.numbers (Spec.addAll key val ts r).
Proof.
  unfold Spec.addAll. revert r. induction ts as [|t ts IH]; intros r Hts; [reflexivity |].
  cbn [fold_left]. rewrite addTo_numbers by (apply Hts; now left).
  apply IH. intros u Hu. apply Hts. now right.
Qed.

(** [__proto__] never becomes a key, and a key is never listed twice. *)
Lemma addTo_keys (k : string) (n : Z) (r : JS.Record JS.Value) :
  List.NoDup (JS.keys r) /\ ~ In "__proto__" (JS.keys r) ->
  List.NoDup (JS.keys (JS.addTo k n r)) /\ ~ In "__proto__" (JS.keys (JS.addTo k n r)).
Proof.
  intros [Hnd Hp]. unfold JS.addTo, JS.assign.
  destruct (String.eqb_spec k "__proto__") as [-> | Hne]; [now split |].
  split; [now apply keys_set_NoDup |].
  rewrite keys_set. destruct (JS.get k r); [assumption |].
  rewrite in_app_iff. simpl. intros [H | [H | []]]; [contradiction | congruence].
Qed.

Lemma addTo_fold_keys {T : Type} (key : T -> string) (val : T -> Z) (ts : list T)
    (r : JS.Record JS.Value) :
  List.NoDup (JS.keys r) /\ ~ In "__proto__" (JS.keys r) ->
  let r' := fold_left (fun g t => JS.addTo (key t) (val t) g) ts r in
  List.NoDup (JS.keys r') /\ ~ In "__proto__" (JS.keys r').
Proof.
  revert r. induction ts as [|t ts IH]; intros r Hr; [exact Hr |].
  cbn [fold_left]. apply IH. now apply addTo_keys.
Qed.

Lemma read_keys {B : Type} (f : string -> JS.Value -> B) (r : JS.Record JS.Value) :
  List.NoDup (JS.keys r) ->
  map (fun k => f k (JS.read k r)) (JS.keys r) = map (fun kv => f (fst kv) (snd kv)) r.
Proof.
  unfold JS.keys. induction r as [|[k v] r IH]; intros Hnd; simpl; [reflexivity |].
  apply List.NoDup_cons_iff in Hnd as [Hk Hnd].
  unfold JS.read at 1, JS.lookup. simpl. rewrite String.eqb_refl. f_equal.
  rewrite <- IH by assumption. apply map_ext_in. intros k' Hk'.
  unfold JS.read, JS.lookup. simpl.
  destruct (String.eqb_spec k' k) as [-> | _]; [contradiction |].
  reflexivity.
Qed.

(** The entries of an object filled under names that [Object.prototype]
    does not have, as the items of a list sorted by descending value. *)
Section Entries.

Context {T B : Type}.
Variable key : T -> string.
Variable val : T -> Z.
Variable mk : string -> JS.Value -> B.
Variable name : B -> string.
Variable value : B -> JS.Value.
Hypothesis name_mk : forall k v, name (mk k v) = k.
Hypothesis value_mk : forall k v, value (mk k v) = v.

Let items (ts : list T) : list B :=
  JS.sort (fun a b => JS.minus (value b) (value a))
    (map (fun kv => mk (fst kv) (snd kv)) (Spec.numbers (Spec.addAll key val ts []))).

Lemma entries_by_key (ts : list T) :
  (forall c v, In (mk c v) (items ts)
               <-> (exists t, In t ts /\ key t = c)
                   /\ v = JS.Num (Spec.sumFor key val c ts))
  /\ List.NoDup (map name (items ts))
  /\ Spec.sum (map (fun b => Spec.number (value b)) (items ts)) = Spec.sum (map val ts)
  /\ StronglySorted (fun a b => Spec.number (value b) <= Spec.number (value a)) (items ts).
Proof.
  unfold items. set (m := Spec.addAll key val ts []).
  assert (Hnd : List.NoDup (JS.keys m)) by (apply addAll_keys_NoDup; constructor).
  assert (Hmap : map (fun kv => mk (fst kv) (snd kv)) (Spec.numbers m)
                 = map (fun kv => mk (fst kv) (JS.Num (snd kv))) m)
    by (unfold Spec.numbers; now rewrite map_map).
  rewrite Hmap.
  split; [| split; [| split]].
  - intros c v. rewrite sort_In, in_map_iff. split.
    + intros ([k w] & E & Hin). cbn [fst snd] in E.
      pose proof (f_equal name E) as En. pose proof (f_equal value E) as Ev.
      rewrite !name_mk in En. rewrite !value_mk in Ev. subst c v.
      apply (addAll_entries key val ts k w) in Hin as [Hex ->]. now split.
    + intros [Hex ->]. exists (c, Spec.sumFor key val c ts). split; [reflexivity |].
      apply (addAll_entries key val ts). now split.
  - apply sort_NoDup_map. rewrite map_map.
    rewrite (map_ext _ fst) by (intros kv; apply name_mk). exact Hnd.
  - rewrite <- sumOf_sum, sumOf_sort, sumOf_sum, map_map.
    rewrite (map_ext _ snd) by (intros kv; now rewrite value_mk).
    exact (addAll_sum key val ts []).
  - eapply StronglySorted_impl;
      [| apply (sort_by_key_sorted _ (fun b => - Spec.number (value b)))].
    + simpl. intros a b. lia.
    + intros x y Hx Hy. apply in_map_iff in Hx as (kx & <- & _).
      apply in_map_iff in Hy as (ky & <- & _). rewrite !value_mk.
      unfold JS.minus, JS.toNumber, JS.sub, Spec.number. lia.
Qed.

End Entries.

(** ** The category distribution of the reports *)

(** When no expense behind it has a category named like a member of
    [Object.prototype], the category distribution of the reports view
    has one slice for each category that has an expense in
    [filteredExpenseData]; the value of a slice is the sum of the
    expenses of its category, the values add up to the sum of all these
    expenses, and the slices come in descending order of value. *)
Theorem category_distribution_sums_by_category
    (LocalTZA currentDate : Z) (transactions : list Transaction)
    (period : Reports.Period) (customRange : Reports.CustomRange)
    (selectedCategories : list string) :
  let expenses := Reports.filteredExpenseData LocalTZA transactions period currentDate
                    customRange selectedCategories in
  let slices := Reports.categoryData LocalTZA transactions period currentDate
                  customRange selectedCategories in
  (forall t, In t expenses -> JS.inherits (category t) = false) ->
  (forall c v, In (Reports.mkSlice c v) slices
               <-> (exists t, In t expenses /\ category t = c)
                   /\ v = JS.Num (Spec.sumFor category amount c expenses))
  /\ List.NoDup (map Reports.slice_name slices)
  /\ Spec.sum (map (fun s => Spec.number (Reports.value s)) slices)
     = Spec.sum (map amount expenses)
  /\ StronglySorted
       (fun a b => Spec.number (Reports.value b) <= Spec.number (Reports.value a)) slices.
Proof.
  intros expenses slices Hplain. subst slices. unfold Reports.categoryData. fold expenses.
  change (@nil (string * JS.Value)) with (Spec.numbers []).
  rewrite (addTo_fold_numbers category amount expenses [] Hplain).
  rewrite read_keys
    by (rewrite keys_numbers; apply addAll_keys_NoDup; constructor).
  apply (entries_by_key category amount Reports.mkSlice Reports.slice_name Reports.value);
    reflexivity.
Qed.

Lemma category_distribution_sums_by_category_witness :
  let txs := [ mkTransaction "1" "2024-03-01" 40 EXPENSE "Makanan & Minuman" "" None (Some "1");
               mkTransaction "2" "2024-03-02" 20 EXPENSE "Stok Barang" "" None (Some "1");
               mkTransaction "3" "2024-03-05" 25 EXPENSE "Makanan & Minuman" "" None (Some "1") ] in
  List.NoDup
    (map Reports.slice_name
       (Reports.categoryData 25200000 txs Reports.MONTHLY 1710500400000
          (Reports.mkRange "" "") [])).
Proof.
  intros txs.
  assert (Hplain : forall t,
             In t (Reports.filteredExpenseData 25200000 txs Reports.MONTHLY 1710500400000
                     (Reports.mkRange "" "") []) ->
             JS.inherits (category t) = false).
  { intros t Hin. vm_compute in Hin.
    destruct Hin as [<- | [<- | [<- | []]]]; reflexivity. }
  destruct (category_distribution_sums_by_category 25200000 1710500400000 txs
              Reports.MONTHLY (Reports.mkRange "" "") [] Hplain) as (_ & Hnd & _).
  exact Hnd.
Defined.

(** An expense filed under [__proto__] gets no slice, and one filed
    under [constructor] gets a slice whose value is a string. *)
Lemma category_distribution_under_inherited_names :
  let txs := [ mkTransaction "1" "2024-03-01" 40 EXPENSE "__proto__" "" None (Some "1");
               mkTransaction "2" "2024-03-02" 20 EXPENSE "Stok Barang" "" None (Some "1");
               mkTransaction "3" "2024-03-05" 25 EXPENSE "constructor" "" None (Some "1") ] in
  Reports.categoryData 25200000 txs Reports.MONTHLY 1710500400000 (Reports.mkRange "" "") []
  = [ Reports.mkSlice "Stok Barang" (JS.Num 20);
      Reports.mkSlice "constructor" (JS.Str "function Object() { [native code] }25") ].
Proof. vm_compute. reflexivity. Qed.

(** ** The income statement *)

Lemma groups_fold_split (ts : list Transaction) (ig eg : JS.Record JS.Value) :
  fold_left (fun '(incomeGroups, expenseGroups) t =>
               match tx_type t with
               | INCOME =>
                   (JS.addTo (category t) (amount t) incomeGroups, expenseGroups)
               | EXPENSE =>
                   (incomeGroups, JS.addTo (category t) (amount t) expenseGroups)
               end) ts (ig, eg)
  = (fold_left (fun g t => JS.addTo (category t) (amount t) g)
       (List.filter Spec.isIncome ts) ig,
     fold_left (fun g t => JS.addTo (category t) (amount t) g)
       (List.filter Spec.isExpense ts) eg).
Proof.
  revert ig eg. induction ts as [|t ts IH]; intros ig eg; [reflexivity |].
  cbn [fold_left List.filter]. unfold Spec.isIncome at 1, Spec.isExpense at 1.
  destruct (tx_type t); cbn [TransactionType_eqb]; rewrite IH; reflexivity.
Qed.

Lemma lineItems_entries (groups : JS.Record JS.Value) :
  Reports.lineItems groups
  = JS.sort (fun a b => JS.minus (Reports.item_amount b) (Reports.item_amount a))
      (map (fun kv => Reports.mkLineItem (fst kv) (snd kv)) groups).
Proof.
  unfold Reports.lineItems. f_equal. apply map_ext. now intros [k v].
Qed.

Lemma lineItems_by_category (ts : list Transaction) :
  (forall t, In t ts -> JS.inherits (category t) = false) ->
  let items :=
    Reports.lineItems (fold_left (fun g t => JS.addTo (category t) (amount t) g) ts []) in
  (forall c v, In (Reports.mkLineItem c v) items
               <-> (exists t, In t ts /\ category t = c)
                   /\ v = JS.Num (Spec.sumFor category amount c ts))
  /\ List.NoDup (map Reports.item_name items)
  /\ Spec.sum (map (fun i => Spec.number (Reports.item_amount i)) items)
     = Spec.sum (map amount ts)
  /\ StronglySorted
       (fun a b => Spec.number (Reports.item_amount b) <= Spec.number (Reports.item_amount a))
       items.
Proof.
  intros Hplain items. subst items.
  change (@nil (string * JS.Value)) with (Spec.numbers []).
  rewrite (addTo_fold_numbers category amount ts [] Hplain), lineItems_entries.
  apply (entries_by_key category amount Reports.mkLineItem Reports.item_name
           Reports.item_amount); reflexivity.
Qed.

(** When no transaction behind it has a category named like a member
    of [Object.prototype], the income statement has one income line for
    each category that has an income among the transactions it is built
    from (those of the period, narrowed to the selected categories when
    there is a selection), with the sum of these incomes as its amount,
    and likewise one expense line for each category with an expense; no
    category appears twice in a list and each list is in descending
    order of amount. *)
Theorem line_items_sum_by_category
    (LocalTZA currentDate : Z) (transactions : list Transaction)
    (period : Reports.Period) (customRange : Reports.CustomRange)
    (selectedCategories : list string) :
  let fd := Reports.filteredData LocalTZA transactions period currentDate customRange in
  let data := if (0 <? Z.of_nat (length selectedCategories))
              then List.filter (fun t => JS.mem (category t) selectedCategories) fd
              else fd in
  let a := Reports.accountingData LocalTZA transactions period currentDate customRange
             selectedCategories in
  (forall t, In t data -> JS.inherits (category t) = false) ->
  (forall c v, In (Reports.mkLineItem c v) (Reports.incomeList a)
               <-> (exists t, In t data /\ tx_type t = INCOME /\ category t = c)
                   /\ v = JS.Num (Spec.sumFor category amount c
                                    (List.filter Spec.isIncome data)))
  /\ (forall c v, In (Reports.mkLineItem c v) (Reports.expenseList a)
                  <-> (exists t, In t data /\ tx_type t = EXPENSE /\ category t = c)
                      /\ v = JS.Num (Spec.sumFor category amount c
                                       (List.filter Spec.isExpense data)))
  /\ List.NoDup (map Reports.item_name (Reports.incomeList a))
  /\ List.NoDup (map Reports.item_name (Reports.expenseList a))
  /\ StronglySorted
       (fun x y => Spec.number (Reports.item_amount y) <= Spec.number (Reports.item_amount x))
       (Reports.incomeList a)
  /\ StronglySorted
       (fun x y => Spec.number (Reports.item_amount y) <= Spec.number (Reports.item_amount x))
       (Reports.expenseList a).
Proof.
  intros fd data a Hplain. subst a. unfold Reports.accountingData. fold fd. fold data.
  rewrite groups_fold_split. cbn [Reports.incomeList Reports.expenseList].
  destruct (lineItems_by_category (List.filter Spec.isIncome data)) as (I1 & I2 & _ & I3);
    [intros t Ht; apply filter_In in Ht as [Ht _]; now apply Hplain |].
  destruct (lineItems_by_category (List.filter Spec.isExpense data)) as (E1 & E2 & _ & E3);
    [intros t Ht; apply filter_In in Ht as [Ht _]; now apply Hplain |].
  split; [| split; [| repeat split; assumption]].
  - intros c v. rewrite I1. split.
    + intros [(t & Ht & Hc) ->]. apply filter_In in Ht as [Ht Hi].
      split; [| reflexivity]. exists t. repeat split; try assumption.
      unfold Spec.isIncome in Hi. now destruct (tx_type t).
    + intros [(t & Ht & Hty & Hc) ->]. split; [| reflexivity].
      exists t. split; [| assumption]. apply filter_In. split; [assumption |].
      unfold Spec.isIncome. now rewrite Hty.
  - intros c v. rewrite E1. split.
    + intros [(t & Ht & Hc) ->]. apply filter_In in Ht as [Ht Hi].
      split; [| reflexivity]. exists t. repeat split; try assumption.
      unfold Spec.isExpense in Hi. now destruct (tx_type t).
    + intros [(t & Ht & Hty & Hc) ->]. split; [| reflexivity].
      exists t. split; [| assumption]. apply filter_In. split; [assumption |].
      unfold Spec.isExpense. now rewrite Hty.
Qed.

Lemma line_items_sum_by_category_witness :
  let txs := [ mkTransaction "1" "2024-03-01" 100 INCOME "Penjualan" "" None (Some "1");
               mkTransaction "2" "2024-03-01" 40 EXPENSE "Makanan & Minuman" "" None (Some "1");
               mkTransaction "3" "2024-03-02" 20 EXPENSE "Stok Barang" "" None (Some "1") ] in
  List.NoDup
    (map Reports.item_name
       (Reports.expenseList
          (Reports.accountingData 25200000 txs Reports.MONTHLY 1710500400000
             (Reports.mkRange "" "") []))).
Proof.
  intros txs.
  assert (Hplain : forall t,
             In t (if 0 <? Z.of_nat (length (@nil string))
                   then List.filter (fun t => JS.mem (category t) [])
                          (Reports.filteredData 25200000 txs Reports.MONTHLY 1710500400000
                             (Reports.mkRange "" ""))
                   else Reports.filteredData 25200000 txs Reports.MONTHLY 1710500400000
                          (Reports.mkRange "" "")) ->
             JS.inherits (category t) = false).
  { intros t Hin. vm_compute in Hin.
    destruct Hin as [<- | [<- | [<- | []]]]; reflexivity. }
  destruct (line_items_sum_by_category 25200000 1710500400000 txs
              Reports.MONTHLY (Reports.mkRange "" "") [] Hplain) as (_ & _ & _ & Hnd & _).
  exact Hnd.
Defined.

Lemma sumOfAmounts_numbers (items : list Reports.LineItem) :
  (forall i, In i items -> exists n, Reports.item_amount i = JS.Num n) ->
  Reports.sumOfAmounts items
  = Some (Spec.sum (map (fun i => Spec.number (Reports.item_amount i)) items)).
Proof.
  unfold Reports.sumOfAmounts. intros Hnum.
  assert (Hacc : forall s,
             fold_left (fun sum item =>
                          match sum, JS.toNumber (Reports.item_amount item) with
                          | Some s, Some n => Some (s + n)
                          | _, _ => None
                          end) items (Some s)
             = Some (s + Spec.sum (map (fun i => Spec.number (Reports.item_amount i)) items))).
  { induction items as [|i items IH]; intros s; simpl; [f_equal; lia |].
    destruct (Hnum i (or_introl eq_refl)) as [n En]. rewrite En. simpl.
    rewrite IH by (intros j Hj; apply Hnum; now right). f_equal.
    unfold Spec.sum. lia. }
  rewrite Hacc. f_equal.
Qed.

(** C1, as it holds.  The profit of the totals is income minus expense
    for every transaction list and period.  When no category is selected,
    or every transaction of the period has a selected category, and no
    transaction of the period has a category named like a member of
    [Object.prototype], the net recomputed from the line items of the
    income statement equals that profit. *)
Theorem accounting_net_equals_profit
    (LocalTZA currentDate : Z) (transactions : list Transaction)
    (period : Reports.Period) (customRange : Reports.CustomRange)
    (selectedCategories : list string) :
  (selectedCategories = []
   \/ forall t,
        In t (Reports.filteredData LocalTZA transactions period currentDate customRange) ->
        JS.mem (category t) selectedCategories = true) ->
  (forall t,
     In t (Reports.filteredData LocalTZA transactions period currentDate customRange) ->
     JS.inherits (category t) = false) ->
  let s := Reports.stats LocalTZA transactions period currentDate customRange in
  Reports.profit s = Reports.income s - Reports.expense s
  /\ Reports.netOfLineItems
       (Reports.accountingData LocalTZA transactions period currentDate customRange
          selectedCategories)
     = Some (Reports.profit s).
Proof.
  intros Hsel Hplain s. subst s. rewrite stats_totals. simpl. split; [reflexivity |].
  unfold Reports.accountingData.
  set (fd := Reports.filteredData LocalTZA transactions period currentDate customRange) in *.
  assert (Huse : (if 0 <? Z.of_nat (length selectedCategories)
                  then List.filter (fun t => JS.mem (category t) selectedCategories) fd
                  else fd) = fd).
  { destruct Hsel as [-> | Hall]; [reflexivity |].
    destruct (0 <? Z.of_nat (length selectedCategories)); [| reflexivity].
    now apply filter_all. }
  rewrite Huse, groups_fold_split. unfold Reports.netOfLineItems.
  cbn [Reports.incomeList Reports.expenseList].
  destruct (lineItems_by_category (List.filter Spec.isIncome fd)) as (I1 & _ & I2 & _);
    [intros t Ht; apply filter_In in Ht as [Ht _]; now apply Hplain |].
  destruct (lineItems_by_category (List.filter Spec.isExpense fd)) as (E1 & _ & E2 & _);
    [intros t Ht; apply filter_In in Ht as [Ht _]; now apply Hplain |].
  rewrite !sumOfAmounts_numbers, I2, E2, <- !total_sum_filter; [reflexivity | |].
  - intros [c v] Hin. apply E1 in Hin as [_ ->]. now eexists.
  - intros [c v] Hin. apply I1 in Hin as [_ ->]. now eexists.
Qed.

Lemma accounting_net_equals_profit_witness :
  let txs := [ mkTransaction "1" "2024-03-01" 100 INCOME "Penjualan" "" None (Some "1");
               mkTransaction "2" "2024-03-01" 40 EXPENSE "Makanan & Minuman" "" None (Some "1");
               mkTransaction "3" "2024-03-02" 20 EXPENSE "Stok Barang" "" None (Some "1") ] in
  Reports.netOfLineItems
    (Reports.accountingData 25200000 txs Reports.MONTHLY 1710500400000
       (Reports.mkRange "" "") [])
  = Some (Reports.profit
            (Reports.stats 25200000 txs Reports.MONTHLY 1710500400000
               (Reports.mkRange "" ""))).
Proof.
  intros txs.
  assert (Hplain : forall t,
             In t (Reports.filteredData 25200000 txs Reports.MONTHLY 1710500400000
                     (Reports.mkRange "" "")) ->
             JS.inherits (category t) = false).
  { intros t Hin. vm_compute in Hin.
    destruct Hin as [<- | [<- | [<- | []]]]; reflexivity. }
  exact (proj2 (accounting_net_equals_profit 25200000 1710500400000 txs Reports.MONTHLY
                  (Reports.mkRange "" "") [] (or_introl eq_refl) Hplain)).
Defined.

(** C1, as stated, fails once a category is selected: the line items are
    narrowed to the selection while the totals are not. *)
Lemma accounting_net_differs_under_selection :
  let txs := [ mkTransaction "1" "2024-03-01" 100 INCOME "Penjualan" "" None (Some "1");
               mkTransaction "2" "2024-03-01" 40 EXPENSE "Makanan & Minuman" "" None (Some "1") ] in
  Reports.netOfLineItems
    (Reports.accountingData 25200000 txs Reports.MONTHLY 1710500400000
       (Reports.mkRange "" "") ["Makanan & Minuman"])
  <> Some (Reports.profit
             (Reports.stats 25200000 txs Reports.MONTHLY 1710500400000
                (Reports.mkRange "" ""))).
Proof. vm_compute. discriminate. Qed.

(** With no selection, an income filed under [__proto__] has no line:
    the line items net 0 against a profit of 100.  Filed under
    [constructor] it has a line whose amount is a string, and the net of
    the line items is not a number. *)
Lemma accounting_net_under_inherited_names :
  let range := Reports.mkRange "" "" in
  let proto := [ mkTransaction "1" "2024-03-01" 100 INCOME "__proto__" "" None (Some "1") ] in
  let ctor := [ mkTransaction "1" "2024-03-01" 100 INCOME "constructor" "" None (Some "1") ] in
  Reports.profit (Reports.stats 25200000 proto Reports.MONTHLY 1710500400000 range) = 100
  /\ Reports.accountingData 25200000 proto Reports.MONTHLY 1710500400000 range []
     = Reports.mkAccounting [] []
  /\ Reports.netOfLineItems
       (Reports.accountingData 25200000 proto Reports.MONTHLY 1710500400000 range [])
     = Some 0
  /\ Reports.accountingData 25200000 ctor Reports.MONTHLY 1710500400000 range []
     = Reports.mkAccounting
         [ Reports.mkLineItem "constructor"
             (JS.Str "function Object() { [native code] }100") ] []
  /\ Reports.netOfLineItems
       (Reports.accountingData 25200000 ctor Reports.MONTHLY 1710500400000 range [])
     = None.
Proof. vm_compute. repeat split. Qed.

(** ** Totals of the dashboard *)

Lemma dashboard_stats_fold (ts : list Transaction) (i e : Z) (cm : JS.Record JS.Value) :
  fold_left (fun '(income, expense, categoryMap) t =>
               match tx_type t with
               | INCOME => (income + amount t, expense, categoryMap)
               | EXPENSE =>
                   (income, expense + amount t,
                    JS.addTo (category t) (amount t) categoryMap)
               end) ts (i, e, cm)
  = (i + Spec.total Spec.isIncome ts, e + Spec.total Spec.isExpense ts,
     fold_left (fun g t => JS.addTo (category t) (amount t) g)
       (List.filter Spec.isExpense ts) cm).
Proof.
  revert i e cm. induction ts as [|t ts IH]; intros i e cm.
  - simpl. now rewrite !Z.add_0_r.
  - cbn [fold_left List.filter Spec.total].
    destruct (tx_type t) eqn:E.
    + replace (Spec.isIncome t) with true by (unfold Spec.isIncome; now rewrite E).
      replace (Spec.isExpense t) with false by (unfold Spec.isExpense; now rewrite E).
      rewrite IH. f_equal; try lia; try reflexivity; f_equal; lia.
    + replace (Spec.isIncome t) with false by (unfold Spec.isIncome; now rewrite E).
      replace (Spec.isExpense t) with true by (unfold Spec.isExpense; now rewrite E).
      rewrite IH. f_equal; try lia; try reflexivity; f_equal; lia.
Qed.

(** The totals of the dashboard are the sums of the incomes and of the
    expenses of the filtered transactions, and the balance is their
    difference.  When no filtered expense has a category named like a
    member of [Object.prototype], the category distribution has one
    slice for each category with a filtered expense, valued at the sum
    of these expenses; the slices are in descending order of value and
    their values add up to the total expense. *)
Theorem dashboard_stats_are_sums
    (LocalTZA now : Z) (transactions : list Transaction)
    (period : Dashboard.DashboardPeriod) :
  let ft := Dashboard.filteredTransactions LocalTZA now transactions period in
  let s := Dashboard.stats LocalTZA now transactions period in
  (forall t, In t ft -> tx_type t = EXPENSE -> JS.inherits (category t) = false) ->
  Dashboard.income s = Spec.total Spec.isIncome ft
  /\ Dashboard.expense s = Spec.total Spec.isExpense ft
  /\ Dashboard.balance s = Dashboard.income s - Dashboard.expense s
  /\ (forall c v, In (Dashboard.mkSlice c v) (Dashboard.categoryData s)
                  <-> (exists t, In t ft /\ tx_type t = EXPENSE /\ category t = c)
                      /\ v = JS.Num (Spec.sumFor category amount c
                                       (List.filter Spec.isExpense ft)))
  /\ List.NoDup (map Dashboard.slice_name (Dashboard.categoryData s))
  /\ Spec.sum (map (fun x => Spec.number (Dashboard.value x)) (Dashboard.categoryData s))
     = Dashboard.expense s
  /\ StronglySorted
       (fun a b => Spec.number (Dashboard.value b) <= Spec.number (Dashboard.value a))
       (Dashboard.categoryData s).
Proof.
  intros ft s Hplain. subst s. unfold Dashboard.stats. fold ft.
  rewrite dashboard_stats_fold.
  cbn [Dashboard.income Dashboard.expense Dashboard.balance Dashboard.categoryData].
  set (ex := List.filter Spec.isExpense ft).
  assert (Hex : forall t, In t ex -> JS.inherits (category t) = false).
  { intros t Ht. apply filter_In in Ht as [Ht Hi]. apply Hplain; [assumption |].
    unfold Spec.isExpense in Hi. now destruct (tx_type t). }
  change (@nil (string * JS.Value)) with (Spec.numbers []).
  rewrite (addTo_fold_numbers category amount ex [] Hex).
  rewrite read_keys
    by (rewrite keys_numbers; apply addAll_keys_NoDup; constructor).
  destruct (entries_by_key category amount Dashboard.mkSlice Dashboard.slice_name
              Dashboard.value ltac:(reflexivity) ltac:(reflexivity) ex)
    as (H1 & H2 & H3 & H4).
  split; [lia |]. split; [lia |]. split; [lia |].
  split; [| split; [exact H2 | split; [| exact H4]]].
  - intros c v. rewrite H1. split.
    + intros [(t & Ht & Hc) ->]. apply filter_In in Ht as [Ht Hi].
      split; [| reflexivity]. exists t. repeat split; try assumption.
      unfold Spec.isExpense in Hi. now destruct (tx_type t).
    + intros [(t & Ht & Hty & Hc) ->]. split; [| reflexivity].
      exists t. split; [| assumption]. apply filter_In. split; [assumption |].
      unfold Spec.isExpense. now rewrite Hty.
  - rewrite H3. unfold ex. rewrite total_sum_filter. simpl. lia.
Qed.

Lemma dashboard_stats_are_sums_witness :
  let txs := [ mkTransaction "1" "2024-03-01" 100 INCOME "Penjualan" "" None (Some "1");
               mkTransaction "2" "2024-03-01" 40 EXPENSE "Makanan & Minuman" "" None (Some "1");
               mkTransaction "3" "2024-03-02" 20 EXPENSE "Stok Barang" "" None (Some "1") ] in
  let s := Dashboard.stats 25200000 1710500400000 txs Dashboard.ALL in
  Spec.sum (map (fun x => Spec.number (Dashboard.value x)) (Dashboard.categoryData s))
  = Dashboard.expense s.
Proof.
  intros txs s.
  assert (Hplain : forall t,
             In t (Dashboard.filteredTransactions 25200000 1710500400000 txs Dashboard.ALL) ->
             tx_type t = EXPENSE -> JS.inherits (category t) = false).
  { intros t Hin _. vm_compute in Hin.
    destruct Hin as [<- | [<- | [<- | []]]]; reflexivity. }
  destruct (dashboard_stats_are_sums 25200000 1710500400000 txs Dashboard.ALL Hplain)
    as (_ & _ & _ & _ & _ & Hsum & _).
  exact Hsum.
Defined.

(** An expense filed under [__proto__] counts in the total expense and
    gets no slice: the slices add up to 20 against an expense of 60. *)
Lemma dashboard_stats_under_proto :
  let txs := [ mkTransaction "1" "2024-03-01" 40 EXPENSE "__proto__" "" None (Some "1");
               mkTransaction "2" "2024-03-02" 20 EXPENSE "Stok Barang" "" None (Some "1") ] in
  let s := Dashboard.stats 25200000 1710500400000 txs Dashboard.ALL in
  Dashboard.expense s = 60
  /\ Dashboard.categoryData s = [ Dashboard.mkSlice "Stok Barang" (JS.Num 20) ].
Proof. vm_compute. split; reflexivity. Qed.

Lemma sum_one_account (accounts : list Account) (a : string) (v : Z) :
  List.NoDup (map acc_id accounts) ->
  (exists acc, In acc accounts /\ acc_id acc = a) ->
  Spec.sum (map (fun acc => if String.eqb a (acc_id acc) then v else 0) accounts) = v.
Proof.
  induction accounts as [|acc accounts IH]; intros Hnd (acc0 & Hin & Hid).
  - destruct Hin.
  - apply List.NoDup_cons_iff in Hnd as [Hfresh Hnd]. cbn [map Spec.sum fold_right].
    fold (Spec.sum (map (fun acc => if String.eqb a (acc_id acc) then v else 0) accounts)).
    destruct (String.eqb_spec a (acc_id acc)) as [E | Hne].
    + assert (Hz : Spec.sum (map (fun acc => if String.eqb a (acc_id acc) then v else 0)
                               accounts) = 0).
      { clear IH Hnd Hin. induction accounts as [|b l IHl]; [reflexivity |].
        cbn [map Spec.sum fold_right].
        fold (Spec.sum (map (fun acc => if String.eqb a (acc_id acc) then v else 0) l)).
        destruct (String.eqb_spec a (acc_id b)) as [Eb | _].
        - exfalso. apply Hfresh. left. congruence.
        - rewrite IHl; [lia |]. intros H. apply Hfresh. now right. }
      lia.
    + destruct Hin as [-> | Hin]; [congruence |].
      rewrite IH; [lia | assumption |]. now exists acc0.
Qed.

Lemma sum_over_accounts (accounts : list Account) (p : Transaction -> bool)
    (ts : list Transaction) :
  List.NoDup (map acc_id accounts) ->
  (forall t, In t ts -> exists acc, In acc accounts /\ accountId t = Some (acc_id acc)) ->
  Spec.sum (map (fun acc => Spec.total (fun t => Dashboard.onAccount acc t && p t) ts)
                accounts)
  = Spec.total p ts.
Proof.
  intros Hnd. induction ts as [|t ts IH]; intros Href.
  - clear. cbn [Spec.total]. induction accounts as [|a l IHl]; [reflexivity |].
    cbn [map Spec.sum fold_right]. unfold Spec.sum in IHl. now rewrite IHl.
  - cbn [Spec.total].
    rewrite <- IH by (intros u Hu; apply Href; now right).
    destruct (Href t (or_introl eq_refl)) as (acc0 & Hin & Hid).
    rewrite <- (sum_one_account accounts (acc_id acc0) (if p t then amount t else 0) Hnd)
      by (now exists acc0).
    clear - Hid. induction accounts as [|a l IHl]; [reflexivity |].
    cbn [map Spec.sum fold_right].
    fold (Spec.sum (map (fun acc =>
            Spec.total (fun t0 => Dashboard.onAccount acc t0 && p t0) ts) l)).
    fold (Spec.sum (map (fun acc =>
            (if Dashboard.onAccount acc t && p t then amount t else 0)
            + Spec.total (fun t0 => Dashboard.onAccount acc t0 && p t0) ts) l)).
    fold (Spec.sum (map (fun acc =>
            if String.eqb (acc_id acc0) (acc_id acc)
            then (if p t then amount t else 0) else 0) l)).
    rewrite IHl. unfold Dashboard.onAccount at 1. rewrite Hid.
    destruct (String.eqb (acc_id acc0) (acc_id a)), (p t); simpl; lia.
Qed.

(** When the accounts have distinct ids and every transaction references
    one of them, the total assets are the sum of the initial balances
    plus all incomes minus all expenses. *)
Theorem total_assets_is_initial_plus_net
    (transactions : list Transaction) (accounts : list Account) :
  List.NoDup (map acc_id accounts) ->
  (forall t, In t transactions ->
     exists acc, In acc accounts /\ accountId t = Some (acc_id acc)) ->
  Dashboard.totalAssets transactions accounts
  = Spec.sum (map initialBalance accounts)
    + Spec.total Spec.isIncome transactions - Spec.total Spec.isExpense transactions.
Proof.
  intros Hnd Href. unfold Dashboard.totalAssets, Dashboard.accountBalances.
  rewrite sumOf_sum, map_map. cbn [Dashboard.currentBalance].
  rewrite <- (sum_over_accounts accounts Spec.isIncome transactions Hnd Href).
  rewrite <- (sum_over_accounts accounts Spec.isExpense transactions Hnd Href).
  clear. induction accounts as [|a l IH]; [reflexivity |].
  cbn [map Spec.sum fold_right]. unfold Spec.sum in IH. rewrite IH.
  rewrite or0_number, !sumOf_filter_total.
  unfold Spec.isIncome, Spec.isExpense. lia.
Qed.

Lemma total_assets_is_initial_plus_net_witness :
  let accounts := [ mkAccount "1" "Kas Tunai" CASH 1000; mkAccount "2" "Rekening Bank" BANK 500 ] in
  let txs := [ mkTransaction "a" "2024-03-01" 100 INCOME "Penjualan" "" None (Some "1");
               mkTransaction "b" "2024-03-02" 40 EXPENSE "Transportasi" "" None (Some "2") ] in
  Dashboard.totalAssets txs accounts = 1560.
Proof.
  intros accounts txs.
  rewrite (total_assets_is_initial_plus_net txs accounts).
  - reflexivity.
  - repeat (apply List.NoDup_cons; [simpl; intuition discriminate |]). apply List.NoDup_nil.
  - intros t [<- | [<- | []]].
    + exists (mkAccount "1" "Kas Tunai" CASH 1000). split; [now left | reflexivity].
    + exists (mkAccount "2" "Rekening Bank" BANK 500).
      split; [right; now left | reflexivity].
Defined.

(** ** The groups of a page *)

Section Groups.

Let gstep (groups : JS.Record TransactionList.Group) (t : Transaction) :=
  let groups :=
    match JS.get (date t) groups with
    | Some _ => groups
    | None => JS.set (date t) (TransactionList.mkGroup [] 0) groups
    end in
  match JS.get (date t) groups with
  | Some g =>
      JS.set (date t)
        (TransactionList.mkGroup (TransactionList.group_transactions g ++ [t])
           (match tx_type t with
            | INCOME => TransactionList.total g + amount t
            | EXPENSE => TransactionList.total g - amount t
            end)) groups
  | None => groups
  end.

Let items (o : option TransactionList.Group) : list Transaction :=
  match o with Some g => TransactionList.group_transactions g | None => [] end.

Let sofar (o : option TransactionList.Group) : Z :=
  match o with Some g => TransactionList.total g | None => 0 end.

Let extend (o : option TransactionList.Group) (l : list Transaction) :=
  match l with
  | [] => o
  | _ => Some (TransactionList.mkGroup (items o ++ l) (sofar o + Spec.net l))
  end.

Lemma gstep_get (groups : JS.Record TransactionList.Group) (t : Transaction) (d : string) :
  JS.get d (gstep groups t)
  = if String.eqb (date t) d
    then Some (TransactionList.mkGroup (items (JS.get d groups) ++ [t])
                 (match tx_type t with
                  | INCOME => sofar (JS.get d groups) + amount t
                  | EXPENSE => sofar (JS.get d groups) - amount t
                  end))
    else JS.get d groups.
Proof.
  unfold gstep. destruct (String.eqb_spec (date t) d) as [<- | Hne].
  - destruct (JS.get (date t) groups) as [g |] eqn:E.
    + rewrite E, get_set_same. reflexivity.
    + rewrite !get_set_same. reflexivity.
  - destruct (JS.get (date t) groups) as [g |] eqn:E.
    + rewrite E. now apply get_set_other.
    + rewrite get_set_same, !get_set_other by assumption. reflexivity.
Qed.

Lemma gstep_NoDup (groups : JS.Record TransactionList.Group) (t : Transaction) :
  List.NoDup (JS.keys groups) -> List.NoDup (JS.keys (gstep groups t)).
Proof.
  intros Hnd. unfold gstep. destruct (JS.get (date t) groups) as [g |] eqn:E.
  - rewrite E. now apply keys_set_NoDup.
  - rewrite get_set_same. now do 2 apply keys_set_NoDup.
Qed.

Lemma groups_fold_get (ts : list Transaction) (groups : JS.Record TransactionList.Group)
    (d : string) :
  JS.get d (fold_left gstep ts groups)
  = extend (JS.get d groups) (List.filter (fun t => String.eqb (date t) d) ts).
Proof.
  revert groups. induction ts as [|t ts IH]; intros groups; [reflexivity |].
  cbn [fold_left List.filter]. rewrite IH, gstep_get.
  destruct (String.eqb (date t) d); [| reflexivity].
  set (l := List.filter (fun t0 => String.eqb (date t0) d) ts).
  set (o := JS.get d groups).
  unfold extend at 2. unfold extend. cbn [items sofar TransactionList.group_transactions
                                           TransactionList.total].
  assert (Hnet : forall l', Spec.net (t :: l')
                 = match tx_type t with INCOME => amount t | EXPENSE => - amount t end
                   + Spec.net l').
  { intros l'. unfold Spec.net. cbn [Spec.total]. unfold Spec.isIncome at 1, Spec.isExpense at 1.
    destruct (tx_type t); cbn [TransactionType_eqb]; lia. }
  destruct l as [|u l'].
  - rewrite Hnet. unfold Spec.net. cbn [Spec.total].
    destruct (tx_type t); f_equal; f_equal; lia.
  - rewrite <- app_assoc. cbn [app]. rewrite (Hnet (u :: l')).
    destruct (tx_type t); f_equal; f_equal; lia.
Qed.

Lemma groups_fold_NoDup (ts : list Transaction)
    (groups : JS.Record TransactionList.Group) :
  List.NoDup (JS.keys groups) -> List.NoDup (JS.keys (fold_left gstep ts groups)).
Proof.
  revert groups. induction ts as [|t ts IH]; intros groups Hnd; [assumption |].
  cbn [fold_left]. now apply IH, gstep_NoDup.
Qed.

(** The groups of the page shown are its days.  The group of a date
    holds the rows of the page with that date, in the order of the page,
    and its total is their incomes minus their expenses; a date without a
    row on the page has no group, and no date has two groups. *)
Theorem groups_partition_the_page
    (transactions : list Transaction) (searchTerm : string)
    (filterType : TransactionList.FilterType) (sortOrder : TransactionList.SortOrder)
    (currentPage : Z) :
  let page := TransactionList.paginatedTransactions
                transactions searchTerm filterType sortOrder currentPage in
  let groups := TransactionList.groupedTransactions
                  transactions searchTerm filterType sortOrder currentPage in
  List.NoDup (JS.keys groups)
  /\ (forall d, In d (JS.keys groups) <-> exists t, In t page /\ date t = d)
  /\ forall d,
       JS.get d groups
       = match List.filter (fun t => String.eqb (date t) d) page with
         | [] => None
         | rows => Some (TransactionList.mkGroup rows (Spec.net rows))
         end.
Proof.
  intros page groups. subst groups. unfold TransactionList.groupedTransactions.
  fold page. fold gstep.
  assert (Hget : forall d,
             JS.get d (fold_left gstep page [])
             = match List.filter (fun t => String.eqb (date t) d) page with
               | [] => None
               | rows => Some (TransactionList.mkGroup rows (Spec.net rows))
               end).
  { intros d. rewrite groups_fold_get. unfold extend. simpl.
    destruct (List.filter _ page); [reflexivity |]. f_equal. }
  split; [apply groups_fold_NoDup; constructor |]. split; [| exact Hget].
  intros d. split.
  - intros Hin. destruct (JS.get d (fold_left gstep page [])) as [g |] eqn:E.
    + rewrite Hget in E. destruct (List.filter _ page) as [|t l] eqn:F; [discriminate |].
      assert (Ht : In t (List.filter (fun t => String.eqb (date t) d) page))
        by (rewrite F; now left).
      apply filter_In in Ht as [Ht Hd]. exists t. split; [assumption |].
      now apply String.eqb_eq.
    + apply get_None_keys in E. contradiction.
  - intros (t & Ht & Hd). destruct (JS.get d (fold_left gstep page [])) as [g |] eqn:E.
    + apply get_In in E. unfold JS.keys. apply in_map_iff. now exists (d, g).
    + exfalso. rewrite Hget in E.
      assert (Hin : In t (List.filter (fun t => String.eqb (date t) d) page)).
      { apply filter_In. split; [assumption |]. now apply String.eqb_eq. }
      destruct (List.filter _ page); [destruct Hin | discriminate].
Qed.

End Groups.

(** ** The week of a date *)

Lemma below_the_hour (l : Z) :
  JSDate.MinFromTime l * JSDate.msPerMinute + JSDate.SecFromTime l * JSDate.msPerSecond
  + JSDate.msFromTime l = l mod JSDate.msPerHour.
Proof.
  unfold JSDate.MinFromTime, JSDate.SecFromTime, JSDate.msFromTime,
    JSDate.msPerMinute, JSDate.msPerSecond, JSDate.msPerHour.
  Z.to_euclidean_division_equations. lia.
Qed.

Lemma setHours4_midnight (tza t : Z) :
  JSDate.setHours4 tza 0 0 0 0 t = JSDate.Day (t + tza) * JSDate.msPerDay - tza.
Proof.
  unfold JSDate.setHours4, JSDate.UTC, JSDate.LocalTime, JSDate.MakeDate, JSDate.MakeTime.
  lia.
Qed.

Lemma setHours1_days_back (tza k t : Z) :
  JSDate.Day (JSDate.setHours1 tza (-24 * k) t + tza) = JSDate.Day (t + tza) - k.
Proof.
  unfold JSDate.setHours1, JSDate.UTC, JSDate.LocalTime, JSDate.MakeDate, JSDate.MakeTime.
  pose proof (below_the_hour (t + tza)) as H.
  replace (JSDate.Day (t + tza) * JSDate.msPerDay
           + (-24 * k * JSDate.msPerHour
              + JSDate.MinFromTime (t + tza) * JSDate.msPerMinute
              + JSDate.SecFromTime (t + tza) * JSDate.msPerSecond
              + JSDate.msFromTime (t + tza)) - tza + tza)
    with ((JSDate.Day (t + tza) - k) * JSDate.msPerDay + (t + tza) mod JSDate.msPerHour)
    by (unfold JSDate.msPerDay, JSDate.msPerHour in *; lia).
  generalize (JSDate.Day (t + tza) - k). intros d.
  unfold JSDate.Day, JSDate.msPerDay, JSDate.msPerHour.
  Z.to_euclidean_division_equations. lia.
Qed.

Lemma startOfWeek_spec (tza t : Z) :
  Reports.startOfWeek tza t
  = (JSDate.Day (t + tza) - (JSDate.Day (t + tza) + 3) mod 7) * JSDate.msPerDay - tza.
Proof.
  unfold Reports.startOfWeek. cbv zeta.
  unfold JSDate.getDay, JSDate.WeekDay, JSDate.LocalTime.
  set (D := JSDate.Day (t + tza)).
  destruct ((D + 4) mod 7 =? 0) eqn:E0.
  - apply Z.eqb_eq in E0. change (negb (7 =? 1)) with true. cbv iota.
    rewrite setHours4_midnight, (setHours1_days_back tza (7 - 1) t). fold D.
    f_equal. f_equal. Z.to_euclidean_division_equations. lia.
  - apply Z.eqb_neq in E0. destruct ((D + 4) mod 7 =? 1) eqn:E1; cbn [negb].
    + apply Z.eqb_eq in E1. rewrite setHours4_midnight. fold D.
      f_equal. f_equal. Z.to_euclidean_division_equations. lia.
    + apply Z.eqb_neq in E1.
      rewrite setHours4_midnight, (setHours1_days_back tza ((D + 4) mod 7 - 1) t). fold D.
      f_equal. f_equal. Z.to_euclidean_division_equations. lia.
Qed.

Lemma setDate_days (tza k t : Z) :
  JSDate.setDate tza (JSDate.getDate tza t + k) t = t + k * JSDate.msPerDay.
Proof.
  unfold JSDate.setDate, JSDate.getDate, JSDate.UTC, JSDate.LocalTime.
  set (l := t + tza).
  rewrite MakeDay_in_year by apply MonthFromDayInYear_range.
  unfold JSDate.DateFromTime, JSDate.DayWithinYear, JSDate.MonthFromTime, JSDate.MakeDate,
    JSDate.TimeWithinDay, JSDate.Day, JSDate.DayWithinYear, JSDate.msPerDay.
  generalize (JSDate.DaysBeforeMonth (JSDate.InLeapYear (JSDate.YearFromTime l))
                (JSDate.MonthFromDayInYear (JSDate.InLeapYear (JSDate.YearFromTime l))
                   (JSDate.Day l - JSDate.DayFromYear (JSDate.YearFromTime l)))).
  generalize (JSDate.DayFromYear (JSDate.YearFromTime l)). intros a b.
  unfold JSDate.Day, JSDate.msPerDay. subst l.
  Z.to_euclidean_division_equations. lia.
Qed.

Lemma endOfWeek_spec (tza t : Z) :
  Reports.endOfWeek tza t = Reports.startOfWeek tza t + 7 * JSDate.msPerDay - 1.
Proof.
  unfold Reports.endOfWeek. cbv zeta. rewrite setDate_days.
  rewrite startOfWeek_spec.
  unfold JSDate.setHours4, JSDate.UTC, JSDate.LocalTime, JSDate.MakeDate, JSDate.MakeTime.
  generalize (JSDate.Day (t + tza) - (JSDate.Day (t + tza) + 3) mod 7). intros d.
  unfold JSDate.Day, JSDate.msPerDay, JSDate.msPerHour, JSDate.msPerMinute,
    JSDate.msPerSecond.
  Z.to_euclidean_division_equations. lia.
Qed.

Lemma startOfWeek_monday (tza t : Z) :
  let s := Reports.startOfWeek tza t in
  JSDate.getDay tza s = 1
  /\ JSDate.TimeWithinDay (JSDate.LocalTime tza s) = 0
  /\ s <= t < s + 7 * JSDate.msPerDay.
Proof.
  intros s. subst s. rewrite startOfWeek_spec.
  unfold JSDate.getDay, JSDate.WeekDay, JSDate.TimeWithinDay, JSDate.LocalTime.
  replace ((JSDate.Day (t + tza) - (JSDate.Day (t + tza) + 3) mod 7) * JSDate.msPerDay
           - tza + tza)
    with ((JSDate.Day (t + tza) - (JSDate.Day (t + tza) + 3) mod 7) * JSDate.msPerDay)
    by lia.
  unfold JSDate.Day, JSDate.msPerDay.
  repeat split; Z.to_euclidean_division_equations; lia.
Qed.

(** The weekly period of the reports is the calendar week of
    [currentDate] in local time, from Monday 00:00:00.000 to the next
    Sunday 23:59:59.999: the week starts on a local Monday at midnight,
    holds [currentDate] and lasts seven days less one millisecond, and a
    transaction is in the period exactly when its date is valid and its
    time value is in the week. *)
Theorem weekly_period_is_monday_to_sunday
    (LocalTZA currentDate : Z) (transactions : list Transaction)
    (customRange : Reports.CustomRange) :
  let monday := Reports.startOfWeek LocalTZA currentDate in
  JSDate.getDay LocalTZA monday = 1
  /\ JSDate.TimeWithinDay (JSDate.LocalTime LocalTZA monday) = 0
  /\ monday <= currentDate < monday + 7 * JSDate.msPerDay
  /\ Reports.endOfWeek LocalTZA currentDate = monday + 7 * JSDate.msPerDay - 1
  /\ forall t,
       In t (Reports.filteredData LocalTZA transactions Reports.WEEKLY currentDate customRange)
       <-> In t transactions
           /\ exists v, JSDate.parse (date t) = Some v
                        /\ monday <= v < monday + 7 * JSDate.msPerDay.
Proof.
  intros monday.
  destruct (startOfWeek_monday LocalTZA currentDate) as (H1 & H2 & H3).
  split; [exact H1 |]. split; [exact H2 |]. split; [exact H3 |].
  split; [apply endOfWeek_spec |].
  intros t. unfold Reports.filteredData. rewrite filter_In.
  unfold Reports.inPeriod. cbv zeta. rewrite endOfWeek_spec. fold monday.
  unfold JSDate.leq, JSDate.geq. destruct (JSDate.parse (date t)) as [v |].
  - rewrite andb_true_iff, !Z.leb_le. split.
    + intros [Hin [Ha Hb]]. split; [assumption |]. exists v. split; [reflexivity | lia].
    + intros [Hin (v' & E & Ha)]. inversion E; subst v'. split; [assumption | lia].
  - split; [intros [_ H]; discriminate | intros [_ (v & E & _)]; discriminate].
Qed.

Lemma filterFrom_THIS_WEEK (LocalTZA start now : Z) (ts : list Transaction) :
  Dashboard.filterFrom LocalTZA start Dashboard.THIS_WEEK now ts
  = List.filter
      (fun t => JSDate.geq (JSDate.parse (date t))
                  (Some (Reports.startOfWeek LocalTZA now))) ts.
Proof.
  set (monday := Reports.startOfWeek LocalTZA now).
  assert (Hk : forall n t,
             Dashboard.keep LocalTZA start Dashboard.THIS_WEEK n t
             = (JSDate.geq (JSDate.parse (date t)) (Some (Reports.startOfWeek LocalTZA n)),
                Reports.startOfWeek LocalTZA n)) by reflexivity.
  assert (Hidem : Reports.startOfWeek LocalTZA monday = monday).
  { destruct (startOfWeek_monday LocalTZA now) as (H1 & H2 & _). fold monday in H1, H2.
    rewrite startOfWeek_spec. unfold JSDate.getDay, JSDate.WeekDay, JSDate.LocalTime in H1.
    unfold JSDate.TimeWithinDay, JSDate.LocalTime in H2.
    generalize dependent monday. intros m. unfold JSDate.Day, JSDate.msPerDay.
    intros. Z.to_euclidean_division_equations. lia. }
  assert (Hrest : forall l,
             Dashboard.filterFrom LocalTZA start Dashboard.THIS_WEEK monday l
             = List.filter (fun t => JSDate.geq (JSDate.parse (date t)) (Some monday)) l).
  { induction l as [|t l IH]; [reflexivity |].
    cbn [Dashboard.filterFrom List.filter]. rewrite Hk, Hidem, IH. reflexivity. }
  destruct ts as [|t ts]; [reflexivity |].
  cbn [Dashboard.filterFrom List.filter]. rewrite Hk. fold monday. rewrite Hrest.
  reflexivity.
Qed.

(** The period THIS_WEEK of the dashboard starts at the Monday 00:00
    local time of the week of [now], the start of the weekly period of
    the reports, and has no upper bound.  The callback sets the shared
    [now] to that Monday at its first call; the later calls find a Monday
    at midnight and leave it where it is, so every transaction is
    compared with the same instant. *)
Theorem this_week_starts_on_monday
    (LocalTZA now : Z) (transactions : list Transaction) :
  let monday := Reports.startOfWeek LocalTZA now in
  JSDate.getDay LocalTZA monday = 1
  /\ JSDate.TimeWithinDay (JSDate.LocalTime LocalTZA monday) = 0
  /\ monday <= now < monday + 7 * JSDate.msPerDay
  /\ Dashboard.filteredTransactions LocalTZA now transactions Dashboard.THIS_WEEK
     = List.filter (fun t => JSDate.geq (JSDate.parse (date t)) (Some monday)) transactions.
Proof.
  intros monday.
  destruct (startOfWeek_monday LocalTZA now) as (G1 & G2 & G3).
  split; [exact G1 |]. split; [exact G2 |]. split; [exact G3 |].
  apply filterFrom_THIS_WEEK.
Qed.

(** ** The fields of an arbitrary instant *)

Lemma YearFromDay_bounds (d : Z) :
  JSDate.DayFromYear (JSDate.YearFromDay d) <= d
  < JSDate.DayFromYear (JSDate.YearFromDay d + 1).
Proof.
  unfold JSDate.YearFromDay. cbv zeta.
  set (y0 := 1970 + d * 400 / 146097).
  assert (Hlo : JSDate.DayFromYear (y0 - 1) <= d)
    by (subst y0; unfold JSDate.DayFromYear; Z.to_euclidean_division_equations; lia).
  assert (Hhi : d < JSDate.DayFromYear (y0 + 1 + 1))
    by (subst y0; unfold JSDate.DayFromYear; Z.to_euclidean_division_equations; lia).
  destruct (Z.leb_spec (JSDate.DayFromYear (y0 + 1)) d); [lia |].
  destruct (Z.leb_spec (JSDate.DayFromYear y0) d); [lia |].
  replace (y0 - 1 + 1) with y0 by lia. lia.
Qed.

Lemma month_of_day_in_year (leap : bool) (j : Z) :
  0 <= j < 365 + (if leap then 1 else 0) ->
  0 <= j - JSDate.DaysBeforeMonth leap (JSDate.MonthFromDayInYear leap j)
  < Spec.monthLength leap (JSDate.MonthFromDayInYear leap j).
Proof.
  intros Hj. unfold JSDate.MonthFromDayInYear.
  repeat match goal with
    | |- context [if ?a <? ?b then _ else _] =>
        let c := eval vm_compute in b in change b with c;
        destruct (Z.ltb_spec a c)
    end.
  all: destruct leap.
  all: match goal with
       | |- context [Spec.monthLength ?l ?m] =>
           let c := eval vm_compute in (Spec.monthLength l m) in
           change (Spec.monthLength l m) with c
       end.
  all: match goal with
       | |- context [JSDate.DaysBeforeMonth ?l ?m] =>
           let c := eval vm_compute in (JSDate.DaysBeforeMonth l m) in
           change (JSDate.DaysBeforeMonth l m) with c
       end.
  all: simpl in *; lia.
Qed.

(** Every instant falls on a day of a month of a year. *)
Lemma fields_of_time (l : Z) :
  let y := JSDate.YearFromTime l in
  let m := JSDate.MonthFromTime l in
  let d := JSDate.DateFromTime l in
  0 <= m <= 11 /\ 1 <= d <= JSDate.DaysInMonth y m /\ JSDate.MakeDay y m d = JSDate.Day l.
Proof.
  intros y m d.
  assert (Hm : 0 <= m <= 11) by apply MonthFromDayInYear_range.
  split; [exact Hm |].
  rewrite DaysInMonth_length, MakeDay_in_year by exact Hm.
  subst d. unfold JSDate.DateFromTime. fold y. fold m.
  pose proof (YearFromDay_bounds (JSDate.Day l)) as Hy.
  fold (JSDate.YearFromTime l) in Hy. fold y in Hy.
  rewrite DayFromYear_succ, DaysInYear_cases in Hy.
  pose proof (month_of_day_in_year (JSDate.InLeapYear y) (JSDate.DayWithinYear l)) as Hmo.
  unfold m, JSDate.MonthFromTime. fold y.
  unfold JSDate.DayWithinYear in *. fold y in Hmo |- *.
  split; lia.
Qed.

Lemma getters_at_time (tza y m d r : Z) :
  0 <= m <= 11 -> 1 <= d <= JSDate.DaysInMonth y m -> 0 <= r < JSDate.msPerDay ->
  let t := JSDate.UTC tza (JSDate.MakeDate (JSDate.MakeDay y m d) r) in
  JSDate.getFullYear tza t = y /\ JSDate.getMonth tza t = m /\ JSDate.getDate tza t = d.
Proof.
  intros Hm Hd Hr t. subst t.
  destruct (fields_of_MakeDay y m d Hm Hd) as (Hy & Hmo & Hda).
  unfold JSDate.getFullYear, JSDate.getMonth, JSDate.getDate, JSDate.DateFromTime,
    JSDate.MonthFromTime, JSDate.DayWithinYear, JSDate.YearFromTime.
  rewrite LocalTime_UTC, Day_MakeDate by assumption.
  rewrite Hy, Hmo. auto.
Qed.

(** ** The period TODAY *)

Lemma startOfDay_midnight (tza now : Z) :
  ~ 0 <= JSDate.getFullYear tza now <= 99 ->
  Dashboard.startOfDay tza now = JSDate.Day (now + tza) * JSDate.msPerDay - tza.
Proof.
  intros Hy. unfold Dashboard.startOfDay, JSDate.ofFields.
  destruct (Z.leb_spec 0 (JSDate.getFullYear tza now));
    destruct (Z.leb_spec (JSDate.getFullYear tza now) 99); cbn [andb]; try lia.
  all: unfold JSDate.getFullYear, JSDate.getMonth, JSDate.getDate, JSDate.LocalTime.
  all: destruct (fields_of_time (now + tza)) as (_ & _ & ->).
  all: unfold JSDate.UTC, JSDate.MakeDate, JSDate.MakeTime; lia.
Qed.

(** The period TODAY starts at midnight local time of the day of [now]
    (in a year that is not one of 0..99, which [new Date(y, m, d)] reads
    as 1900 + y), and has no end: a transaction is kept when its date is
    valid and the instant it stands for falls, in local time, on the day
    of [now] or on a later day.  When that instant is a midnight UTC, as
    it is for a date written [YYYY-MM-DD], this is the day of [now] or a
    later one from UTC eastward (by less than a day), but a day after
    the day of [now] west of UTC (by at most a day): there the
    transactions dated the day of [now] are left out. *)
Theorem today_starts_at_local_midnight
    (LocalTZA now : Z) (transactions : list Transaction) (t : Transaction) :
  ~ 0 <= JSDate.getFullYear LocalTZA now <= 99 ->
  let today := JSDate.Day (JSDate.LocalTime LocalTZA now) in
  let kept := In t (Dashboard.filteredTransactions LocalTZA now transactions
                      Dashboard.TODAY) in
  Dashboard.startOfDay LocalTZA now = JSDate.UTC LocalTZA (today * JSDate.msPerDay)
  /\ (kept <-> In t transactions
               /\ exists v, JSDate.parse (date t) = Some v
                            /\ today <= JSDate.Day (JSDate.LocalTime LocalTZA v))
  /\ (forall v, JSDate.parse (date t) = Some v -> JSDate.TimeWithinDay v = 0 ->
        (0 <= LocalTZA < JSDate.msPerDay ->
         (kept <-> In t transactions /\ today <= JSDate.Day v))
        /\ (- JSDate.msPerDay <= LocalTZA < 0 ->
            (kept <-> In t transactions /\ today < JSDate.Day v))).
Proof.
  intros Hy today kept.
  pose proof (startOfDay_midnight LocalTZA now Hy) as Hs.
  unfold JSDate.LocalTime in today. fold today in Hs.
  assert (Hin : kept <-> In t transactions
                         /\ exists v, JSDate.parse (date t) = Some v
                                      /\ today * JSDate.msPerDay - LocalTZA <= v).
  { unfold kept. rewrite <- Hs. unfold Dashboard.filteredTransactions.
    rewrite filterFrom_filter by discriminate. rewrite filter_In.
    change (fst (Dashboard.keep LocalTZA now Dashboard.TODAY now t))
      with (JSDate.geq (JSDate.parse (date t)) (Some (Dashboard.startOfDay LocalTZA now))).
    unfold JSDate.geq. destruct (JSDate.parse (date t)) as [v |].
    - rewrite Z.leb_le. split.
      + intros [H1 H2]. split; [assumption |]. now exists v.
      + intros [H1 (v' & E & H2)]. inversion E; subst. now split.
    - split; [intros [_ H]; discriminate | intros [_ (v & E & _)]; discriminate]. }
  assert (Hday : forall v, today * JSDate.msPerDay - LocalTZA <= v
                           <-> today <= JSDate.Day (v + LocalTZA)).
  { intros v. unfold JSDate.Day, JSDate.msPerDay.
    split; intros H; Z.to_euclidean_division_equations; lia. }
  split; [exact Hs |]. split.
  - rewrite Hin. unfold JSDate.LocalTime. split.
    + intros [H1 (v & E & H2)]. split; [exact H1 |]. exists v. split; [exact E |].
      now apply Hday.
    + intros [H1 (v & E & H2)]. split; [exact H1 |]. exists v. split; [exact E |].
      now apply Hday.
  - intros v E Hmid. unfold JSDate.TimeWithinDay in Hmid.
    split; intros Htz; rewrite Hin; split.
    + intros [H1 (v' & E' & H2)]. rewrite E in E'. inversion E'; subst v'.
      split; [exact H1 |]. revert H2 Hmid. unfold JSDate.Day, JSDate.msPerDay in *.
      intros. Z.to_euclidean_division_equations. lia.
    + intros [H1 H2]. split; [exact H1 |]. exists v. split; [exact E |].
      revert H2 Hmid. unfold JSDate.Day, JSDate.msPerDay in *.
      intros. Z.to_euclidean_division_equations. lia.
    + intros [H1 (v' & E' & H2)]. rewrite E in E'. inversion E'; subst v'.
      split; [exact H1 |]. revert H2 Hmid. unfold JSDate.Day, JSDate.msPerDay in *.
      intros. Z.to_euclidean_division_equations. lia.
    + intros [H1 H2]. split; [exact H1 |]. exists v. split; [exact E |].
      revert H2 Hmid. unfold JSDate.Day, JSDate.msPerDay in *.
      intros. Z.to_euclidean_division_equations. lia.
Qed.

Lemma today_starts_at_local_midnight_witness :
  let t := mkTransaction "1" "2024-03-15" 20 EXPENSE "Transportasi" "" None (Some "1") in
  Dashboard.startOfDay (-18000000) 1710500400000
  = JSDate.UTC (-18000000)
      (JSDate.Day (JSDate.LocalTime (-18000000) 1710500400000) * JSDate.msPerDay)
  /\ (In t (Dashboard.filteredTransactions (-18000000) 1710500400000 [t] Dashboard.TODAY)
      <-> In t [t]
          /\ JSDate.Day (JSDate.LocalTime (-18000000) 1710500400000)
             < JSDate.Day 1710460800000).
Proof.
  intros t.
  assert (Hy : ~ 0 <= JSDate.getFullYear (-18000000) 1710500400000 <= 99)
    by (vm_compute; intros [_ H]; apply H; reflexivity).
  assert (Htz : - JSDate.msPerDay <= -18000000 < 0)
    by (vm_compute; split; [discriminate | reflexivity]).
  destruct (today_starts_at_local_midnight (-18000000) 1710500400000 [t] t Hy)
    as (Hstart & _ & Hmid).
  split; [exact Hstart |].
  destruct (Hmid 1710460800000 eq_refl eq_refl) as [_ Hwest].
  exact (Hwest Htz).
Defined.

(** ** The calendar periods at or east of UTC *)

Lemma inPeriod_MONTHLY (tza cur : Z) (range : Reports.CustomRange) (t : Transaction) :
  Reports.inPeriod tza Reports.MONTHLY cur range t
  = JSDate.same (JSDate.getMonth tza <$> JSDate.parse (date t))
      (Some (JSDate.getMonth tza cur))
    && JSDate.same (JSDate.getFullYear tza <$> JSDate.parse (date t))
         (Some (JSDate.getFullYear tza cur)).
Proof. reflexivity. Qed.

Lemma inPeriod_YEARLY (tza cur : Z) (range : Reports.CustomRange) (t : Transaction) :
  Reports.inPeriod tza Reports.YEARLY cur range t
  = JSDate.same (JSDate.getFullYear tza <$> JSDate.parse (date t))
      (Some (JSDate.getFullYear tza cur)).
Proof. reflexivity. Qed.

(** In a zone at or east of UTC (by less than a day), a transaction
    whose date is written [YYYY-MM-DD] and names a day that exists is in
    the monthly period of the reports exactly when the date is written
    with the year and the month of [currentDate] in local time, and in
    the yearly period exactly when it is written with its year. *)
Theorem monthly_and_yearly_periods_east_of_UTC
    (LocalTZA currentDate : Z) (transactions : list Transaction)
    (customRange : Reports.CustomRange) (t : Transaction) (y m d : Z) :
  0 <= LocalTZA < JSDate.msPerDay ->
  JSDate.parseFields (date t) = Some (y, m, d) ->
  JSDate.validFields y m d = true ->
  let Y := JSDate.getFullYear LocalTZA currentDate in
  let M := JSDate.getMonth LocalTZA currentDate in
  (In t (Reports.filteredData LocalTZA transactions Reports.MONTHLY currentDate customRange)
   <-> In t transactions /\ y = Y /\ m = M + 1)
  /\ (In t (Reports.filteredData LocalTZA transactions Reports.YEARLY currentDate customRange)
      <-> In t transactions /\ y = Y).
Proof.
  intros Htz Hf Hv Y M.
  destruct (written_fields_east_of_UTC LocalTZA (date t) y m d Htz Hf Hv)
    as (v & Ev & Gy & Gm & _).
  unfold Reports.filteredData. rewrite !filter_In.
  rewrite inPeriod_MONTHLY, inPeriod_YEARLY. fold Y. fold M.
  rewrite Ev, !same_fmap_Some, Gy, Gm. split.
  - rewrite andb_true_iff, !Z.eqb_eq. split.
    + intros [Hin [H1 H2]]. split; [assumption |]. split; lia.
    + intros [Hin [H1 H2]]. split; [assumption |]. split; lia.
  - rewrite Z.eqb_eq. reflexivity.
Qed.

Lemma monthly_and_yearly_periods_east_of_UTC_witness :
  let t := mkTransaction "1" "2024-03-01" 20 EXPENSE "Transportasi" "" None (Some "1") in
  In t (Reports.filteredData 25200000 [t] Reports.MONTHLY 1710500400000
          (Reports.mkRange "" ""))
  <-> In t [t]
      /\ 2024 = JSDate.getFullYear 25200000 1710500400000
      /\ 3 = JSDate.getMonth 25200000 1710500400000 + 1.
Proof.
  intros t.
  assert (Htz : 0 <= 25200000 < JSDate.msPerDay)
    by (vm_compute; split; [discriminate | reflexivity]).
  destruct (monthly_and_yearly_periods_east_of_UTC 25200000 1710500400000 [t]
              (Reports.mkRange "" "") t 2024 3 1 Htz eq_refl eq_refl) as [Hmonth _].
  exact Hmonth.
Defined.

Lemma keep_THIS_MONTH (tza start now : Z) (t : Transaction) :
  fst (Dashboard.keep tza start Dashboard.THIS_MONTH now t)
  = JSDate.same (JSDate.getMonth tza <$> JSDate.parse (date t))
      (Some (JSDate.getMonth tza now))
    && JSDate.same (JSDate.getFullYear tza <$> JSDate.parse (date t))
         (Some (JSDate.getFullYear tza now)).
Proof. reflexivity. Qed.

Lemma keep_THIS_YEAR (tza start now : Z) (t : Transaction) :
  fst (Dashboard.keep tza start Dashboard.THIS_YEAR now t)
  = JSDate.same (JSDate.getFullYear tza <$> JSDate.parse (date t))
      (Some (JSDate.getFullYear tza now)).
Proof. reflexivity. Qed.

(** The dashboard and the reports select the same transactions for the
    month and for the year of an instant, in every time zone; for its
    week, the reports keep the part of the dashboard's selection that is
    not after the Sunday, and the dashboard's ALL keeps everything. *)
Theorem dashboard_periods_agree_with_reports
    (LocalTZA now : Z) (transactions : list Transaction)
    (customRange : Reports.CustomRange) :
  Dashboard.filteredTransactions LocalTZA now transactions Dashboard.THIS_MONTH
  = Reports.filteredData LocalTZA transactions Reports.MONTHLY now customRange
  /\ Dashboard.filteredTransactions LocalTZA now transactions Dashboard.THIS_YEAR
     = Reports.filteredData LocalTZA transactions Reports.YEARLY now customRange
  /\ Reports.filteredData LocalTZA transactions Reports.WEEKLY now customRange
     = List.filter
         (fun t => JSDate.leq (JSDate.parse (date t))
                     (Some (Reports.endOfWeek LocalTZA now)))
         (Dashboard.filteredTransactions LocalTZA now transactions Dashboard.THIS_WEEK)
  /\ Dashboard.filteredTransactions LocalTZA now transactions Dashboard.ALL = transactions.
Proof.
  unfold Dashboard.filteredTransactions, Reports.filteredData.
  split; [| split; [| split]].
  - rewrite filterFrom_filter by discriminate.
    apply filter_ext. intros t. now rewrite keep_THIS_MONTH, inPeriod_MONTHLY.
  - rewrite filterFrom_filter by discriminate.
    apply filter_ext. intros t. now rewrite keep_THIS_YEAR, inPeriod_YEARLY.
  - rewrite filterFrom_THIS_WEEK. set (monday := Reports.startOfWeek LocalTZA now).
    induction transactions as [|t ts IH]; [reflexivity |].
    cbn [List.filter].
    change (Reports.inPeriod LocalTZA Reports.WEEKLY now customRange t)
      with (JSDate.geq (JSDate.parse (date t)) (Some monday)
            && JSDate.leq (JSDate.parse (date t)) (Some (Reports.endOfWeek LocalTZA now))).
    destruct (JSDate.geq (JSDate.parse (date t)) (Some monday)); cbn [andb List.filter].
    + rewrite IH. reflexivity.
    + exact IH.
  - rewrite filterFrom_filter by discriminate.
    induction transactions as [|t ts IH]; [reflexivity |].
    cbn [List.filter]. change (fst (Dashboard.keep LocalTZA now Dashboard.ALL now t)) with true.
    cbv iota. now rewrite IH.
Qed.
